(** * Marinara: the countdown timer and the Pomodoro phase sequencer

    A shallow embedding of [src/background/Timer.js]: the single-interval
    [Timer], the phase sequencer [PomodoroTimer] with its generator
    [createTimers], and the settings-bound wrapper [PersistentPomodoroTimer].

    Conventions.
    - A JavaScript number is a rational ([Q]); [null]/[undefined] is [None].
      Arithmetic on a nullable field coerces [null] to [0], as [ToNumber] does.
      The timer's own subtractions are kept exact; the conversion of minutes
      to whole seconds, whose result depends on the rounding of the product,
      is computed as in double precision ([round64]).
    - [Date.now()] is an input of every operation that reads the clock
      (an integer number of milliseconds).
    - [setTimeout]/[setInterval] return a fresh handle and register a job with
      the host; [clearTimeout]/[clearInterval] remove the job with that handle.
      Every timer carries the list of the jobs whose closure captures it.
    - [emit] appends to the list of events an operation returns; the listeners
      registered on an emitter are observers that do not call back into it. *)

From Stdlib Require Import ZArith QArith Qround List Bool Lia.
From Stdlib Require Qcanon.
Import ListNotations.

Local Open Scope Z_scope.

(** ** JavaScript values used by the program *)

(** A number or [null]. *)
Definition Value := option Q.

(** [ToNumber] on a nullable number: [null] becomes [0]. *)
Definition toNumber (v : Value) : Q :=
  match v with Some q => q | None => 0%Q end.

(** [ToNumber] on a nullable timestamp. *)
Definition toMillis (v : option Z) : Z :=
  match v with Some z => z | None => 0 end.

(** [const TimerState = new Enum({Stopped: 0, Running: 1, Paused: 2})]. *)
Inductive TimerState := Stopped | Running | Paused.

Definition TimerState_eqb (a b : TimerState) : bool :=
  match a, b with
  | Stopped, Stopped | Running, Running | Paused, Paused => true
  | _, _ => false
  end.

(** The names a [Timer] emits under. *)
Inductive EventName :=
  EvStart | EvStop | EvPause | EvResume | EvTick | EvExpire | EvChange.

Definition EventName_eqb (a b : EventName) : bool :=
  match a, b with
  | EvStart, EvStart | EvStop, EvStop | EvPause, EvPause
  | EvResume, EvResume | EvTick, EvTick | EvExpire, EvExpire
  | EvChange, EvChange => true
  | _, _ => false
  end.

(** [emit(name, ...args)]. *)
Record Event := mkEvent { name : EventName; args : list Value }.

(** ** The host's scheduler, as seen from one timer *)

Definition Handle := nat.
Bind Scope nat_scope with Handle.

Inductive Callback := ExpireCallback | TickCallback.

Definition Callback_eqb (a b : Callback) : bool :=
  match a, b with
  | ExpireCallback, ExpireCallback | TickCallback, TickCallback => true
  | _, _ => false
  end.

(** A registered callback: its handle, which closure it is, and the delay
    (or period) in milliseconds. *)
Record Job := mkJob { handle : Handle; callback : Callback; delay : Q }.

(** [clearTimeout(h)] and [clearInterval(h)]: a [null] or stale handle
    cancels nothing. *)
Definition clearJob (h : option Handle) (js : list Job) : list Job :=
  match h with
  | None => js
  | Some i => filter (fun j => negb (Nat.eqb (handle j) i)) js
  end.

Definition isScheduled (h : Handle) (c : Callback) (js : list Job) : bool :=
  existsb (fun j => Nat.eqb (handle j) h && Callback_eqb (callback j) c) js.

(** ** class Timer *)

Module Timer.

Record t := mk {
  state : TimerState;
  duration : Q;
  tick : Q;
  tickInterval : option Handle;
  expireTimeout : option Handle;
  periodStartTime : option Z;
  remaining : Value;
  (* host side: callbacks of this timer that are registered and not
     cancelled, and the next handle the host hands out *)
  jobs : list Job;
  nextHandle : Handle;
  (* EventEmitter side: whether the owner's handlers are registered
     ([observe] sets it, [removeAllListeners] clears it) *)
  observed : bool
}.

(** [constructor(duration, tick)]. *)
Definition new (duration tick : Q) : t :=
  mk Stopped duration tick None None None None [] 0%nat false.

Definition set_state (v : TimerState) (x : t) : t :=
  mk v (duration x) (tick x) (tickInterval x) (expireTimeout x)
     (periodStartTime x) (remaining x) (jobs x) (nextHandle x) (observed x).

Definition set_tickInterval (v : option Handle) (x : t) : t :=
  mk (state x) (duration x) (tick x) v (expireTimeout x)
     (periodStartTime x) (remaining x) (jobs x) (nextHandle x) (observed x).

Definition set_expireTimeout (v : option Handle) (x : t) : t :=
  mk (state x) (duration x) (tick x) (tickInterval x) v
     (periodStartTime x) (remaining x) (jobs x) (nextHandle x) (observed x).

Definition set_periodStartTime (v : option Z) (x : t) : t :=
  mk (state x) (duration x) (tick x) (tickInterval x) (expireTimeout x)
     v (remaining x) (jobs x) (nextHandle x) (observed x).

Definition set_remaining (v : Value) (x : t) : t :=
  mk (state x) (duration x) (tick x) (tickInterval x) (expireTimeout x)
     (periodStartTime x) v (jobs x) (nextHandle x) (observed x).

Definition set_jobs (v : list Job) (x : t) : t :=
  mk (state x) (duration x) (tick x) (tickInterval x) (expireTimeout x)
     (periodStartTime x) (remaining x) v (nextHandle x) (observed x).

Definition set_nextHandle (v : Handle) (x : t) : t :=
  mk (state x) (duration x) (tick x) (tickInterval x) (expireTimeout x)
     (periodStartTime x) (remaining x) (jobs x) v (observed x).

Definition set_observed (v : bool) (x : t) : t :=
  mk (state x) (duration x) (tick x) (tickInterval x) (expireTimeout x)
     (periodStartTime x) (remaining x) (jobs x) (nextHandle x) v.

(** [observe(observer)] with an observer that has all seven handlers, and
    [removeAllListeners()]. *)
Definition observe (x : t) : t := set_observed true x.
Definition removeAllListeners (x : t) : t := set_observed false x.

Definition isStopped (x : t) : bool := TimerState_eqb (state x) Stopped.
Definition isRunning (x : t) : bool := TimerState_eqb (state x) Running.
Definition isPaused (x : t) : bool := TimerState_eqb (state x) Paused.

(** The host registers a callback and returns its handle. *)
Definition schedule (c : Callback) (ms : Q) (x : t) : Handle * t :=
  let h := nextHandle x in
  (h, set_nextHandle (S h) (set_jobs (mkJob h c ms :: jobs x) x)).

Definition clearInterval (h : option Handle) (x : t) : t :=
  set_jobs (clearJob h (jobs x)) x.

Definition clearTimeout (h : option Handle) (x : t) : t :=
  set_jobs (clearJob h (jobs x)) x.

(** [setExpireTimeout(seconds)]: [this.expireTimeout = setTimeout(.., seconds * 1000)]. *)
Definition setExpireTimeout (seconds : Q) (x : t) : t :=
  let (h, x1) := schedule ExpireCallback (seconds * 1000)%Q x in
  set_expireTimeout (Some h) x1.

(** [setTickInterval(seconds)]: [this.tickInterval = setInterval(.., seconds * 1000)]. *)
Definition setTickInterval (seconds : Q) (x : t) : t :=
  let (h, x1) := schedule TickCallback (seconds * 1000)%Q x in
  set_tickInterval (Some h) x1.

(** [(Date.now() - this.periodStartTime) / 1000]. *)
Definition periodLength (now : Z) (x : t) : Q :=
  (inject_Z (now - toMillis (periodStartTime x)) / 1000)%Q.

Definition start (now : Z) (x : t) : t * list Event :=
  if negb (isStopped x) then (x, [])
  else
    let x := setExpireTimeout (duration x) x in
    let x := setTickInterval (tick x) x in
    let x := set_remaining (Some (duration x)) x in
    let x := set_state Running x in
    let x := set_periodStartTime (Some now) x in
    (x, [mkEvent EvStart [Some 0%Q; remaining x]; mkEvent EvChange []]).

Definition stop (x : t) : t * list Event :=
  if isStopped x then (x, [])
  else
    let x := clearInterval (tickInterval x) x in
    let x := clearTimeout (expireTimeout x) x in
    let x := set_tickInterval None x in
    let x := set_expireTimeout None x in
    let x := set_periodStartTime None x in
    let x := set_remaining None x in
    let x := set_state Stopped x in
    (x, [mkEvent EvStop []; mkEvent EvChange []]).

Definition pause (now : Z) (x : t) : t * list Event :=
  if negb (isRunning x) then (x, [])
  else
    let x := clearInterval (tickInterval x) x in
    let x := clearTimeout (expireTimeout x) x in
    let len := periodLength now x in
    let x := set_remaining (Some (toNumber (remaining x) - len)%Q) x in
    let x := set_state Paused x in
    let x := set_periodStartTime None x in
    let elapsed := (duration x - toNumber (remaining x))%Q in
    (x, [mkEvent EvPause [Some elapsed; remaining x]; mkEvent EvChange []]).

Definition resume (now : Z) (x : t) : t * list Event :=
  if negb (isPaused x) then (x, [])
  else
    let x := setExpireTimeout (toNumber (remaining x)) x in
    let x := setTickInterval (tick x) x in
    let x := set_state Running x in
    let x := set_periodStartTime (Some now) x in
    let elapsed := (duration x - toNumber (remaining x))%Q in
    (x, [mkEvent EvResume [Some elapsed; remaining x]; mkEvent EvChange []]).

(** [reset() { this.stop(); this.start(); }] *)
Definition reset (now : Z) (x : t) : t * list Event :=
  let (x1, e1) := stop x in
  let (x2, e2) := start now x1 in
  (x2, e1 ++ e2).

(** The closure given to [setTimeout] in [setExpireTimeout]. *)
Definition expireCallback (x : t) : t * list Event :=
  let x := clearInterval (tickInterval x) x in
  let x := clearTimeout (expireTimeout x) x in
  let x := set_tickInterval None x in
  let x := set_expireTimeout None x in
  let x := set_periodStartTime None x in
  let x := set_remaining None x in
  let x := set_state Stopped x in
  (x, [mkEvent EvExpire [Some (duration x); Some 0%Q]; mkEvent EvChange []]).

(** The closure given to [setInterval] in [setTickInterval]. *)
Definition tickCallback (now : Z) (x : t) : t * list Event :=
  let len := periodLength now x in
  let remaining' := (toNumber (remaining x) - len)%Q in
  let elapsed := (duration x - remaining')%Q in
  (x, [mkEvent EvTick [Some elapsed; Some remaining']]).

(** The host fires the one-shot job [h]: it leaves the host's table, then
    its closure runs.  A handle that is not registered fires nothing. *)
Definition fireExpire (h : Handle) (x : t) : t * list Event :=
  if isScheduled h ExpireCallback (jobs x)
  then expireCallback (set_jobs (clearJob (Some h) (jobs x)) x)
  else (x, []).

(** The host fires the periodic job [h]: it stays registered. *)
Definition fireTick (h : Handle) (now : Z) (x : t) : t * list Event :=
  if isScheduled h TickCallback (jobs x)
  then tickCallback now x
  else (x, []).

(** What can happen to a timer: a call of one of its methods, or the host
    firing one of its callbacks. *)
Inductive Op :=
| Start (now : Z)
| Stop
| Pause (now : Z)
| Resume (now : Z)
| Reset (now : Z)
| FireTick (h : Handle) (now : Z)
| FireExpire (h : Handle).

Definition exec (o : Op) (x : t) : t * list Event :=
  match o with
  | Start now => start now x
  | Stop => stop x
  | Pause now => pause now x
  | Resume now => resume now x
  | Reset now => reset now x
  | FireTick h now => fireTick h now x
  | FireExpire h => fireExpire h x
  end.

(** A history of operations: the final timer and everything emitted, in
    order. *)
Fixpoint run (os : list Op) (x : t) : t * list Event :=
  match os with
  | [] => (x, [])
  | o :: os' =>
      let (x1, e1) := exec o x in
      let (x2, e2) := run os' x1 in
      (x2, e1 ++ e2)
  end.

(** The timers met along a history, one after each operation. *)
Fixpoint visited (os : list Op) (x : t) : list t :=
  match os with
  | [] => []
  | o :: os' => let x1 := fst (exec o x) in x1 :: visited os' x1
  end.

End Timer.

(** ** Phases and settings *)

(** [const Phase = new Enum({Focus: 0, ShortBreak: 1, LongBreak: 2})]. *)
Inductive Phase := Focus | ShortBreak | LongBreak.

Definition Phase_eqb (a b : Phase) : bool :=
  match a, b with
  | Focus, Focus | ShortBreak, ShortBreak | LongBreak, LongBreak => true
  | _, _ => false
  end.

(** [this.phase != newPhase], where [this.phase] may still be [null]. *)
Definition phase_neq (current : option Phase) (newPhase : Phase) : bool :=
  match current with
  | Some p => negb (Phase_eqb p newPhase)
  | None => true
  end.

(** The settings object [{focus: {duration}, shortBreak: {duration},
    longBreak: {duration, interval}}]; durations are minutes, [interval]
    is a count (an integer, of either sign) and is [None] when the property
    is absent. *)
Record Settings := mkSettings {
  focus_duration : Q;
  shortBreak_duration : Q;
  longBreak_duration : Q;
  longBreak_interval : option Z
}.

(** Truthiness of [interval]: [undefined] and [0] are falsy. *)
Definition truthy (interval : option Z) : bool :=
  match interval with
  | Some z => negb (z =? 0)
  | None => false
  end.

(** [interval > 0]; a comparison with [undefined] is false. *)
Definition positive (interval : option Z) : bool :=
  match interval with
  | Some z => 0 <? z
  | None => false
  end.

(** What a [PomodoroTimer] emits: a ['timer:' + name] event carrying
    [(phase, nextPhase, ...args)], or ['cycle:reset'] carrying the phase. *)
Inductive PomodoroEvent :=
| TimerEvent (n : EventName) (phase nextPhase : option Phase) (a : list Value)
| CycleReset (newPhase : Phase).

Inductive Error :=
| InvalidConfiguration  (* new Error('No long break interval defined.') *)
| TypeError.            (* a method called on [undefined] *)

(** How a call ends: it returns, it throws (the object is left as it was at
    the throw), or the model's fuel for the call's loop ran out. *)
Inductive Outcome (S : Type) :=
| Returns (s : S) (emitted : list PomodoroEvent)
| Throws (e : Error) (s : S) (emitted : list PomodoroEvent)
| OutOfFuel.

Arguments Returns {S} s emitted.
Arguments Throws {S} e s emitted.
Arguments OutOfFuel {S}.

(** ** Double-precision rounding *)

(** [a / d >= 2 ^ g], for positive [a] and [d]. *)
Definition reaches (a d g : Z) : bool :=
  if 0 <=? g then d * 2 ^ g <=? a else d <=? a * 2 ^ (- g).

(** The binary exponent of [a / d]: the [g] with [2 ^ g <= a / d < 2 ^ (g + 1)]. *)
Definition binade (a d : Z) : Z :=
  let g := Z.log2 a - Z.log2 d in
  if reaches a d g then g else g - 1.

(** The integer nearest to [n / d], a tie going to the even one. *)
Definition nearestEven (n d : Z) : Z :=
  let q := n / d in
  match 2 * (n mod d) ?= d with
  | Lt => q
  | Gt => q + 1
  | Eq => if Z.even q then q else q + 1
  end.

Definition pow2 (e : Z) : Q :=
  if 0 <=? e then inject_Z (2 ^ e) else 1 # Z.to_pos (2 ^ (- e)).

(** The double nearest to [x]: a 53-bit significand, round to nearest, ties
    to even.  Overflow to [Infinity] and subnormal numbers are left out: the
    magnitudes of a timer's settings are far from both. *)
Definition round64 (x : Q) : Q :=
  let n := Qnum (Qred x) in
  let d := Zpos (Qden (Qred x)) in
  if n =? 0 then 0%Q
  else
    let a := Z.abs n in
    let e := binade a d - 52 in
    let m := if 0 <=? e then nearestEven a (d * 2 ^ e)
             else nearestEven (a * 2 ^ (- e)) d in
    Qred (inject_Z (Z.sgn n * m) * pow2 e).

(** ** class PomodoroTimer *)

Module PomodoroTimer.

(** Where the generator [createTimers] is suspended: not yet started, or at
    one of its three [yield]s (the first two inside the [for] loop whose
    counter is [i]). *)
Inductive Cursor :=
| Entry
| AfterFocus (i : Z)
| AfterShortBreak (i : Z)
| AfterLongBreak.

Record t := mk {
  settings : Settings;
  _phase : option Phase;
  nextPhase : option Phase;
  timer : option Timer.t;
  timerGenerator : Cursor;
  startOfCycle : bool;
  (* EventEmitter side: whether an observer's handlers are registered *)
  observed : bool
}.

Definition set__phase (v : option Phase) (s : t) : t :=
  mk (settings s) v (nextPhase s) (timer s) (timerGenerator s)
     (startOfCycle s) (observed s).

Definition set_nextPhase (v : option Phase) (s : t) : t :=
  mk (settings s) (_phase s) v (timer s) (timerGenerator s)
     (startOfCycle s) (observed s).

Definition set_timer (v : option Timer.t) (s : t) : t :=
  mk (settings s) (_phase s) (nextPhase s) v (timerGenerator s)
     (startOfCycle s) (observed s).

Definition set_timerGenerator (v : Cursor) (s : t) : t :=
  mk (settings s) (_phase s) (nextPhase s) (timer s) v
     (startOfCycle s) (observed s).

Definition set_startOfCycle (v : bool) (s : t) : t :=
  mk (settings s) (_phase s) (nextPhase s) (timer s) (timerGenerator s)
     v (observed s).

Definition set_observed (v : bool) (s : t) : t :=
  mk (settings s) (_phase s) (nextPhase s) (timer s) (timerGenerator s)
     (startOfCycle s) v.

(** [get phase()]. *)
Definition phase (s : t) : option Phase := _phase s.

(** [get hasLongBreak()]. *)
Definition hasLongBreak (s : t) : bool :=
  positive (longBreak_interval (settings s)).

(** The handlers [onStart] ... [onChange]: re-emit under the prefixed name
    with the phases read at that moment. *)
Definition handler (s : t) (e : Event) : PomodoroEvent :=
  TimerEvent (name e) (phase s) (nextPhase s) (args e).

(** What the sequencer emits when timer [x] emits [es]: its handlers run
    only while they are registered on [x]. *)
Definition relay (s : t) (x : Timer.t) (es : list Event) : list PomodoroEvent :=
  if Timer.observed x then map (handler s) es else [].

(** The closure [setTimer] of [createTimers]. *)
Definition setTimer (timer' : Timer.t) (s : t) : t * list PomodoroEvent :=
  let es :=
    match timer s with
    | Some old => let (_, e) := Timer.stop old in relay s old e
    | None => []
    end in
  (set_timer (Some (Timer.observe timer')) s, es).

(** [Math.floor(minutes * 60)]: the settings value is a double, [60] is
    one exactly, and their product is rounded to a double before the floor. *)
Definition seconds (minutes : Q) : Q :=
  inject_Z (Qfloor (round64 (round64 minutes * 60))).

(** The three stages of the generator's body, each up to its [yield]. *)
Definition focusStage (i : Z) (s : t) : t * list PomodoroEvent :=
  let s := set__phase (Some Focus) s in
  let s := set_nextPhase (Some ShortBreak) s in
  let (s, es) := setTimer (Timer.new (seconds (focus_duration (settings s))) 60) s in
  (set_timerGenerator (AfterFocus i) s, es).

Definition shortBreakStage (i : Z) (s : t) : t * list PomodoroEvent :=
  let interval := longBreak_interval (settings s) in
  let s := set__phase (Some ShortBreak) s in
  let s := set_nextPhase
             (Some (match interval with
                    | Some z => if negb (z =? 0) && (i =? z - 1)
                                then LongBreak else Focus
                    | None => Focus
                    end)) s in
  let (s, es) := setTimer (Timer.new (seconds (shortBreak_duration (settings s))) 60) s in
  (set_timerGenerator (AfterShortBreak i) s, es).

Definition longBreakStage (s : t) : t * list PomodoroEvent :=
  let s := set__phase (Some LongBreak) s in
  let s := set_nextPhase (Some Focus) s in
  let (s, es) := setTimer (Timer.new (seconds (longBreak_duration (settings s))) 60) s in
  (set_timerGenerator AfterLongBreak s, es).

(** The loop test [!interval || (i < interval)]. *)
Definition forTest (interval : option Z) (i : Z) : bool :=
  negb (truthy interval) ||
  match interval with Some z => i <? z | None => false end.

(** The loop increment [interval && ++i]. *)
Definition forStep (interval : option Z) (i : Z) : Z :=
  if truthy interval then i + 1 else i.

(** From the loop test on: another (Focus, ShortBreak) pair, or out of the
    loop to the long break.  [settings.longBreak] is an object (its
    [interval] was read on entry), so [if (settings.longBreak)] is taken. *)
Definition forLoop (i : Z) (s : t) : t * list PomodoroEvent :=
  if forTest (longBreak_interval (settings s)) i
  then focusStage i s
  else longBreakStage s.

(** [this.timerGenerator.next()]: run the generator to its next [yield]. *)
Definition next (s : t) : t * list PomodoroEvent :=
  match timerGenerator s with
  | Entry => forLoop 0 s
  | AfterFocus i => shortBreakStage i s
  | AfterShortBreak i => forLoop (forStep (longBreak_interval (settings s)) i) s
  | AfterLongBreak => forLoop 0 s
  end.

(** [n] calls of [next()], with everything emitted on the way. *)
Fixpoint nexts (n : nat) (s : t) : t * list PomodoroEvent :=
  match n with
  | O => (s, [])
  | S k =>
      let (s1, e1) := next s in
      let (s2, e2) := nexts k s1 in
      (s2, e1 ++ e2)
  end.

(** [while (this.phase != newPhase) this.timerGenerator.next();] *)
Fixpoint fastForward (fuel : nat) (newPhase : Phase) (s : t) : Outcome t :=
  if phase_neq (phase s) newPhase then
    match fuel with
    | O => OutOfFuel
    | S fuel' =>
        let (s1, e1) := next s in
        match fastForward fuel' newPhase s1 with
        | Returns s2 e2 => Returns s2 (e1 ++ e2)
        | Throws err s2 e2 => Throws err s2 (e1 ++ e2)
        | OutOfFuel => OutOfFuel
        end
    end
  else Returns s [].

(** [set phase(newPhase)]. *)
Definition setPhase (fuel : nat) (newPhase : Phase) (s : t) : Outcome t :=
  if negb (hasLongBreak s) && Phase_eqb newPhase LongBreak
  then Throws InvalidConfiguration s []
  else
    let s := set_timerGenerator Entry s in
    let s := set__phase None s in
    match fastForward fuel newPhase s with
    | Returns s e =>
        let s := set_startOfCycle true s in
        Returns s (e ++ [CycleReset newPhase])
    | other => other
    end.

(** The object the constructor starts from, after [this.settings = settings]:
    no timer, no phase, no listener.  Its [timerGenerator] field is read only
    after the setter has assigned it. *)
Definition blank (settings : Settings) : t :=
  mk settings None None None Entry false false.

(** [constructor(settings, initialPhase)]. *)
Definition new (fuel : nat) (settings : Settings) (initialPhase : Phase) : Outcome t :=
  setPhase fuel initialPhase (blank settings).

(** [observe(observer)] with an observer that has all eight handlers. *)
Definition observe (s : t) : t := set_observed true s.

(** [this.timer.m()] for a method [m] of the timer. *)
Definition onTimer (m : Timer.t -> Timer.t * list Event) (s : t) : Outcome t :=
  match timer s with
  | Some x => let (x', es) := m x in Returns (set_timer (Some x') s) (relay s x es)
  | None => Throws TypeError s []
  end.

Definition dispose (s : t) : Outcome t :=
  match onTimer Timer.stop s with
  | Returns s1 e1 =>
      match timer s1 with
      | Some x => Returns (set_timer (Some (Timer.removeAllListeners x)) s1) e1
      | None => Throws TypeError s1 e1
      end
  | other => other
  end.

Definition start (now : Z) (s : t) : Outcome t :=
  let (s1, e1) :=
    if startOfCycle s then (set_startOfCycle false s, []) else next s in
  match onTimer (Timer.start now) s1 with
  | Returns s2 e2 => Returns s2 (e1 ++ e2)
  | Throws err s2 e2 => Throws err s2 (e1 ++ e2)
  | OutOfFuel => OutOfFuel
  end.

Definition pause (now : Z) (s : t) : Outcome t := onTimer (Timer.pause now) s.
Definition stop (s : t) : Outcome t := onTimer Timer.stop s.
Definition resume (now : Z) (s : t) : Outcome t := onTimer (Timer.resume now) s.
Definition reset (now : Z) (s : t) : Outcome t := onTimer (Timer.reset now) s.

(** [this.phase = p; this.start();] *)
Definition startPhase (fuel : nat) (p : Phase) (now : Z) (s : t) : Outcome t :=
  match setPhase fuel p s with
  | Returns s1 e1 =>
      match start now s1 with
      | Returns s2 e2 => Returns s2 (e1 ++ e2)
      | Throws err s2 e2 => Throws err s2 (e1 ++ e2)
      | OutOfFuel => OutOfFuel
      end
  | other => other
  end.

Definition startCycle (fuel : nat) := startPhase fuel Focus.
Definition startFocus (fuel : nat) := startCycle fuel.
Definition startShortBreak (fuel : nat) := startPhase fuel ShortBreak.
Definition startLongBreak (fuel : nat) := startPhase fuel LongBreak.

(** The host fires a callback of the timer the sequencer owns. *)
Definition fire (f : Timer.t -> Timer.t * list Event) (s : t) : Outcome t :=
  match timer s with
  | Some _ => onTimer f s
  | None => Returns s []
  end.

(** What can happen to a sequencer once it is built. *)
Inductive Op :=
| Start (now : Z)
| Pause (now : Z)
| Stop
| Resume (now : Z)
| Reset (now : Z)
| SetPhase (p : Phase)
| StartCycle (now : Z)
| StartFocus (now : Z)
| StartShortBreak (now : Z)
| StartLongBreak (now : Z)
| FireTick (h : Handle) (now : Z)
| FireExpire (h : Handle).

Definition exec (fuel : nat) (o : Op) (s : t) : Outcome t :=
  match o with
  | Start now => start now s
  | Pause now => pause now s
  | Stop => stop s
  | Resume now => resume now s
  | Reset now => reset now s
  | SetPhase p => setPhase fuel p s
  | StartCycle now => startCycle fuel now s
  | StartFocus now => startFocus fuel now s
  | StartShortBreak now => startShortBreak fuel now s
  | StartLongBreak now => startLongBreak fuel now s
  | FireTick h now => fire (Timer.fireTick h now) s
  | FireExpire h => fire (Timer.fireExpire h) s
  end.

(** The operations that leave the phase alone: the ones that only reach the
    owned timer. *)
Definition keepsPhase (o : Op) : bool :=
  match o with
  | Pause _ | Stop | Resume _ | Reset _ | FireTick _ _ | FireExpire _ => true
  | _ => false
  end.

(** A history of calls on the sequencer; a caller that catches an exception
    goes on with the object as the throw left it. *)
Fixpoint run (fuel : nat) (os : list Op) (s : t) : Outcome t :=
  match os with
  | [] => Returns s []
  | o :: os' =>
      match exec fuel o s with
      | Returns s1 e1 | Throws _ s1 e1 =>
          match run fuel os' s1 with
          | Returns s2 e2 => Returns s2 (e1 ++ e2)
          | other => other
          end
      | OutOfFuel => OutOfFuel
      end
  end.

(** The (phase, nextPhase) pair the sequencer shows after the [n+1]-th
    [next()] of a generator started afresh. *)
Definition generated (st : Settings) (n : nat) : option Phase * option Phase :=
  let s := fst (nexts (S n) (blank st)) in
  (phase s, nextPhase s).

End PomodoroTimer.

(** ** class PersistentPomodoroTimer *)

Module PersistentPomodoroTimer.

Record t := mk { timer : option PomodoroTimer.t }.

(** How a call on the wrapper ends.  [inner] is what the sequencers it held
    emitted during the call, [outer] what the wrapper itself emitted to its
    own observers. *)
Inductive Result :=
| Returned (w : t) (inner outer : list PomodoroEvent)
| Thrown (e : Error) (w : t) (inner outer : list PomodoroEvent)
| NoFuel.

(** The handlers [onTimerStart] ... [onCycleReset]: each re-emits under the
    name it received, with the arguments it received. *)
Definition handler (e : PomodoroEvent) : PomodoroEvent :=
  match e with
  | TimerEvent n p np a => TimerEvent n p np a
  | CycleReset p => CycleReset p
  end.

(** What the wrapper emits when sequencer [s] emits [es]: its handlers run
    only if they are registered on [s]. *)
Definition forward (s : PomodoroTimer.t) (es : list PomodoroEvent) : list PomodoroEvent :=
  if PomodoroTimer.observed s then map handler es else [].

(** [this.timer.m(...)] for a method [m] of the sequencer. *)
Definition delegate (m : PomodoroTimer.t -> Outcome PomodoroTimer.t) (w : t) : Result :=
  match timer w with
  | Some s =>
      match m s with
      | Returns s' es => Returned (mk (Some s')) es (forward s es)
      | Throws err s' es => Thrown err (mk (Some s')) es (forward s es)
      | OutOfFuel => NoFuel
      end
  | None => Thrown TypeError w [] []
  end.

(** [onSettingsChange(settings)]. *)
Definition onSettingsChange (fuel : nat) (settings : Settings) (w : t) : Result :=
  (* this.timer && this.timer.dispose() *)
  let disposed :=
    match timer w with
    | Some _ => delegate PomodoroTimer.dispose w
    | None => Returned w [] []
    end in
  match disposed with
  | Returned w1 i1 o1 =>
      (* this.timer = new PomodoroTimer(settings, Phase.Focus) *)
      match PomodoroTimer.new fuel settings Focus with
      | Returns s es =>
          (* this.timer.observe(this) *)
          Returned (mk (Some (PomodoroTimer.observe s)))
                   (i1 ++ es) (o1 ++ forward (PomodoroTimer.blank settings) es)
      | Throws err _ es =>
          Thrown err w1 (i1 ++ es) (o1 ++ forward (PomodoroTimer.blank settings) es)
      | OutOfFuel => NoFuel
      end
  | other => other
  end.

(** [constructor(settings, settingsManager)], after [super()]. *)
Definition new (fuel : nat) (settings : Settings) : Result :=
  onSettingsChange fuel settings (mk None).

(** The methods of the wrapper delegate to the sequencer it holds; the
    host's callbacks reach that sequencer's timer. *)
Definition exec (fuel : nat) (o : PomodoroTimer.Op) (w : t) : Result :=
  match o with
  | PomodoroTimer.FireTick _ _ | PomodoroTimer.FireExpire _ =>
      match timer w with
      | Some _ => delegate (PomodoroTimer.exec fuel o) w
      | None => Returned w [] []
      end
  | _ => delegate (PomodoroTimer.exec fuel o) w
  end.

(** A history of calls on the wrapper between two settings changes; a caller
    that catches an exception goes on with the object as the throw left it. *)
Fixpoint run (fuel : nat) (os : list PomodoroTimer.Op) (w : t) : Result :=
  match os with
  | [] => Returned w [] []
  | o :: os' =>
      match exec fuel o w with
      | Returned w1 i1 o1 | Thrown _ w1 i1 o1 =>
          match run fuel os' w1 with
          | Returned w2 i2 o2 => Returned w2 (i1 ++ i2) (o1 ++ o2)
          | other => other
          end
      | NoFuel => NoFuel
      end
  end.

End PersistentPomodoroTimer.

(** ** Properties of traces and states used in the statements *)

Definition isChange (e : Event) : bool := EventName_eqb (name e) EvChange.

Definition startsWithChange (l : list Event) : bool :=
  match l with
  | e :: _ => isChange e
  | [] => false
  end.

(** Every event of the log whose name is selected by [trigger] has a
    [change] right behind it. *)
Fixpoint changeFollows (trigger : EventName -> bool) (l : list Event) : bool :=
  match l with
  | [] => true
  | e :: l' =>
      (if trigger (name e) then startsWithChange l' else true)
      && changeFollows trigger l'
  end.

(** No event of the log whose name is selected by [trigger] has a [change]
    right behind it. *)
Fixpoint noChangeBehind (trigger : EventName -> bool) (l : list Event) : bool :=
  match l with
  | [] => true
  | e :: l' =>
      (if trigger (name e) then negb (startsWithChange l') else true)
      && noChangeBehind trigger l'
  end.

(** start, stop, pause, resume, tick and expire. *)
Definition notChange (n : EventName) : bool := negb (EventName_eqb n EvChange).

(** start, stop, pause, resume and expire. *)
Definition transition (n : EventName) : bool :=
  match n with
  | EvStart | EvStop | EvPause | EvResume | EvExpire => true
  | EvTick | EvChange => false
  end.

Definition isTick (n : EventName) : bool := EventName_eqb n EvTick.

(** The shapes of what one operation emits. *)
Inductive Emission : list Event -> Prop :=
| EmitNothing : Emission []
| EmitTransition n a :
    transition n = true -> Emission [mkEvent n a; mkEvent EvChange []]
| EmitReset n a :
    transition n = true ->
    Emission [mkEvent EvStop []; mkEvent EvChange []; mkEvent n a; mkEvent EvChange []]
| EmitTick a : Emission [mkEvent EvTick a].

(** A log in which every transition is followed by [change], no tick is, and
    which does not begin with [change]. *)
Definition WellPaced (l : list Event) : Prop :=
  changeFollows transition l = true /\
  noChangeBehind isTick l = true /\
  startsWithChange l = false.

(** The invariant of the data model. *)
Definition StateInvariant (x : Timer.t) : Prop :=
  (Timer.remaining x = None <-> Timer.state x = Stopped) /\
  (Timer.periodStartTime x <> None <-> Timer.state x = Running).

(** The callbacks a timer has registered with the host: both of them, under
    the handles it keeps, exactly while it runs. *)
Definition JobsInvariant (x : Timer.t) : Prop :=
  match Timer.state x with
  | Running =>
      exists ht he dt de,
        Timer.tickInterval x = Some ht /\
        Timer.expireTimeout x = Some he /\
        ht <> he /\
        Timer.jobs x = [mkJob ht TickCallback dt; mkJob he ExpireCallback de]
  | _ => Timer.jobs x = []
  end.

(** The long-break interval is absent, zero, or a positive count. *)
Definition intervalDefined (st : Settings) : Prop :=
  match longBreak_interval st with
  | Some z => 0 <= z
  | None => True
  end.

(** Calls of [next()] that reach every phase the setter accepts. *)
Definition enoughFuel (st : Settings) : nat :=
  match longBreak_interval st with
  | Some z => 2 * Z.to_nat z + 2
  | None => 2
  end.

(** The minutes configured for a phase. *)
Definition minutes (st : Settings) (p : Phase) : Q :=
  match p with
  | Focus => focus_duration st
  | ShortBreak => shortBreak_duration st
  | LongBreak => longBreak_duration st
  end.

(** The timer [createTimers] installs for phase [p]. *)
Definition installed (st : Settings) (p : Phase) : Timer.t :=
  Timer.observe (Timer.new (PomodoroTimer.seconds (minutes st p)) 60).

(** The phase a sequencer event is tagged with. *)
Definition taggedWith (p : Phase) (e : PomodoroEvent) : Prop :=
  match e with
  | TimerEvent _ cur _ _ => cur = Some p
  | CycleReset _ => True
  end.

(** The generator's control alone: where it is suspended after one more
    [next()], and the phases it has then written to the sequencer. *)
Definition enter (interval : option Z) (i : Z) : PomodoroTimer.Cursor :=
  if PomodoroTimer.forTest interval i
  then PomodoroTimer.AfterFocus i
  else PomodoroTimer.AfterLongBreak.

Definition advance (interval : option Z) (c : PomodoroTimer.Cursor) : PomodoroTimer.Cursor :=
  match c with
  | PomodoroTimer.Entry => enter interval 0
  | PomodoroTimer.AfterFocus i => PomodoroTimer.AfterShortBreak i
  | PomodoroTimer.AfterShortBreak i => enter interval (PomodoroTimer.forStep interval i)
  | PomodoroTimer.AfterLongBreak => enter interval 0
  end.

Definition written (interval : option Z) (c : PomodoroTimer.Cursor) : option Phase * option Phase :=
  match c with
  | PomodoroTimer.Entry => (None, None)
  | PomodoroTimer.AfterFocus _ => (Some Focus, Some ShortBreak)
  | PomodoroTimer.AfterShortBreak i =>
      (Some ShortBreak,
       Some (match interval with
             | Some z => if negb (z =? 0) && (i =? z - 1) then LongBreak else Focus
             | None => Focus
             end))
  | PomodoroTimer.AfterLongBreak => (Some LongBreak, Some Focus)
  end.

(** A sequencer between two calls: the phases it shows are the ones the
    generator wrote at its last [yield], and the timer it owns is the one
    installed there. *)
Definition Settled (s : PomodoroTimer.t) : Prop :=
  (PomodoroTimer.phase s, PomodoroTimer.nextPhase s) =
    written (longBreak_interval (PomodoroTimer.settings s)) (PomodoroTimer.timerGenerator s) /\
  exists p x, PomodoroTimer.phase s = Some p /\ PomodoroTimer.timer s = Some x.

(** A sequencer whose generator has just yielded: the timer it owns is the
    one installed for the phase it shows, untouched. *)
Definition Fresh (s : PomodoroTimer.t) : Prop :=
  Settled s /\
  exists p, PomodoroTimer.phase s = Some p /\
            PomodoroTimer.timer s = Some (installed (PomodoroTimer.settings s) p).

(** The sequencer right after [this.phase = p], from sequencer [s]. *)
Definition afterSetPhase (fuel : nat) (p : Phase) (s : PomodoroTimer.t) : PomodoroTimer.t :=
  match PomodoroTimer.setPhase fuel p s with
  | Returns s1 _ => s1
  | _ => s
  end.

(** [next()] emits only what stopping the replaced timer emits: nothing when
    there is no timer yet or when it is Stopped. *)
Definition Quiet (s : PomodoroTimer.t) : Prop :=
  match PomodoroTimer.timer s with
  | Some x => Timer.state x = Stopped
  | None => True
  end.

(** The wrapper as its constructor leaves it. *)
Definition built (fuel : nat) (st : Settings) : PersistentPomodoroTimer.t :=
  match PersistentPomodoroTimer.new fuel st with
  | PersistentPomodoroTimer.Returned w _ _ => w
  | _ => PersistentPomodoroTimer.mk None
  end.

(** A wrapper in use: it holds a sequencer built from [st], on which its
    handlers are registered and which owns a timer. *)
Definition Holding (st : Settings) (w : PersistentPomodoroTimer.t) : Prop :=
  exists s x,
    PersistentPomodoroTimer.timer w = Some s /\
    PomodoroTimer.observed s = true /\
    PomodoroTimer.settings s = st /\
    PomodoroTimer.timer s = Some x.

(** The sequencer right after [start()], from sequencer [s]. *)
Definition afterStart (now : Z) (s : PomodoroTimer.t) : PomodoroTimer.t :=
  match PomodoroTimer.start now s with
  | Returns s1 _ => s1
  | _ => s
  end.

(** The repeating block for [interval = 2]. *)
Definition block2 : list (option Phase * option Phase) :=
  [ (Some Focus, Some ShortBreak); (Some ShortBreak, Some Focus);
    (Some Focus, Some ShortBreak); (Some ShortBreak, Some LongBreak);
    (Some LongBreak, Some Focus) ].

(** The alternation of a configuration without long break. *)
Definition alternation (n : nat) : option Phase * option Phase :=
  if Nat.even n then (Some Focus, Some ShortBreak)
  else (Some ShortBreak, Some Focus).

(** Sample settings: 25 / 5 / 15 minutes. *)
Definition sample (interval : option Z) : Settings :=
  mkSettings 25 5 15 interval.

(** ** Further properties of timers used in the statements *)


(** The state an observer derives from a notification. *)
Definition track (st : TimerState) (e : Event) : TimerState :=
  match name e with
  | EvStart | EvResume => Running
  | EvPause => Paused
  | EvStop | EvExpire => Stopped
  | EvTick | EvChange => st
  end.

(** What [stop()] emits from a given state. *)
Definition stopEvents (st : TimerState) : list Event :=
  match st with
  | Stopped => []
  | _ => [mkEvent EvStop []; mkEvent EvChange []]
  end.

(** ** Further properties of the generator used in the statements *)

(** The repeating block for a positive [interval]: [interval] pairs
    (Focus, ShortBreak), the last ShortBreak announcing the LongBreak that
    closes the block.  [r] is the position in the block, from 0. *)
Definition blockOf (interval : Z) (r : nat) : option Phase * option Phase :=
  if (r =? 2 * Z.to_nat interval)%nat then (Some LongBreak, Some Focus)
  else if Nat.even r then (Some Focus, Some ShortBreak)
  else (Some ShortBreak,
        Some (if (r =? 2 * Z.to_nat interval - 1)%nat then LongBreak else Focus)).

(** The counter of the inner loop stays below a non-zero [interval]. *)
Definition WithinLoop (interval : option Z) (c : PomodoroTimer.Cursor) : Prop :=
  match c with
  | PomodoroTimer.AfterFocus i | PomodoroTimer.AfterShortBreak i =>
      match interval with
      | Some z => z = 0 \/ 0 <= i < z
      | None => True
      end
  | _ => True
  end.

(** ** Further properties of the sequencer used in the statements *)

(** Where the generator is suspended when it first yields a phase. *)
Definition firstYield (p : Phase) : PomodoroTimer.Cursor :=
  match p with
  | Focus => PomodoroTimer.AfterFocus 0
  | ShortBreak => PomodoroTimer.AfterShortBreak 0
  | LongBreak => PomodoroTimer.AfterLongBreak
  end.

(** The sequencer the setter leaves for phase [p]: built from the settings
    and [p] alone, but for the listeners registered on the sequencer. *)
Definition selected (st : Settings) (p : Phase) (listeners : bool) : PomodoroTimer.t :=
  PomodoroTimer.mk st (Some p)
    (snd (written (longBreak_interval st) (firstYield p)))
    (Some (installed st p)) (firstYield p) true listeners.

(** What the sequencer emits when the setter replaces the timer it owns:
    the stop of that timer, if it was not Stopped and is listened to, under
    the first phases the restarted generator writes. *)
Definition replaced (s : PomodoroTimer.t) : list PomodoroEvent :=
  match PomodoroTimer.timer s with
  | Some x =>
      if Timer.observed x
      then map (fun e => TimerEvent (name e) (Some Focus) (Some ShortBreak) (args e))
               (stopEvents (Timer.state x))
      else []
  | None => []
  end.

(** The method of the timer that a method of the sequencer reaches. *)
Definition timerOp (o : PomodoroTimer.Op) : Timer.Op :=
  match o with
  | PomodoroTimer.Pause now => Timer.Pause now
  | PomodoroTimer.Resume now => Timer.Resume now
  | PomodoroTimer.Reset now => Timer.Reset now
  | PomodoroTimer.FireTick h now => Timer.FireTick h now
  | PomodoroTimer.FireExpire h => Timer.FireExpire h
  | _ => Timer.Stop
  end.

(** A sequencer in use: it owns a timer whose fields and callbacks are
    consistent. *)
Definition Sound (s : PomodoroTimer.t) : Prop :=
  exists x, PomodoroTimer.timer s = Some x /\ StateInvariant x /\ JobsInvariant x.

(** A sequencer that has been started [k + 1] times since Focus was
    selected. *)
Definition Started (st : Settings) (k : nat) (s : PomodoroTimer.t) : Prop :=
  PomodoroTimer.settings s = st /\
  PomodoroTimer.startOfCycle s = false /\
  PomodoroTimer.timerGenerator s =
    Nat.iter (S k) (advance (longBreak_interval st)) PomodoroTimer.Entry /\
  (PomodoroTimer.phase s, PomodoroTimer.nextPhase s) = PomodoroTimer.generated st k /\
  exists p x,
    PomodoroTimer.phase s = Some p /\
    PomodoroTimer.timer s = Some x /\
    Timer.state x = Running /\
    Timer.duration x = PomodoroTimer.seconds (minutes st p) /\
    Timer.remaining x = Some (PomodoroTimer.seconds (minutes st p)).

(** A duration of a whole number of minutes, small enough for its number of
    seconds to be an exact double. *)
Definition WholeMinutes (m : Q) : Prop :=
  exists k, m = inject_Z k /\ 0 <= k /\ 60 * k < 2 ^ 53.

(** * Facts about [Timer] *)

Section TimerFacts.

Lemma TimerState_eqb_eq (a b : TimerState) :
  TimerState_eqb a b = true <-> a = b.
Proof. destruct a, b; simpl; split; intro H; try reflexivity; discriminate H. Qed.

(** Each guarded method returns at once when its guard fails. *)
Lemma start_guard now x :
  Timer.state x <> Stopped -> Timer.start now x = (x, []).
Proof.
  intro H. unfold Timer.start, Timer.isStopped.
  destruct (Timer.state x); [contradiction H; reflexivity | reflexivity | reflexivity].
Qed.

Lemma stop_guard x :
  Timer.state x = Stopped -> Timer.stop x = (x, []).
Proof. intro H. unfold Timer.stop, Timer.isStopped. rewrite H. reflexivity. Qed.

Lemma pause_guard now x :
  Timer.state x <> Running -> Timer.pause now x = (x, []).
Proof.
  intro H. unfold Timer.pause, Timer.isRunning.
  destruct (Timer.state x); [reflexivity | contradiction H; reflexivity | reflexivity].
Qed.

Lemma resume_guard now x :
  Timer.state x <> Paused -> Timer.resume now x = (x, []).
Proof.
  intro H. unfold Timer.resume, Timer.isPaused.
  destruct (Timer.state x); [reflexivity | reflexivity | contradiction H; reflexivity].
Qed.

(** What the methods do when their guard holds, field by field. *)
Lemma start_Stopped now x :
  Timer.state x = Stopped ->
  exists x',
    Timer.start now x =
      (x', [mkEvent EvStart [Some 0%Q; Some (Timer.duration x)]; mkEvent EvChange []]) /\
    Timer.state x' = Running /\
    Timer.remaining x' = Some (Timer.duration x) /\
    Timer.periodStartTime x' = Some now /\
    Timer.duration x' = Timer.duration x /\
    Timer.tick x' = Timer.tick x /\
    Timer.observed x' = Timer.observed x /\
    Timer.tickInterval x' = Some (S (Timer.nextHandle x)) /\
    Timer.expireTimeout x' = Some (Timer.nextHandle x) /\
    Timer.jobs x' =
      mkJob (S (Timer.nextHandle x)) TickCallback (Timer.tick x * 1000)
      :: mkJob (Timer.nextHandle x) ExpireCallback (Timer.duration x * 1000)
      :: Timer.jobs x.
Proof.
  intro H. unfold Timer.start, Timer.isStopped. rewrite H.
  eexists. split; [reflexivity|]. repeat split; reflexivity.
Qed.

Lemma stop_not_Stopped x :
  Timer.state x <> Stopped ->
  exists x',
    Timer.stop x = (x', [mkEvent EvStop []; mkEvent EvChange []]) /\
    Timer.state x' = Stopped /\
    Timer.remaining x' = None /\
    Timer.periodStartTime x' = None /\
    Timer.tickInterval x' = None /\
    Timer.expireTimeout x' = None /\
    Timer.duration x' = Timer.duration x /\
    Timer.tick x' = Timer.tick x /\
    Timer.observed x' = Timer.observed x /\
    Timer.jobs x' =
      clearJob (Timer.expireTimeout x) (clearJob (Timer.tickInterval x) (Timer.jobs x)).
Proof.
  intro H. unfold Timer.stop, Timer.isStopped.
  destruct (Timer.state x) eqn:E; [contradiction H; reflexivity | |];
    (eexists; split; [reflexivity|]; repeat split; reflexivity).
Qed.

Lemma clearJob_pair ht he dt de :
  ht <> he ->
  clearJob (Some he)
    (clearJob (Some ht) [mkJob ht TickCallback dt; mkJob he ExpireCallback de]) = [].
Proof.
  intro H. simpl. rewrite Nat.eqb_refl. simpl.
  destruct (Nat.eqb he ht) eqn:E.
  - apply Nat.eqb_eq in E. congruence.
  - simpl. rewrite Nat.eqb_refl. reflexivity.
Qed.

Lemma isScheduled_pair h c ht he dt de :
  isScheduled h c [mkJob ht TickCallback dt; mkJob he ExpireCallback de] = true ->
  (h = ht /\ c = TickCallback) \/ (h = he /\ c = ExpireCallback).
Proof.
  unfold isScheduled. simpl.
  destruct (Nat.eqb ht h) eqn:E1, (Nat.eqb he h) eqn:E2, c; simpl; intro H;
    try discriminate H;
    try (left; split; [symmetry; apply Nat.eqb_eq; exact E1 | reflexivity]);
    try (right; split; [symmetry; apply Nat.eqb_eq; exact E2 | reflexivity]).
Qed.

(** [StateInvariant] is kept by every operation. *)
Lemma exec_StateInvariant o x :
  StateInvariant x -> StateInvariant (fst (Timer.exec o x)).
Proof.
  assert (Hstop : forall y, StateInvariant y -> StateInvariant (fst (Timer.stop y))).
  { intros y Hy. unfold Timer.stop, Timer.isStopped.
    destruct (Timer.state y) eqn:E; simpl; [exact Hy | |];
      (split; simpl; split; congruence). }
  assert (Hstart : forall now y, StateInvariant y -> StateInvariant (fst (Timer.start now y))).
  { intros now y Hy. unfold Timer.start, Timer.isStopped.
    destruct (Timer.state y) eqn:E; simpl; [| exact Hy | exact Hy].
    split; simpl; split; congruence. }
  intro Hx. destruct o; simpl.
  - apply Hstart, Hx.
  - apply Hstop, Hx.
  - unfold Timer.pause, Timer.isRunning.
    destruct (Timer.state x) eqn:E; simpl; [exact Hx | | exact Hx].
    split; simpl; split; congruence.
  - unfold Timer.resume, Timer.isPaused.
    destruct (Timer.state x) eqn:E; simpl; [exact Hx | exact Hx |].
    destruct Hx as [[H1 H2] _].
    split; simpl; split; intro K; try congruence.
    rewrite E in H1. apply H1 in K. discriminate K.
  - unfold Timer.reset.
    specialize (Hstop x Hx). destruct (Timer.stop x) as [x1 e1]. simpl in Hstop.
    specialize (Hstart now x1 Hstop). destruct (Timer.start now x1) as [x2 e2].
    exact Hstart.
  - unfold Timer.fireTick, Timer.tickCallback.
    destruct (isScheduled h TickCallback (Timer.jobs x)); exact Hx.
  - unfold Timer.fireExpire.
    destruct (isScheduled h ExpireCallback (Timer.jobs x)); [| exact Hx].
    split; simpl; split; congruence.
Qed.

Lemma visited_StateInvariant os :
  forall x, StateInvariant x -> Forall StateInvariant (Timer.visited os x).
Proof.
  induction os as [| o os IH]; intros x Hx; simpl.
  - constructor.
  - constructor.
    + apply exec_StateInvariant, Hx.
    + apply IH, exec_StateInvariant, Hx.
Qed.

Lemma new_StateInvariant d tk : StateInvariant (Timer.new d tk).
Proof.
  split; simpl; split; congruence.
Qed.

(** [JobsInvariant] is kept by every operation. *)
Lemma start_JobsInvariant now x :
  JobsInvariant x -> JobsInvariant (fst (Timer.start now x)).
Proof.
  intro Hx. destruct (Timer.state x) eqn:E.
  - destruct (start_Stopped now x E)
      as (x' & -> & Hs & _ & _ & _ & _ & _ & Ht & He & Hj).
    unfold JobsInvariant in *. rewrite E in Hx. simpl. rewrite Hs.
    do 4 eexists. rewrite Ht, He, Hj, Hx.
    repeat split; try reflexivity. apply Nat.neq_succ_diag_l.
  - rewrite start_guard by congruence. exact Hx.
  - rewrite start_guard by congruence. exact Hx.
Qed.

Lemma stop_JobsInvariant x :
  JobsInvariant x -> JobsInvariant (fst (Timer.stop x)).
Proof.
  intro Hx. destruct (Timer.state x) eqn:E.
  - rewrite stop_guard by assumption. exact Hx.
  - destruct (stop_not_Stopped x) as (x' & -> & Hs & _ & _ & _ & _ & _ & _ & _ & Hj);
      [congruence|].
    unfold JobsInvariant in *. rewrite E in Hx. simpl. rewrite Hs, Hj.
    destruct Hx as (ht & he & dt & de & -> & -> & Hne & ->).
    apply clearJob_pair, Hne.
  - destruct (stop_not_Stopped x) as (x' & -> & Hs & _ & _ & _ & _ & _ & _ & _ & Hj);
      [congruence|].
    unfold JobsInvariant in *. rewrite E in Hx. simpl. rewrite Hs, Hj, Hx.
    destruct (Timer.tickInterval x), (Timer.expireTimeout x); reflexivity.
Qed.

Lemma exec_JobsInvariant o x :
  JobsInvariant x -> JobsInvariant (fst (Timer.exec o x)).
Proof.
  intro Hx. destruct o; simpl.
  - apply start_JobsInvariant, Hx.
  - apply stop_JobsInvariant, Hx.
  - unfold Timer.pause, Timer.isRunning.
    destruct (Timer.state x) eqn:E; simpl; [exact Hx | | exact Hx].
    unfold JobsInvariant in *. rewrite E in Hx. simpl.
    destruct Hx as (ht & he & dt & de & -> & -> & Hne & ->).
    eapply clearJob_pair, Hne.
  - unfold Timer.resume, Timer.isPaused.
    destruct (Timer.state x) eqn:E; simpl; [exact Hx | exact Hx |].
    unfold JobsInvariant in *. rewrite E in Hx. simpl.
    do 4 eexists. rewrite Hx.
    repeat split; try reflexivity. apply Nat.neq_succ_diag_l.
  - unfold Timer.reset.
    pose proof (stop_JobsInvariant x Hx) as H1.
    destruct (Timer.stop x) as [x1 e1]. simpl in H1.
    pose proof (start_JobsInvariant now x1 H1) as H2.
    destruct (Timer.start now x1) as [x2 e2]. exact H2.
  - unfold Timer.fireTick, Timer.tickCallback.
    destruct (isScheduled h TickCallback (Timer.jobs x)); exact Hx.
  - unfold Timer.fireExpire.
    destruct (isScheduled h ExpireCallback (Timer.jobs x)) eqn:S; [| exact Hx].
    unfold JobsInvariant in *.
    destruct (Timer.state x) eqn:E; simpl;
      try (rewrite Hx in S; discriminate S).
    destruct Hx as (ht & he & dt & de & Ht & He & Hne & Hj).
    rewrite Hj in S. apply isScheduled_pair in S.
    destruct S as [[_ S] | [-> _]]; [discriminate S|].
    assert (E1 : Nat.eqb ht he = false) by (apply Nat.eqb_neq; exact Hne).
    rewrite Hj, Ht, He. simpl.
    rewrite E1, Nat.eqb_refl. simpl. rewrite Nat.eqb_refl. reflexivity.
Qed.

Lemma run_invariants os :
  forall x, StateInvariant x -> JobsInvariant x ->
            StateInvariant (fst (Timer.run os x)) /\ JobsInvariant (fst (Timer.run os x)).
Proof.
  induction os as [| o os IH]; intros x H1 H2; simpl.
  - split; assumption.
  - pose proof (exec_StateInvariant o x H1) as K1.
    pose proof (exec_JobsInvariant o x H2) as K2.
    destruct (Timer.exec o x) as [x1 e1]. simpl in K1, K2.
    specialize (IH x1 K1 K2). destruct (Timer.run os x1) as [x2 e2]. exact IH.
Qed.

Lemma new_JobsInvariant d tk : JobsInvariant (Timer.new d tk).
Proof. reflexivity. Qed.

Lemma run_duration os :
  forall x, Timer.duration (fst (Timer.run os x)) = Timer.duration x.
Proof.
  assert (Hstop : forall y, Timer.duration (fst (Timer.stop y)) = Timer.duration y).
  { intro y. unfold Timer.stop. destruct (Timer.isStopped y); reflexivity. }
  assert (Hstart : forall now y, Timer.duration (fst (Timer.start now y)) = Timer.duration y).
  { intros now y. unfold Timer.start. destruct (Timer.isStopped y); reflexivity. }
  induction os as [| o os IH]; intro x; simpl; [reflexivity|].
  assert (K : Timer.duration (fst (Timer.exec o x)) = Timer.duration x).
  { destruct o; simpl.
    - apply Hstart.
    - apply Hstop.
    - unfold Timer.pause. destruct (Timer.isRunning x); reflexivity.
    - unfold Timer.resume. destruct (Timer.isPaused x); reflexivity.
    - unfold Timer.reset. specialize (Hstop x). destruct (Timer.stop x) as [x1 e1].
      specialize (Hstart now x1). destruct (Timer.start now x1) as [x2 e2].
      simpl in *. congruence.
    - unfold Timer.fireTick. destruct (isScheduled _ _ _); reflexivity.
    - unfold Timer.fireExpire. destruct (isScheduled _ _ _); reflexivity. }
  destruct (Timer.exec o x) as [x1 e1]. simpl in K.
  specialize (IH x1). destruct (Timer.run os x1) as [x2 e2]. simpl in *. congruence.
Qed.

(** A tick can only be due while the timer runs. *)
Lemma scheduled_tick_Running h x :
  StateInvariant x -> JobsInvariant x ->
  isScheduled h TickCallback (Timer.jobs x) = true ->
  Timer.state x = Running /\
  exists r p, Timer.remaining x = Some r /\ Timer.periodStartTime x = Some p.
Proof.
  intros [[H1 H2] [H3 H4]] HJ S. unfold JobsInvariant in HJ.
  destruct (Timer.state x) eqn:E; try (rewrite HJ in S; discriminate S).
  split; [reflexivity|].
  destruct (Timer.remaining x) as [r|]; [| specialize (H1 eq_refl); discriminate H1].
  destruct (Timer.periodStartTime x) as [p|].
  - exists r, p. split; reflexivity.
  - specialize (H4 eq_refl). contradiction H4; reflexivity.
Qed.

Lemma exec_Emission o x : Emission (snd (Timer.exec o x)).
Proof.
  assert (Hstop : forall y, Timer.stop y = (fst (Timer.stop y), []) \/
            Timer.stop y = (fst (Timer.stop y), [mkEvent EvStop []; mkEvent EvChange []])).
  { intro y. unfold Timer.stop. destruct (Timer.isStopped y); [left | right]; reflexivity. }
  assert (Hstart : forall now y, Emission (snd (Timer.start now y))).
  { intros now y. unfold Timer.start. destruct (Timer.isStopped y); simpl.
    - apply EmitTransition. reflexivity.
    - constructor. }
  destruct o; simpl.
  - apply Hstart.
  - destruct (Hstop x) as [-> | ->]; simpl; [constructor | apply EmitTransition; reflexivity].
  - unfold Timer.pause. destruct (Timer.isRunning x); simpl;
      [apply EmitTransition; reflexivity | constructor].
  - unfold Timer.resume. destruct (Timer.isPaused x); simpl;
      [apply EmitTransition; reflexivity | constructor].
  - unfold Timer.reset. destruct (Hstop x) as [-> | ->].
    + specialize (Hstart now (fst (Timer.stop x))).
      destruct (Timer.start now (fst (Timer.stop x))) as [x2 e2]. exact Hstart.
    + generalize (fst (Timer.stop x)). intro x1.
      unfold Timer.start. destruct (Timer.isStopped x1); simpl.
      * apply EmitReset. reflexivity.
      * apply EmitTransition. reflexivity.
  - unfold Timer.fireTick, Timer.tickCallback.
    destruct (isScheduled _ _ _); simpl; constructor.
  - unfold Timer.fireExpire.
    destruct (isScheduled _ _ _); simpl; [apply EmitTransition; reflexivity | constructor].
Qed.

Lemma Emission_WellPaced es l :
  Emission es -> WellPaced l -> WellPaced (es ++ l).
Proof.
  intros He (H1 & H2 & H3). destruct He as [| n a Hn | n a Hn | a].
  - repeat split; assumption.
  - destruct n; try discriminate Hn; (repeat split; simpl; assumption).
  - destruct n; try discriminate Hn; (repeat split; simpl; assumption).
  - repeat split; simpl; try assumption. rewrite H3. simpl. exact H2.
Qed.

Lemma run_WellPaced os : forall x, WellPaced (snd (Timer.run os x)).
Proof.
  induction os as [| o os IH]; intro x; simpl.
  - repeat split.
  - pose proof (exec_Emission o x) as He.
    destruct (Timer.exec o x) as [x1 e1]. simpl in He.
    specialize (IH x1). destruct (Timer.run os x1) as [x2 e2]. simpl in *.
    apply Emission_WellPaced; assumption.
Qed.

(** C2, as stated, fails: a started timer whose progress callback fires has
    emitted start, change, tick, and nothing follows the tick. *)
Lemma change_after_every_notification_fails :
  changeFollows notChange
    (snd (Timer.run [Timer.Start 0; Timer.FireTick 1 60000] (Timer.new 1500 60)))
  = false.
Proof. vm_compute. reflexivity. Qed.

(** C2, amended: in everything a timer emits over any history of operations,
    each start, stop, pause, resume and expire notification is immediately
    followed by a change notification, and no tick notification is. *)
Theorem change_after_every_transition (os : list Timer.Op) (x : Timer.t) :
  changeFollows transition (snd (Timer.run os x)) = true /\
  noChangeBehind isTick (snd (Timer.run os x)) = true.
Proof.
  destruct (run_WellPaced os x) as (H1 & H2 & _). split; assumption.
Qed.

(** C4: after each step of any history of operations on a new timer,
    [remaining] is null exactly when the timer is Stopped and
    [periodStartTime] is non-null exactly when it is Running. *)
Theorem state_invariant_after_each_step (d tk : Q) (os : list Timer.Op) :
  StateInvariant (Timer.new d tk) /\
  Forall StateInvariant (Timer.visited os (Timer.new d tk)) /\
  StateInvariant (fst (Timer.run os (Timer.new d tk))).
Proof.
  pose proof (new_StateInvariant d tk) as H0.
  split; [exact H0|]. split.
  - apply visited_StateInvariant, H0.
  - apply run_invariants; [exact H0 | apply new_JobsInvariant].
Qed.

(** C8: a method called outside its precondition returns the timer as it
    was, every field and every registered callback included, and emits
    nothing. *)
Theorem out_of_precondition_is_noop (now : Z) (x : Timer.t) :
  (Timer.state x <> Stopped -> Timer.start now x = (x, [])) /\
  (Timer.state x = Stopped -> Timer.stop x = (x, [])) /\
  (Timer.state x <> Running -> Timer.pause now x = (x, [])) /\
  (Timer.state x <> Paused -> Timer.resume now x = (x, [])).
Proof.
  repeat split.
  - apply start_guard.
  - apply stop_guard.
  - apply pause_guard.
  - apply resume_guard.
Qed.

Lemma out_of_precondition_is_noop_witness :
  let running := fst (Timer.start 0 (Timer.new 1500 60)) in
  Timer.start 7 running = (running, []) /\
  Timer.stop (Timer.new 1500 60) = (Timer.new 1500 60, []) /\
  Timer.pause 7 (Timer.new 1500 60) = (Timer.new 1500 60, []) /\
  Timer.resume 7 running = (running, []).
Proof.
  intro running. split; [| split; [| split]].
  - apply (proj1 (out_of_precondition_is_noop 7 running)).
    vm_compute. discriminate.
  - apply (proj1 (proj2 (out_of_precondition_is_noop 7 (Timer.new 1500 60)))).
    reflexivity.
  - apply (proj1 (proj2 (proj2 (out_of_precondition_is_noop 7 (Timer.new 1500 60))))).
    vm_compute. discriminate.
  - apply (proj2 (proj2 (proj2 (out_of_precondition_is_noop 7 running)))).
    vm_compute. discriminate.
Defined.

(** C9: whenever the progress callback of a timer fires, the timer is
    Running; the callback leaves the timer exactly as it was (state,
    remaining, periodStartTime, duration, handles and registered callbacks,
    itself included) and emits only tick(elapsed, remaining') with
    remaining' = remaining - (now - periodStartTime) / 1000 and
    elapsed = duration - remaining'. *)
Theorem tick_callback_only_reports (d tk : Q) (os : list Timer.Op) (h : Handle) (now : Z) :
  let x := fst (Timer.run os (Timer.new d tk)) in
  isScheduled h TickCallback (Timer.jobs x) = true ->
  exists r p,
    Timer.state x = Running /\
    Timer.remaining x = Some r /\
    Timer.periodStartTime x = Some p /\
    Timer.duration x = d /\
    let remaining' := (r - inject_Z (now - p) / 1000)%Q in
    Timer.fireTick h now x =
      (x, [mkEvent EvTick [Some (d - remaining')%Q; Some remaining']]) /\
    isScheduled h TickCallback (Timer.jobs (fst (Timer.fireTick h now x))) = true.
Proof.
  intros x S.
  destruct (run_invariants os (Timer.new d tk)
              (new_StateInvariant d tk) (new_JobsInvariant d tk)) as [H1 H2].
  fold x in H1, H2.
  destruct (scheduled_tick_Running h x H1 H2 S) as (Hs & r & p & Hr & Hp).
  assert (Hd : Timer.duration x = d) by apply run_duration.
  exists r, p.
  split; [exact Hs|]. split; [exact Hr|]. split; [exact Hp|]. split; [exact Hd|].
  intro remaining'. split.
  - unfold Timer.fireTick. rewrite S.
    unfold Timer.tickCallback, Timer.periodLength. rewrite Hr, Hp, Hd. reflexivity.
  - unfold Timer.fireTick. rewrite S. exact S.
Qed.

Lemma tick_callback_only_reports_witness :
  let x := fst (Timer.run [Timer.Start 0] (Timer.new 1500 60)) in
  exists r p,
    Timer.state x = Running /\
    Timer.remaining x = Some r /\
    Timer.periodStartTime x = Some p /\
    Timer.duration x = 1500%Q /\
    let remaining' := (r - inject_Z (60000 - p) / 1000)%Q in
    Timer.fireTick 1 60000 x =
      (x, [mkEvent EvTick [Some (1500 - remaining')%Q; Some remaining']]) /\
    isScheduled 1 TickCallback (Timer.jobs (fst (Timer.fireTick 1 60000 x))) = true.
Proof.
  apply (tick_callback_only_reports 1500 60 [Timer.Start 0] 1%nat 60000).
  reflexivity.
Defined.

End TimerFacts.

(** * Facts about the generator [createTimers] *)

Section GeneratorFacts.

Lemma setTimer_frame x s :
  let s' := fst (PomodoroTimer.setTimer x s) in
  PomodoroTimer.settings s' = PomodoroTimer.settings s /\
  PomodoroTimer.phase s' = PomodoroTimer.phase s /\
  PomodoroTimer.nextPhase s' = PomodoroTimer.nextPhase s /\
  PomodoroTimer.timerGenerator s' = PomodoroTimer.timerGenerator s /\
  PomodoroTimer.startOfCycle s' = PomodoroTimer.startOfCycle s /\
  PomodoroTimer.observed s' = PomodoroTimer.observed s /\
  PomodoroTimer.timer s' = Some (Timer.observe x).
Proof. simpl. repeat split. Qed.

(** One [next()]: what it leaves alone, where the generator is suspended
    afterwards, the phases it wrote and the timer it installed. *)
Lemma next_effect s :
  let st := PomodoroTimer.settings s in
  let s' := fst (PomodoroTimer.next s) in
  PomodoroTimer.settings s' = st /\
  PomodoroTimer.startOfCycle s' = PomodoroTimer.startOfCycle s /\
  PomodoroTimer.observed s' = PomodoroTimer.observed s /\
  PomodoroTimer.timerGenerator s' = advance (longBreak_interval st) (PomodoroTimer.timerGenerator s) /\
  (PomodoroTimer.phase s', PomodoroTimer.nextPhase s') =
    written (longBreak_interval st) (PomodoroTimer.timerGenerator s') /\
  exists p, PomodoroTimer.phase s' = Some p /\
            PomodoroTimer.timer s' = Some (installed st p).
Proof.
  unfold PomodoroTimer.next, advance, enter, PomodoroTimer.forLoop.
  destruct (PomodoroTimer.timerGenerator s) as [| i | i |]; simpl;
    try destruct (PomodoroTimer.forTest _ _); simpl;
    (repeat (split; [reflexivity|]); eexists; split; reflexivity).
Qed.

Lemma next_Settled s : Settled (fst (PomodoroTimer.next s)).
Proof.
  destruct (next_effect s) as (H1 & _ & _ & _ & H5 & p & Hp & Ht).
  split.
  - rewrite H1. exact H5.
  - exists p. eexists. split; [exact Hp | exact Ht].
Qed.

Lemma iter_shift {A} (f : A -> A) n x :
  Nat.iter (S n) f x = Nat.iter n f (f x).
Proof. induction n as [| n IH]; simpl in *; [reflexivity | rewrite IH; reflexivity]. Qed.

Lemma nexts_S n s :
  fst (PomodoroTimer.nexts (S n) s) =
  fst (PomodoroTimer.nexts n (fst (PomodoroTimer.next s))).
Proof.
  simpl. destruct (PomodoroTimer.next s) as [s1 e1]. simpl.
  destruct (PomodoroTimer.nexts n s1) as [s2 e2]. reflexivity.
Qed.

Lemma nexts_effect n :
  forall s,
    let st := PomodoroTimer.settings s in
    let s' := fst (PomodoroTimer.nexts n s) in
    PomodoroTimer.settings s' = st /\
    PomodoroTimer.timerGenerator s' =
      Nat.iter n (advance (longBreak_interval st)) (PomodoroTimer.timerGenerator s) /\
    (n <> O ->
     (PomodoroTimer.phase s', PomodoroTimer.nextPhase s') =
       written (longBreak_interval st) (PomodoroTimer.timerGenerator s')).
Proof.
  induction n as [| n IH]; intro s.
  - simpl. split; [reflexivity|]. split; [reflexivity|].
    intro H. contradiction H; reflexivity.
  - cbv zeta. rewrite nexts_S.
    destruct (next_effect s) as (H1 & _ & _ & H4 & H5 & _).
    destruct (IH (fst (PomodoroTimer.next s))) as (K1 & K2 & K3).
    rewrite H1 in K1, K2, K3. rewrite H4 in K2.
    split; [exact K1|]. split.
    + rewrite K2. symmetry. apply iter_shift.
    + intros _. destruct n as [| n].
      * simpl. exact H5.
      * apply K3. discriminate.
Qed.

(** The generated pairs are determined by the generator's control. *)
Lemma generated_control st n :
  PomodoroTimer.generated st n =
  written (longBreak_interval st)
          (Nat.iter (S n) (advance (longBreak_interval st)) PomodoroTimer.Entry).
Proof.
  unfold PomodoroTimer.generated.
  destruct (nexts_effect (S n) (PomodoroTimer.blank st)) as (_ & H2 & H3).
  cbv zeta in H2, H3. rewrite H3 by discriminate. rewrite H2. reflexivity.
Qed.

Lemma iter_plus {A} (f : A -> A) a b x :
  Nat.iter (a + b) f x = Nat.iter a f (Nat.iter b f x).
Proof. induction a as [| a IH]; simpl; [reflexivity | rewrite IH; reflexivity]. Qed.

(** With [interval = 2] the control returns to the head of the outer loop
    every five steps. *)
Lemma control2_period n :
  Nat.iter (S n + 5) (advance (Some 2)) PomodoroTimer.Entry =
  Nat.iter (S n) (advance (Some 2)) PomodoroTimer.Entry.
Proof.
  rewrite iter_plus.
  change (Nat.iter 5 (advance (Some 2)) PomodoroTimer.Entry)
    with PomodoroTimer.AfterLongBreak.
  rewrite !iter_shift. reflexivity.
Qed.

Lemma generated2_block f sb lb q :
  forall r, (r < 5)%nat ->
    PomodoroTimer.generated (mkSettings f sb lb (Some 2)) (r + 5 * q) =
    nth r block2 (None, None).
Proof.
  induction q as [| q IH]; intros r Hr.
  - rewrite Nat.mul_0_r, Nat.add_0_r, generated_control. simpl longBreak_interval.
    do 5 (destruct r as [| r]; [reflexivity|]). lia.
  - replace (r + 5 * S q)%nat with ((r + 5 * q) + 5)%nat by lia.
    rewrite generated_control. simpl longBreak_interval.
    change (S (r + 5 * q + 5)) with (S (r + 5 * q) + 5)%nat.
    rewrite control2_period.
    rewrite <- (IH r Hr), generated_control. reflexivity.
Qed.

(** With a negative [interval] the loop test fails at once, every time. *)
Lemma negative_control z n :
  z < 0 ->
  Nat.iter (S n) (advance (Some z)) PomodoroTimer.Entry = PomodoroTimer.AfterLongBreak.
Proof.
  intro Hz.
  assert (E : forall i, 0 <= i -> enter (Some z) i = PomodoroTimer.AfterLongBreak).
  { intros i Hi. unfold enter, PomodoroTimer.forTest, truthy.
    replace (z =? 0) with false by (symmetry; apply Z.eqb_neq; lia).
    replace (i <? z) with false by (symmetry; apply Z.ltb_ge; lia).
    reflexivity. }
  induction n as [| n IH].
  - simpl. apply E. lia.
  - change (Nat.iter (S (S n)) ?f ?x) with (f (Nat.iter (S n) f x)).
    rewrite IH. simpl. apply E. lia.
Qed.

Lemma negative_generated st z n :
  longBreak_interval st = Some z -> z < 0 ->
  PomodoroTimer.generated st n = (Some LongBreak, Some Focus).
Proof.
  intros Hi Hz. rewrite generated_control, Hi, negative_control by exact Hz.
  reflexivity.
Qed.

(** With [interval] zero or absent the loop never ends and its counter stays
    at zero. *)
Lemma falsy_control iv n :
  truthy iv = false ->
  Nat.iter (S n) (advance iv) PomodoroTimer.Entry =
  if Nat.even n then PomodoroTimer.AfterFocus 0 else PomodoroTimer.AfterShortBreak 0.
Proof.
  intro Hf.
  assert (E : enter iv 0 = PomodoroTimer.AfterFocus 0).
  { unfold enter, PomodoroTimer.forTest. rewrite Hf. reflexivity. }
  induction n as [| n IH].
  - simpl. exact E.
  - change (Nat.iter (S (S n)) ?f ?x) with (f (Nat.iter (S n) f x)).
    rewrite IH, Nat.even_succ, <- Nat.negb_even.
    destruct (Nat.even n); simpl; [reflexivity|].
    unfold PomodoroTimer.forStep. rewrite Hf. exact E.
Qed.

Lemma falsy_generated st n :
  truthy (longBreak_interval st) = false ->
  PomodoroTimer.generated st n = alternation n.
Proof.
  intro Hf. rewrite generated_control, falsy_control by exact Hf.
  unfold alternation. destruct (Nat.even n); [reflexivity|].
  simpl. destruct (longBreak_interval st) as [z|]; [| reflexivity].
  simpl in Hf. destruct (z =? 0); [reflexivity | discriminate Hf].
Qed.

(** C1 at a negative interval count: every call of the generator yields
    LongBreak; Focus and ShortBreak are never generated. *)
Theorem negative_interval_generates_long_breaks (f sb lb : Q) (n : nat) :
  PomodoroTimer.generated (mkSettings f sb lb (Some (-1))) n =
  (Some LongBreak, Some Focus).
Proof. apply (negative_generated _ (-1)); [reflexivity | lia]. Qed.

(** C6: with [longBreakInterval = 2] the generated (phase, nextPhase) pairs
    repeat Focus, ShortBreak, Focus, ShortBreak, LongBreak for ever, and the
    nextPhase of every pair is the phase generated right after it: Focus
    carries ShortBreak, LongBreak carries Focus, the ShortBreak before a
    LongBreak carries LongBreak and every other ShortBreak carries Focus. *)
Theorem interval_two_sequence (f sb lb : Q) (n : nat) :
  let st := mkSettings f sb lb (Some 2) in
  PomodoroTimer.generated st n = nth (n mod 5) block2 (None, None) /\
  snd (PomodoroTimer.generated st n) = fst (PomodoroTimer.generated st (S n)).
Proof.
  intro st.
  assert (G : forall m, PomodoroTimer.generated st m = nth (m mod 5) block2 (None, None)).
  { intro m. rewrite (Nat.div_mod_eq m 5) at 1.
    rewrite Nat.add_comm. apply generated2_block.
    apply Nat.mod_upper_bound. discriminate. }
  split; [apply G|].
  rewrite !G.
  replace (S n) with (n + 1)%nat by lia.
  rewrite <- (Nat.Div0.add_mod_idemp_l n 1 5).
  assert (Hr : (n mod 5 < 5)%nat) by (apply Nat.mod_upper_bound; discriminate).
  destruct (n mod 5)%nat as [| [| [| [| [| r]]]]]; try reflexivity. lia.
Qed.

End GeneratorFacts.

(** * Facts about the conversion of minutes to seconds *)

Section Rounding.

Lemma Qred_whole k : Qred (inject_Z k) = inject_Z k.
Proof. apply Qcanon.Qred_identity. simpl. apply Z.gcd_1_r. Qed.

Lemma nearestEven_whole n : nearestEven n 1 = n.
Proof. unfold nearestEven. rewrite Z.mod_1_r, Z.div_1_r. reflexivity. Qed.

(** A whole number below [2 ^ 53] is a double. *)
Lemma round64_whole k :
  0 <= k < 2 ^ 53 -> round64 (inject_Z k) = inject_Z k.
Proof.
  intros [H0 H1]. unfold round64. rewrite Qred_whole. cbn [Qnum Qden inject_Z].
  destruct (Z.eqb_spec k 0) as [-> | Hne]; [reflexivity|].
  assert (Hk : 0 < k) by lia.
  rewrite Z.abs_eq by lia. rewrite (Z.sgn_pos k Hk), Z.mul_1_l.
  assert (B : binade k 1 = Z.log2 k).
  { unfold binade, reaches. change (Z.log2 1) with 0. rewrite Z.sub_0_r.
    pose proof (Z.log2_nonneg k) as G.
    replace (0 <=? Z.log2 k) with true by (symmetry; apply Z.leb_le; exact G).
    replace (1 * 2 ^ Z.log2 k <=? k) with true; [reflexivity|].
    symmetry. apply Z.leb_le. rewrite Z.mul_1_l. apply Z.log2_spec. exact Hk. }
  rewrite B.
  assert (L : Z.log2 k < 53) by (apply Z.log2_lt_pow2; lia).
  transitivity (Qred (inject_Z k)); [| apply Qred_whole]. apply Qred_complete.
  unfold pow2.
  destruct (Z.leb_spec 0 (Z.log2 k - 52)) as [E | E].
  - assert (Z.log2 k - 52 = 0) as -> by lia.
    change (2 ^ 0) with 1. rewrite Z.mul_1_r, nearestEven_whole.
    unfold Qeq. cbn [Qnum Qden Qmult inject_Z]. lia.
  - rewrite nearestEven_whole.
    assert (P : 0 < 2 ^ (- (Z.log2 k - 52))) by (apply Z.pow_pos_nonneg; lia).
    unfold Qeq. cbn [Qnum Qden Qmult inject_Z].
    rewrite Pos.mul_1_l, Z2Pos.id by exact P. lia.
Qed.

Lemma whole_product k : (inject_Z k * 60 == inject_Z (60 * k))%Q.
Proof.
  change (inject_Z k * 60)%Q with ((k * 60) # 1). unfold Qeq, inject_Z.
  cbn [Qnum Qden]. lia.
Qed.

(** For whole minutes the rounded product is the product, and the number
    of seconds is floor(minutes * 60) = 60 * minutes. *)
Lemma seconds_whole m :
  WholeMinutes m ->
  PomodoroTimer.seconds m = inject_Z (Qfloor (m * 60)).
Proof.
  intros (k & -> & H0 & H1). unfold PomodoroTimer.seconds.
  rewrite round64_whole by lia.
  assert (R : round64 (inject_Z k * 60) = inject_Z (60 * k)).
  { unfold round64. rewrite (Qred_complete _ _ (whole_product k)).
    fold (round64 (inject_Z (60 * k))). apply round64_whole. lia. }
  rewrite R, Qfloor_Z, (whole_product k), Qfloor_Z. reflexivity.
Qed.

End Rounding.

(** * Facts about [PomodoroTimer] *)

Section SequencerFacts.

Lemma Phase_eqb_eq (a b : Phase) : Phase_eqb a b = true <-> a = b.
Proof. destruct a, b; simpl; split; intro H; try reflexivity; discriminate H. Qed.

Lemma Phase_eqb_refl (a : Phase) : Phase_eqb a a = true.
Proof. destruct a; reflexivity. Qed.

Lemma phase_neq_false cur p : phase_neq cur p = false <-> cur = Some p.
Proof.
  unfold phase_neq. destruct cur as [q|].
  - rewrite Bool.negb_false_iff, Phase_eqb_eq. split; congruence.
  - split; discriminate.
Qed.

Lemma next_Fresh s : Fresh (fst (PomodoroTimer.next s)).
Proof.
  split; [apply next_Settled|].
  destruct (next_effect s) as (H1 & _ & _ & _ & _ & p & Hp & Ht).
  exists p. rewrite H1. split; assumption.
Qed.

(** The loop of the setter only returns; it has no [throw]. *)
Lemma fastForward_no_throw fuel target :
  forall s err s' e, PomodoroTimer.fastForward fuel target s <> Throws err s' e.
Proof.
  induction fuel as [| fuel IH]; intros s err s' e; simpl;
    destruct (phase_neq (PomodoroTimer.phase s) target); try discriminate.
  destruct (PomodoroTimer.next s) as [s1 e1].
  specialize (IH s1).
  destruct (PomodoroTimer.fastForward fuel target s1) as [s2 e2 | err2 s2 e2 |];
    try discriminate.
  exfalso. eapply IH. reflexivity.
Qed.

(** When the loop of the setter returns, the sequencer shows the requested
    phase and owns the untouched timer installed for it. *)
Lemma fastForward_returns fuel target :
  forall s s' e,
    PomodoroTimer.phase s = None \/ Fresh s ->
    PomodoroTimer.fastForward fuel target s = Returns s' e ->
    PomodoroTimer.phase s' = Some target /\
    Fresh s' /\
    PomodoroTimer.settings s' = PomodoroTimer.settings s /\
    PomodoroTimer.observed s' = PomodoroTimer.observed s /\
    PomodoroTimer.startOfCycle s' = PomodoroTimer.startOfCycle s.
Proof.
  induction fuel as [| fuel IH]; intros s s' e Hs; simpl;
    destruct (phase_neq (PomodoroTimer.phase s) target) eqn:E; try discriminate.
  - intro H. injection H as <- <-. apply phase_neq_false in E.
    destruct Hs as [Hs | Hs]; [congruence|]. repeat split; trivial; apply Hs.
  - pose proof (next_Fresh s) as HF.
    destruct (next_effect s) as (H1 & H2 & H3 & _).
    destruct (PomodoroTimer.next s) as [s1 e1]. simpl in *.
    specialize (IH s1).
    destruct (PomodoroTimer.fastForward fuel target s1) as [s2 e2 | |]; try discriminate.
    intro H. injection H as <- <-.
    destruct (IH s2 e2 (or_intror HF) eq_refl) as (K1 & K2 & K3 & K4 & K5).
    repeat split; try apply K2; congruence.
  - intro H. injection H as <- <-. apply phase_neq_false in E.
    destruct Hs as [Hs | Hs]; [congruence|]. repeat split; trivial; apply Hs.
Qed.

(** The loop of the setter returns as soon as the generator's control
    reaches a [yield] of the requested phase within the fuel. *)
Lemma fastForward_reaches target k :
  forall fuel s,
    (k <= fuel)%nat ->
    fst (written (longBreak_interval (PomodoroTimer.settings s))
           (Nat.iter k (advance (longBreak_interval (PomodoroTimer.settings s)))
                     (PomodoroTimer.timerGenerator s))) = Some target ->
    (k = O -> PomodoroTimer.phase s = Some target) ->
    exists s' e, PomodoroTimer.fastForward fuel target s = Returns s' e.
Proof.
  induction k as [| k IH]; intros fuel s Hk Hreach H0.
  - specialize (H0 eq_refl). apply phase_neq_false in H0.
    destruct fuel; simpl; rewrite H0; eauto.
  - destruct (phase_neq (PomodoroTimer.phase s) target) eqn:E.
    + destruct fuel as [| fuel]; [lia|]. simpl. rewrite E.
      destruct (next_effect s) as (H1 & _ & _ & H4 & H5 & _).
      destruct (PomodoroTimer.next s) as [s1 e1]. cbn [fst] in *.
      destruct (IH fuel s1) as (s' & e & ->).
      * lia.
      * rewrite H1, H4. rewrite iter_shift in Hreach. exact Hreach.
      * intros ->. simpl in Hreach. rewrite <- H4 in Hreach. rewrite <- H5 in Hreach.
        exact Hreach.
      * eauto.
    + destruct fuel; simpl; rewrite E; eauto.
Qed.

(** Where the control is after [j+1] rounds of the inner loop. *)
Lemma loop_control z j :
  Z.of_nat j < z ->
  Nat.iter (2 * j + 2) (advance (Some z)) PomodoroTimer.Entry =
  PomodoroTimer.AfterShortBreak (Z.of_nat j).
Proof.
  induction j as [| j IH]; intro Hj.
  - simpl. unfold enter, PomodoroTimer.forTest.
    replace (0 <? z) with true by (symmetry; apply Z.ltb_lt; lia).
    rewrite Bool.orb_true_r. reflexivity.
  - replace (2 * S j + 2)%nat with (S (S (2 * j + 2))) by lia.
    change (Nat.iter (S (S ?n)) ?f ?x) with (f (f (Nat.iter n f x))).
    rewrite IH by lia. simpl advance at 2.
    unfold enter, PomodoroTimer.forTest, PomodoroTimer.forStep, truthy.
    replace (z =? 0) with false by (symmetry; apply Z.eqb_neq; lia).
    simpl negb. cbv iota.
    replace (Z.of_nat j + 1 <? z) with true by (symmetry; apply Z.ltb_lt; lia).
    simpl. f_equal. lia.
Qed.

Lemma reach_LongBreak z :
  0 < z ->
  Nat.iter (2 * Z.to_nat z + 1) (advance (Some z)) PomodoroTimer.Entry =
  PomodoroTimer.AfterLongBreak.
Proof.
  intro Hz.
  replace (2 * Z.to_nat z + 1)%nat with (S (2 * (Z.to_nat z - 1) + 2)) by lia.
  change (Nat.iter (S ?n) ?f ?x) with (f (Nat.iter n f x)).
  rewrite loop_control by lia. simpl.
  unfold enter, PomodoroTimer.forTest, PomodoroTimer.forStep, truthy.
  replace (z =? 0) with false by (symmetry; apply Z.eqb_neq; lia).
  simpl negb. cbv iota.
  replace (Z.of_nat (Z.to_nat z - 1) + 1 <? z) with false
    by (symmetry; apply Z.ltb_ge; lia).
  reflexivity.
Qed.

Lemma reach_Focus iv :
  match iv with Some z => 0 <= z | None => True end ->
  Nat.iter 1 (advance iv) PomodoroTimer.Entry = PomodoroTimer.AfterFocus 0.
Proof.
  intro H. simpl. unfold enter, PomodoroTimer.forTest, truthy.
  destruct iv as [z|]; [| reflexivity].
  destruct (z =? 0) eqn:E; [reflexivity|]. apply Z.eqb_neq in E.
  replace (0 <? z) with true by (symmetry; apply Z.ltb_lt; lia). reflexivity.
Qed.

(** With the interval absent or not negative, the control reaches every
    phase the setter accepts within [enoughFuel] steps. *)
Lemma reach_target st target :
  intervalDefined st ->
  (target = LongBreak -> positive (longBreak_interval st) = true) ->
  exists k, (1 <= k <= enoughFuel st)%nat /\
    fst (written (longBreak_interval st)
           (Nat.iter k (advance (longBreak_interval st)) PomodoroTimer.Entry)) = Some target.
Proof.
  unfold intervalDefined, enoughFuel. intros Hd Hl.
  destruct target.
  - exists 1%nat. split; [destruct (longBreak_interval st); lia|].
    rewrite reach_Focus by exact Hd. reflexivity.
  - exists 2%nat. split; [destruct (longBreak_interval st); lia|].
    change (Nat.iter 2 ?f ?x) with (f (Nat.iter 1 f x)).
    rewrite reach_Focus by exact Hd. reflexivity.
  - specialize (Hl eq_refl). destruct (longBreak_interval st) as [z|]; [| discriminate Hl].
    simpl in Hl. apply Z.ltb_lt in Hl.
    exists (2 * Z.to_nat z + 1)%nat. split; [lia|].
    rewrite reach_LongBreak by exact Hl. reflexivity.
Qed.

(** The guard of the setter. *)
Lemma setPhase_guard target s :
  negb (PomodoroTimer.hasLongBreak s) && Phase_eqb target LongBreak = true <->
  target = LongBreak /\ positive (longBreak_interval (PomodoroTimer.settings s)) = false.
Proof.
  unfold PomodoroTimer.hasLongBreak.
  rewrite Bool.andb_true_iff, Bool.negb_true_iff, Phase_eqb_eq. tauto.
Qed.

Lemma setPhase_throw fuel target s :
  target = LongBreak ->
  positive (longBreak_interval (PomodoroTimer.settings s)) = false ->
  PomodoroTimer.setPhase fuel target s = Throws InvalidConfiguration s [].
Proof.
  intros Ht Hp. unfold PomodoroTimer.setPhase.
  destruct (negb (PomodoroTimer.hasLongBreak s) && Phase_eqb target LongBreak) eqn:G;
    [reflexivity|].
  assert (K : negb (PomodoroTimer.hasLongBreak s) && Phase_eqb target LongBreak = true)
    by (apply setPhase_guard; split; assumption).
  congruence.
Qed.

Lemma setPhase_no_throw fuel target s :
  ~ (target = LongBreak /\ positive (longBreak_interval (PomodoroTimer.settings s)) = false) ->
  forall err s' e, PomodoroTimer.setPhase fuel target s <> Throws err s' e.
Proof.
  intros Hn err s' e. unfold PomodoroTimer.setPhase.
  destruct (negb (PomodoroTimer.hasLongBreak s) && Phase_eqb target LongBreak) eqn:G.
  - apply setPhase_guard in G. contradiction.
  - pose proof (fastForward_no_throw fuel target
                  (PomodoroTimer.set__phase None (PomodoroTimer.set_timerGenerator PomodoroTimer.Entry s))) as K.
    destruct (PomodoroTimer.fastForward _ _ _) as [s2 e2 | err2 s2 e2 |]; try discriminate.
    exfalso. eapply K. reflexivity.
Qed.

(** What the setter has done when it returns. *)
Lemma setPhase_result fuel target s s' e :
  PomodoroTimer.setPhase fuel target s = Returns s' e ->
  PomodoroTimer.phase s' = Some target /\
  PomodoroTimer.startOfCycle s' = true /\
  Fresh s' /\
  PomodoroTimer.settings s' = PomodoroTimer.settings s /\
  PomodoroTimer.observed s' = PomodoroTimer.observed s /\
  exists e0, e = e0 ++ [CycleReset target].
Proof.
  unfold PomodoroTimer.setPhase.
  destruct (negb (PomodoroTimer.hasLongBreak s) && Phase_eqb target LongBreak);
    [discriminate|].
  set (s0 := PomodoroTimer.set__phase None
               (PomodoroTimer.set_timerGenerator PomodoroTimer.Entry s)).
  pose proof (fastForward_returns fuel target s0) as K.
  destruct (PomodoroTimer.fastForward fuel target s0) as [s2 e2 | |]; try discriminate.
  intro H. injection H as <- <-.
  destruct (K s2 e2 (or_introl eq_refl) eq_refl) as (K1 & (K2 & p & K3 & K4) & K5 & K6 & _).
  split; [exact K1|]. split; [reflexivity|]. split.
  - split; [exact K2|]. exists p. split; assumption.
  - split; [exact K5|]. split; [exact K6|]. exists e2. reflexivity.
Qed.

(** The setter returns whenever the interval is absent or not negative, the
    phase is one it accepts, and the fuel covers one pass of the generator. *)
Lemma setPhase_returns fuel target s :
  intervalDefined (PomodoroTimer.settings s) ->
  (target = LongBreak -> positive (longBreak_interval (PomodoroTimer.settings s)) = true) ->
  (enoughFuel (PomodoroTimer.settings s) <= fuel)%nat ->
  exists s' e, PomodoroTimer.setPhase fuel target s = Returns s' e.
Proof.
  intros Hd Hl Hf. unfold PomodoroTimer.setPhase.
  destruct (negb (PomodoroTimer.hasLongBreak s) && Phase_eqb target LongBreak) eqn:G.
  - apply setPhase_guard in G. destruct G as [G1 G2]. rewrite (Hl G1) in G2. discriminate G2.
  - destruct (reach_target _ target Hd Hl) as (k & Hk & Hreach).
    set (s0 := PomodoroTimer.set__phase None
                 (PomodoroTimer.set_timerGenerator PomodoroTimer.Entry s)).
    destruct (fastForward_reaches target k fuel s0) as (s' & e & ->).
    + lia.
    + exact Hreach.
    + lia.
    + eauto.
Qed.

(** With a negative interval the generator only yields LongBreak, so the
    loop of the setter never meets another phase. *)
Lemma enter_negative z i :
  z < 0 -> 0 <= i -> enter (Some z) i = PomodoroTimer.AfterLongBreak.
Proof.
  intros Hz Hi. unfold enter, PomodoroTimer.forTest, truthy.
  replace (z =? 0) with false by (symmetry; apply Z.eqb_neq; lia).
  replace (i <? z) with false by (symmetry; apply Z.ltb_ge; lia).
  reflexivity.
Qed.

Lemma fastForward_negative z target fuel :
  z < 0 -> target <> LongBreak ->
  forall s,
    longBreak_interval (PomodoroTimer.settings s) = Some z ->
    PomodoroTimer.timerGenerator s = PomodoroTimer.Entry \/
    PomodoroTimer.timerGenerator s = PomodoroTimer.AfterLongBreak ->
    phase_neq (PomodoroTimer.phase s) target = true ->
    PomodoroTimer.fastForward fuel target s = OutOfFuel.
Proof.
  intros Hz Ht. induction fuel as [| fuel IH]; intros s Hi Hc Hp; simpl; rewrite Hp;
    [reflexivity|].
  destruct (next_effect s) as (H1 & _ & _ & H4 & H5 & _).
  destruct (PomodoroTimer.next s) as [s1 e1]. cbn [fst] in *.
  assert (C1 : PomodoroTimer.timerGenerator s1 = PomodoroTimer.AfterLongBreak).
  { rewrite H4, Hi. destruct Hc as [-> | ->]; simpl; apply enter_negative; lia. }
  rewrite IH; [reflexivity | congruence | right; exact C1 |].
  rewrite C1 in H5. simpl in H5. injection H5 as -> _.
  destruct target; [reflexivity | reflexivity | contradiction Ht; reflexivity].
Qed.

Lemma setPhase_negative z target fuel s :
  z < 0 -> target <> LongBreak ->
  longBreak_interval (PomodoroTimer.settings s) = Some z ->
  PomodoroTimer.setPhase fuel target s = OutOfFuel.
Proof.
  intros Hz Ht Hi. unfold PomodoroTimer.setPhase.
  replace (Phase_eqb target LongBreak) with false
    by (destruct target; [reflexivity | reflexivity | contradiction Ht; reflexivity]).
  rewrite Bool.andb_false_r.
  rewrite (fastForward_negative z target fuel Hz Ht); auto.
Qed.

Lemma next_quiet s :
  Quiet s -> snd (PomodoroTimer.next s) = [] /\ Quiet (fst (PomodoroTimer.next s)).
Proof.
  intro Hq. split.
  - unfold Quiet in Hq.
    unfold PomodoroTimer.next, PomodoroTimer.forLoop, PomodoroTimer.focusStage,
      PomodoroTimer.shortBreakStage, PomodoroTimer.longBreakStage, PomodoroTimer.setTimer.
    destruct (PomodoroTimer.timerGenerator s); try destruct (PomodoroTimer.forTest _ _);
      simpl; destruct (PomodoroTimer.timer s) as [x|]; try reflexivity;
      rewrite (stop_guard x Hq); unfold PomodoroTimer.relay;
      destruct (Timer.observed x); reflexivity.
  - destruct (next_effect s) as (_ & _ & _ & _ & _ & p & _ & Ht).
    unfold Quiet. rewrite Ht. reflexivity.
Qed.

Lemma fastForward_quiet fuel target :
  forall s s' e,
    Quiet s -> PomodoroTimer.fastForward fuel target s = Returns s' e -> e = [].
Proof.
  induction fuel as [| fuel IH]; intros s s' e Hq; simpl;
    destruct (phase_neq (PomodoroTimer.phase s) target); try discriminate;
    try (intro H; injection H as <- <-; reflexivity).
  destruct (next_quiet s Hq) as [K1 K2].
  destruct (PomodoroTimer.next s) as [s1 e1]. simpl in K1, K2. subst e1.
  specialize (IH s1).
  destruct (PomodoroTimer.fastForward fuel target s1) as [s2 e2 | |]; try discriminate.
  intro H. injection H as <- <-. simpl. eapply IH; [exact K2 | reflexivity].
Qed.

(** The constructor, for a configuration whose interval is absent or not
    negative: it throws for LongBreak without long break, and otherwise
    builds a sequencer at the initial phase with the start-of-cycle flag set,
    emitting cycle:reset while no observer is registered. *)
Lemma constructor_effect fuel st p :
  intervalDefined st -> (enoughFuel st <= fuel)%nat ->
  (p = LongBreak /\ positive (longBreak_interval st) = false ->
   PomodoroTimer.new fuel st p = Throws InvalidConfiguration (PomodoroTimer.blank st) []) /\
  (~ (p = LongBreak /\ positive (longBreak_interval st) = false) ->
   exists s,
     PomodoroTimer.new fuel st p = Returns s [CycleReset p] /\
     PomodoroTimer.phase s = Some p /\
     PomodoroTimer.startOfCycle s = true /\
     PomodoroTimer.timer s = Some (installed st p) /\
     PomodoroTimer.settings s = st /\
     PomodoroTimer.observed s = false /\
     Settled s).
Proof.
  intros Hd Hf. unfold PomodoroTimer.new. split.
  - intros [H1 H2]. apply setPhase_throw; assumption.
  - intro Hn.
    destruct (setPhase_returns fuel p (PomodoroTimer.blank st)) as (s & e & He);
      try assumption.
    { intro Hl. simpl. destruct (positive (longBreak_interval st)) eqn:E; [reflexivity|].
      contradiction Hn. split; [exact Hl | reflexivity]. }
    destruct (setPhase_result _ _ _ _ _ He) as (K1 & K2 & (K3 & q & K4 & K5) & K6 & K7 & _).
    exists s. simpl in K6, K7.
    assert (e = [CycleReset p]) as ->.
    { revert He. unfold PomodoroTimer.setPhase.
      destruct (negb _ && _); [discriminate|].
      destruct (PomodoroTimer.fastForward _ _ _) as [s2 e2 | |] eqn:F; try discriminate.
      intro H. injection H as <- <-.
      assert (Q0 : Quiet (PomodoroTimer.set__phase None
                (PomodoroTimer.set_timerGenerator PomodoroTimer.Entry
                   (PomodoroTimer.blank st)))) by exact I.
      rewrite (fastForward_quiet _ _ _ _ _ Q0 F). reflexivity. }
    rewrite K6 in K5. assert (q = p) as -> by congruence.
    repeat split; try assumption. apply K3. apply K3.
Qed.

(** Starting the untouched timer installed for a phase. *)
Lemma onTimer_start_installed now s st p :
  PomodoroTimer.timer s = Some (installed st p) ->
  let d := PomodoroTimer.seconds (minutes st p) in
  let x' := fst (Timer.start now (installed st p)) in
  PomodoroTimer.onTimer (Timer.start now) s =
    Returns (PomodoroTimer.set_timer (Some x') s)
      [TimerEvent EvStart (PomodoroTimer.phase s) (PomodoroTimer.nextPhase s) [Some 0%Q; Some d];
       TimerEvent EvChange (PomodoroTimer.phase s) (PomodoroTimer.nextPhase s) []] /\
  Timer.state x' = Running /\
  Timer.duration x' = d /\
  Timer.tick x' = 60%Q /\
  Timer.remaining x' = Some d /\
  Timer.periodStartTime x' = Some now.
Proof.
  intros H d x'. unfold PomodoroTimer.onTimer. rewrite H.
  destruct (start_Stopped now (installed st p) eq_refl)
    as (x1 & Hst & H1 & H2 & H3 & H4 & H5 & _).
  unfold x'. rewrite Hst. cbn [fst].
  split; [reflexivity|]. repeat split; assumption.
Qed.

(** The operations that only reach the owned timer return, keep every field
    of the sequencer but the timer, and emit under the phases shown. *)
Lemma exec_keepsPhase fuel o s x :
  PomodoroTimer.keepsPhase o = true ->
  PomodoroTimer.timer s = Some x ->
  exists x' es,
    PomodoroTimer.exec fuel o s =
      Returns (PomodoroTimer.set_timer (Some x') s) (PomodoroTimer.relay s x es).
Proof.
  intros Hk Hx.
  destruct o; try discriminate Hk; simpl;
    unfold PomodoroTimer.pause, PomodoroTimer.stop, PomodoroTimer.resume,
      PomodoroTimer.reset, PomodoroTimer.fire, PomodoroTimer.onTimer;
    rewrite Hx;
    match goal with |- context [let (_, _) := ?t in _] => destruct t as [x' es] end;
    eauto.
Qed.

Lemma relay_tagged s x es p :
  PomodoroTimer.phase s = Some p ->
  Forall (taggedWith p) (PomodoroTimer.relay s x es).
Proof.
  intro Hp. unfold PomodoroTimer.relay. destruct (Timer.observed x); [| constructor].
  induction es as [| e es IH]; simpl; constructor; [exact Hp | exact IH].
Qed.

Lemma run_keepsPhase fuel os :
  forall s x p,
    forallb PomodoroTimer.keepsPhase os = true ->
    PomodoroTimer.timer s = Some x ->
    PomodoroTimer.phase s = Some p ->
    exists s' es,
      PomodoroTimer.run fuel os s = Returns s' es /\
      PomodoroTimer.phase s' = Some p /\
      Forall (taggedWith p) es.
Proof.
  induction os as [| o os IH]; intros s x p Hk Hx Hp; simpl.
  - exists s, []. repeat split; [exact Hp | constructor].
  - simpl in Hk. apply Bool.andb_true_iff in Hk. destruct Hk as [Ho Hos].
    destruct (exec_keepsPhase fuel o s x Ho Hx) as (x' & es & ->).
    destruct (IH (PomodoroTimer.set_timer (Some x') s) x' p Hos eq_refl Hp)
      as (s' & es' & -> & K1 & K2).
    exists s', (PomodoroTimer.relay s x es ++ es'). repeat split; [exact K1|].
    apply Forall_app. split; [apply relay_tagged, Hp | exact K2].
Qed.

(** C5: the setter throws InvalidConfiguration, before it has changed any
    field or emitted anything, exactly when the target is LongBreak and the
    configured interval is not greater than 0; in every other case it throws
    nothing, and it returns when the interval is absent or not negative. *)
Theorem setPhase_throws_exactly (fuel : nat) (target : Phase) (s : PomodoroTimer.t) :
  (target = LongBreak /\ positive (longBreak_interval (PomodoroTimer.settings s)) = false ->
   PomodoroTimer.setPhase fuel target s = Throws InvalidConfiguration s []) /\
  (~ (target = LongBreak /\ positive (longBreak_interval (PomodoroTimer.settings s)) = false) ->
   (forall err s' e, PomodoroTimer.setPhase fuel target s <> Throws err s' e) /\
   (intervalDefined (PomodoroTimer.settings s) ->
    (enoughFuel (PomodoroTimer.settings s) <= fuel)%nat ->
    exists s' e, PomodoroTimer.setPhase fuel target s = Returns s' e)).
Proof.
  split.
  - intros [H1 H2]. apply setPhase_throw; assumption.
  - intro Hn. split.
    + apply setPhase_no_throw, Hn.
    + intros Hd Hf. apply setPhase_returns; try assumption.
      intro Hl. destruct (positive _) eqn:E; [reflexivity|].
      contradiction Hn. split; [exact Hl | reflexivity].
Qed.

Lemma setPhase_throws_exactly_witness :
  PomodoroTimer.setPhase 2 LongBreak (PomodoroTimer.blank (sample (Some 0))) =
    Throws InvalidConfiguration (PomodoroTimer.blank (sample (Some 0))) [] /\
  (forall err s' e,
     PomodoroTimer.setPhase 10 LongBreak (PomodoroTimer.blank (sample (Some 4)))
     <> Throws err s' e) /\
  exists s' e,
    PomodoroTimer.setPhase 10 LongBreak (PomodoroTimer.blank (sample (Some 4))) = Returns s' e.
Proof.
  split.
  - apply (proj1 (setPhase_throws_exactly 2 LongBreak (PomodoroTimer.blank (sample (Some 0))))).
    split; reflexivity.
  - assert (Hn : ~ (LongBreak = LongBreak /\
                    positive (longBreak_interval
                      (PomodoroTimer.settings (PomodoroTimer.blank (sample (Some 4))))) = false)).
    { intros [_ H]. vm_compute in H. discriminate H. }
    split.
    + apply (proj1 (proj2 (setPhase_throws_exactly 10 LongBreak
                             (PomodoroTimer.blank (sample (Some 4)))) Hn)).
    + apply (proj2 (proj2 (setPhase_throws_exactly 10 LongBreak
                             (PomodoroTimer.blank (sample (Some 4)))) Hn)).
      * vm_compute. discriminate.
      * vm_compute. lia.
Defined.

(** C10 at a negative interval count and initial phase Focus: the loop of
    the setter never meets Focus, so the constructor does not return, however
    many steps it is given. *)
Theorem constructor_negative_interval_never_returns (fuel : nat) :
  PomodoroTimer.new fuel (sample (Some (-1))) Focus = OutOfFuel.
Proof.
  unfold PomodoroTimer.new.
  apply (setPhase_negative (-1)); [lia | discriminate | reflexivity].
Qed.

Lemma start_at_cycle_start now s x :
  PomodoroTimer.startOfCycle s = true ->
  PomodoroTimer.timer s = Some x ->
  PomodoroTimer.start now s =
    Returns (PomodoroTimer.set_timer (Some (fst (Timer.start now x)))
               (PomodoroTimer.set_startOfCycle false s))
            (PomodoroTimer.relay s x (snd (Timer.start now x))).
Proof.
  intros Hf Hx. unfold PomodoroTimer.start, PomodoroTimer.onTimer. rewrite Hf.
  cbn [PomodoroTimer.timer PomodoroTimer.set_startOfCycle]. rewrite Hx.
  destruct (Timer.start now x) as [x' es]. reflexivity.
Qed.

Lemma start_advances now s :
  PomodoroTimer.startOfCycle s = false ->
  exists s1 p,
    s1 = fst (PomodoroTimer.next s) /\
    PomodoroTimer.phase s1 = Some p /\
    PomodoroTimer.timer s1 = Some (installed (PomodoroTimer.settings s) p) /\
    PomodoroTimer.start now s =
      Returns (PomodoroTimer.set_timer
                 (Some (fst (Timer.start now (installed (PomodoroTimer.settings s) p)))) s1)
        (snd (PomodoroTimer.next s) ++
         [TimerEvent EvStart (Some p) (PomodoroTimer.nextPhase s1)
            [Some 0%Q; Some (PomodoroTimer.seconds (minutes (PomodoroTimer.settings s) p))];
          TimerEvent EvChange (Some p) (PomodoroTimer.nextPhase s1) []]).
Proof.
  intro Hf. unfold PomodoroTimer.start. rewrite Hf.
  destruct (next_effect s) as (_ & _ & _ & _ & _ & p & Hp & Ht).
  destruct (PomodoroTimer.next s) as [s1 e1]. cbn [fst snd] in *.
  exists s1, p. split; [reflexivity|]. split; [exact Hp|]. split; [exact Ht|].
  destruct (onTimer_start_installed now s1 _ p Ht) as (-> & _).
  rewrite Hp. reflexivity.
Qed.

Lemma start_after_setPhase now fuel p s s1 e1 :
  PomodoroTimer.setPhase fuel p s = Returns s1 e1 ->
  let d := PomodoroTimer.seconds (minutes (PomodoroTimer.settings s) p) in
  exists s2 x2 np,
    PomodoroTimer.start now s1 =
      Returns s2 [TimerEvent EvStart (Some p) np [Some 0%Q; Some d];
                  TimerEvent EvChange (Some p) np []] /\
    PomodoroTimer.timerGenerator s2 = PomodoroTimer.timerGenerator s1 /\
    PomodoroTimer.startOfCycle s2 = false /\
    PomodoroTimer.phase s2 = Some p /\
    PomodoroTimer.timer s2 = Some x2 /\
    Timer.state x2 = Running /\
    Timer.duration x2 = d /\
    Timer.tick x2 = 60%Q /\
    Timer.remaining x2 = Some d.
Proof.
  intros He d.
  destruct (setPhase_result _ _ _ _ _ He) as (K1 & K2 & (_ & q & K4 & K5) & K6 & _).
  assert (q = p) as -> by congruence. rewrite K6 in K5.
  rewrite (start_at_cycle_start now s1 _ K2 K5).
  destruct (start_Stopped now (installed (PomodoroTimer.settings s) p) eq_refl)
    as (x1 & Hst & H1 & H2 & _ & H4 & H5 & _).
  rewrite Hst. cbn [fst snd].
  exists (PomodoroTimer.set_timer (Some x1) (PomodoroTimer.set_startOfCycle false s1)),
         x1, (PomodoroTimer.nextPhase s1).
  split.
  - unfold PomodoroTimer.relay.
    change (Timer.observed (installed (PomodoroTimer.settings s) p)) with true.
    cbn [map]. unfold PomodoroTimer.handler. cbn [name args]. rewrite K1. reflexivity.
  - split; [reflexivity|]. split; [reflexivity|]. split; [exact K1|].
    split; [reflexivity|]. split; [exact H1|]. split; [exact H4|].
    split; [exact H5 | exact H2].
Qed.

(** C7, as stated, fails twice.  With 4.1 minutes of short break,
    setPhase(ShortBreak) followed by start() starts a timer of 245 seconds,
    where floor(4.1 * 60) is 246: the product is rounded to a double before
    the floor.  And with a long-break interval of -1, setPhase(ShortBreak)
    does not return, however many steps it is given, so no start() follows
    it. *)
Lemma start_duration_is_not_the_exact_floor :
  (match PomodoroTimer.setPhase 10 ShortBreak
           (PomodoroTimer.blank (mkSettings 25 (41 # 10) 15 (Some 4))) with
   | Returns s1 _ =>
       match PomodoroTimer.start 0 s1 with
       | Returns s2 _ =>
           option_map Timer.state (PomodoroTimer.timer s2) = Some Running /\
           option_map Timer.duration (PomodoroTimer.timer s2) = Some 245%Q
       | _ => False
       end
   | _ => False
   end /\
   inject_Z (Qfloor ((41 # 10) * 60)) = 246%Q) /\
  (forall fuel,
     PomodoroTimer.setPhase fuel ShortBreak (PomodoroTimer.blank (sample (Some (-1))))
     = OutOfFuel).
Proof.
  split.
  - vm_compute. split; [split; reflexivity | reflexivity].
  - intro fuel. apply (setPhase_negative (-1)); [lia | discriminate | reflexivity].
Qed.

(** C7, amended: [start()] of the sequencer.  At the start of a freshly
    selected cycle it clears the flag, leaves the generator where it is and
    starts the timer the sequencer owns; otherwise it advances the generator
    one step, which installs a new timer with a 60-second tick period whose
    duration is Math.floor of the double-precision product minutes * 60
    (floor(minutes * 60) itself when the minutes are a whole number), and
    starts that timer.  For a configuration whose long-break interval is
    absent or not negative, setPhase(ShortBreak) returns and a following
    [start()] starts a timer of the short-break duration so converted; the
    events emitted from then on, as long as only the timer is operated,
    carry ShortBreak as current phase. *)
Theorem sequencer_start (now : Z) (s : PomodoroTimer.t) :
  (forall x,
     PomodoroTimer.startOfCycle s = true ->
     PomodoroTimer.timer s = Some x ->
     exists s',
       PomodoroTimer.start now s =
         Returns s' (PomodoroTimer.relay s x (snd (Timer.start now x))) /\
       PomodoroTimer.startOfCycle s' = false /\
       PomodoroTimer.timerGenerator s' = PomodoroTimer.timerGenerator s /\
       PomodoroTimer.phase s' = PomodoroTimer.phase s /\
       PomodoroTimer.nextPhase s' = PomodoroTimer.nextPhase s /\
       PomodoroTimer.timer s' = Some (fst (Timer.start now x))) /\
  (PomodoroTimer.startOfCycle s = false ->
   exists s' p x',
     let m := minutes (PomodoroTimer.settings s) p in
     let d := inject_Z (Qfloor (round64 (round64 m * 60))) in
     PomodoroTimer.start now s =
       Returns s'
         (snd (PomodoroTimer.next s) ++
          [TimerEvent EvStart (Some p) (PomodoroTimer.nextPhase s') [Some 0%Q; Some d];
           TimerEvent EvChange (Some p) (PomodoroTimer.nextPhase s') []]) /\
     PomodoroTimer.timerGenerator s' =
       advance (longBreak_interval (PomodoroTimer.settings s)) (PomodoroTimer.timerGenerator s) /\
     (PomodoroTimer.phase s', PomodoroTimer.nextPhase s') =
       written (longBreak_interval (PomodoroTimer.settings s)) (PomodoroTimer.timerGenerator s') /\
     PomodoroTimer.phase s' = Some p /\
     PomodoroTimer.timer s' = Some x' /\
     x' = fst (Timer.start now (Timer.observe (Timer.new d 60))) /\
     Timer.state x' = Running /\
     Timer.duration x' = d /\
     Timer.tick x' = 60%Q /\
     Timer.remaining x' = Some d /\
     (WholeMinutes m -> d = inject_Z (Qfloor (m * 60)))) /\
  (forall fuel p s1 e1,
     PomodoroTimer.setPhase fuel p s = Returns s1 e1 ->
     let m := minutes (PomodoroTimer.settings s) p in
     let d := inject_Z (Qfloor (round64 (round64 m * 60))) in
     exists s2 x2 np,
       PomodoroTimer.start now s1 =
         Returns s2 [TimerEvent EvStart (Some p) np [Some 0%Q; Some d];
                     TimerEvent EvChange (Some p) np []] /\
       PomodoroTimer.timerGenerator s2 = PomodoroTimer.timerGenerator s1 /\
       PomodoroTimer.startOfCycle s2 = false /\
       PomodoroTimer.phase s2 = Some p /\
       PomodoroTimer.timer s2 = Some x2 /\
       Timer.state x2 = Running /\
       Timer.duration x2 = d /\
       Timer.tick x2 = 60%Q /\
       Timer.remaining x2 = Some d /\
       (WholeMinutes m -> d = inject_Z (Qfloor (m * 60))) /\
       forall fuel' os,
         forallb PomodoroTimer.keepsPhase os = true ->
         exists s3 es,
           PomodoroTimer.run fuel' os s2 = Returns s3 es /\
           PomodoroTimer.phase s3 = Some p /\
           Forall (taggedWith p) es) /\
  (intervalDefined (PomodoroTimer.settings s) ->
   forall fuel, (enoughFuel (PomodoroTimer.settings s) <= fuel)%nat ->
   let m := shortBreak_duration (PomodoroTimer.settings s) in
   let d := inject_Z (Qfloor (round64 (round64 m * 60))) in
   exists s1 e1 s2 x2 np,
     PomodoroTimer.setPhase fuel ShortBreak s = Returns s1 e1 /\
     PomodoroTimer.start now s1 =
       Returns s2 [TimerEvent EvStart (Some ShortBreak) np [Some 0%Q; Some d];
                   TimerEvent EvChange (Some ShortBreak) np []] /\
     PomodoroTimer.phase s2 = Some ShortBreak /\
     PomodoroTimer.timer s2 = Some x2 /\
     Timer.state x2 = Running /\
     Timer.duration x2 = d /\
     Timer.tick x2 = 60%Q /\
     Timer.remaining x2 = Some d /\
     (WholeMinutes m -> d = inject_Z (Qfloor (m * 60))) /\
     forall fuel' os,
       forallb PomodoroTimer.keepsPhase os = true ->
       exists s3 es,
         PomodoroTimer.run fuel' os s2 = Returns s3 es /\
         PomodoroTimer.phase s3 = Some ShortBreak /\
         Forall (taggedWith ShortBreak) es).
Proof.
  split; [| split; [| split]].
  - intros x Hf Hx. eexists. split; [apply start_at_cycle_start; assumption|].
    repeat split.
  - intro Hf.
    destruct (start_advances now s Hf) as (s1 & p & Hs1 & Hp & Ht & Hstart).
    destruct (next_effect s) as (_ & _ & _ & H4 & H5 & _). rewrite <- Hs1 in H4, H5.
    destruct (onTimer_start_installed now s1 _ p Ht) as (_ & K1 & K2 & K3 & K4 & _).
    exists (PomodoroTimer.set_timer
              (Some (fst (Timer.start now (installed (PomodoroTimer.settings s) p)))) s1),
           p, (fst (Timer.start now (installed (PomodoroTimer.settings s) p))).
    intros m d. split; [exact Hstart|]. split; [exact H4|]. split; [exact H5|].
    split; [exact Hp|]. split; [reflexivity|]. split; [reflexivity|].
    split; [exact K1|]. split; [exact K2|]. split; [exact K3|]. split; [exact K4|].
    apply seconds_whole.
  - intros fuel p s1 e1 He m d.
    destruct (start_after_setPhase now fuel p s s1 e1 He)
      as (s2 & x2 & np & H1 & H2 & H3 & H4 & H5 & H6 & H7 & H8 & H9).
    exists s2, x2, np.
    split; [exact H1|]. split; [exact H2|]. split; [exact H3|]. split; [exact H4|].
    split; [exact H5|]. split; [exact H6|]. split; [exact H7|]. split; [exact H8|].
    split; [exact H9|]. split; [apply seconds_whole|].
    intros fuel' os Hos. apply (run_keepsPhase fuel' os s2 x2 p Hos H5 H4).
  - intros Hd fuel Hf m d.
    destruct (setPhase_returns fuel ShortBreak s Hd) as (s1 & e1 & He);
      [discriminate | exact Hf |].
    destruct (start_after_setPhase now fuel ShortBreak s s1 e1 He)
      as (s2 & x2 & np & H1 & _ & _ & H4 & H5 & H6 & H7 & H8 & H9).
    exists s1, e1, s2, x2, np.
    split; [exact He|]. split; [exact H1|]. split; [exact H4|]. split; [exact H5|].
    split; [exact H6|]. split; [exact H7|]. split; [exact H8|]. split; [exact H9|].
    split; [apply seconds_whole|].
    intros fuel' os Hos. apply (run_keepsPhase fuel' os s2 x2 ShortBreak Hos H5 H4).
Qed.

Lemma sequencer_start_witness :
  let s := PomodoroTimer.blank (sample (Some 4)) in
  let s1 := afterSetPhase 2 ShortBreak s in
  let x1 := installed (sample (Some 4)) ShortBreak in
  let s2 := afterStart 0 s1 in
  (exists s',
     PomodoroTimer.start 0 s1 =
       Returns s' (PomodoroTimer.relay s1 x1 (snd (Timer.start 0 x1))) /\
     PomodoroTimer.startOfCycle s' = false /\
     PomodoroTimer.timerGenerator s' = PomodoroTimer.timerGenerator s1 /\
     PomodoroTimer.phase s' = PomodoroTimer.phase s1 /\
     PomodoroTimer.nextPhase s' = PomodoroTimer.nextPhase s1 /\
     PomodoroTimer.timer s' = Some (fst (Timer.start 0 x1))) /\
  (exists s' p x',
     let m := minutes (PomodoroTimer.settings s2) p in
     let d := inject_Z (Qfloor (round64 (round64 m * 60))) in
     PomodoroTimer.start 9 s2 =
       Returns s'
         (snd (PomodoroTimer.next s2) ++
          [TimerEvent EvStart (Some p) (PomodoroTimer.nextPhase s') [Some 0%Q; Some d];
           TimerEvent EvChange (Some p) (PomodoroTimer.nextPhase s') []]) /\
     PomodoroTimer.timerGenerator s' =
       advance (longBreak_interval (PomodoroTimer.settings s2)) (PomodoroTimer.timerGenerator s2) /\
     (PomodoroTimer.phase s', PomodoroTimer.nextPhase s') =
       written (longBreak_interval (PomodoroTimer.settings s2)) (PomodoroTimer.timerGenerator s') /\
     PomodoroTimer.phase s' = Some p /\
     PomodoroTimer.timer s' = Some x' /\
     x' = fst (Timer.start 9 (Timer.observe (Timer.new d 60))) /\
     Timer.state x' = Running /\
     Timer.duration x' = d /\
     Timer.tick x' = 60%Q /\
     Timer.remaining x' = Some d /\
     (WholeMinutes m -> d = inject_Z (Qfloor (m * 60)))) /\
  (exists s2' x2 np,
     PomodoroTimer.start 0 s1 =
       Returns s2' [TimerEvent EvStart (Some ShortBreak) np [Some 0%Q; Some 300%Q];
                    TimerEvent EvChange (Some ShortBreak) np []] /\
     PomodoroTimer.timerGenerator s2' = PomodoroTimer.timerGenerator s1 /\
     PomodoroTimer.startOfCycle s2' = false /\
     PomodoroTimer.phase s2' = Some ShortBreak /\
     PomodoroTimer.timer s2' = Some x2 /\
     Timer.state x2 = Running /\
     Timer.duration x2 = 300%Q /\
     Timer.tick x2 = 60%Q /\
     Timer.remaining x2 = Some 300%Q /\
     (WholeMinutes 5 -> 300%Q = inject_Z (Qfloor (5 * 60))) /\
     forall fuel' os,
       forallb PomodoroTimer.keepsPhase os = true ->
       exists s3 es,
         PomodoroTimer.run fuel' os s2' = Returns s3 es /\
         PomodoroTimer.phase s3 = Some ShortBreak /\
         Forall (taggedWith ShortBreak) es) /\
  (exists s1' e1 s2' x2 np,
     PomodoroTimer.setPhase 10 ShortBreak s = Returns s1' e1 /\
     PomodoroTimer.start 0 s1' =
       Returns s2' [TimerEvent EvStart (Some ShortBreak) np [Some 0%Q; Some 300%Q];
                    TimerEvent EvChange (Some ShortBreak) np []] /\
     PomodoroTimer.phase s2' = Some ShortBreak /\
     PomodoroTimer.timer s2' = Some x2 /\
     Timer.state x2 = Running /\
     Timer.duration x2 = 300%Q /\
     Timer.tick x2 = 60%Q /\
     Timer.remaining x2 = Some 300%Q /\
     (WholeMinutes 5 -> 300%Q = inject_Z (Qfloor (5 * 60))) /\
     forall fuel' os,
       forallb PomodoroTimer.keepsPhase os = true ->
       exists s3 es,
         PomodoroTimer.run fuel' os s2' = Returns s3 es /\
         PomodoroTimer.phase s3 = Some ShortBreak /\
         Forall (taggedWith ShortBreak) es).
Proof.
  intros s s1 x1 s2. split; [| split; [| split]].
  - apply (proj1 (sequencer_start 0 s1) x1).
    + vm_compute. reflexivity.
    + vm_compute. reflexivity.
  - apply (proj1 (proj2 (sequencer_start 9 s2))).
    vm_compute. reflexivity.
  - apply (proj1 (proj2 (proj2 (sequencer_start 0 s))) 2%nat ShortBreak s1 [CycleReset ShortBreak]).
    vm_compute. reflexivity.
  - apply (proj2 (proj2 (proj2 (sequencer_start 0 s)))).
    + vm_compute. discriminate.
    + vm_compute. lia.
Defined.

End SequencerFacts.

(** * Facts about [PersistentPomodoroTimer] *)

Section WrapperFacts.

Lemma stop_Stopped x : Timer.state (fst (Timer.stop x)) = Stopped.
Proof.
  unfold Timer.stop, Timer.isStopped.
  destruct (Timer.state x) eqn:E; simpl; [exact E | reflexivity | reflexivity].
Qed.

Lemma map_handler es : map PersistentPomodoroTimer.handler es = es.
Proof.
  induction es as [| e es IH]; simpl; [reflexivity|].
  rewrite IH. destruct e; reflexivity.
Qed.

Lemma forward_observed s es :
  PomodoroTimer.observed s = true -> PersistentPomodoroTimer.forward s es = es.
Proof. intro H. unfold PersistentPomodoroTimer.forward. rewrite H. apply map_handler. Qed.

(** [start()] of a sequencer that owns a timer returns. *)
Lemma start_total now s x :
  PomodoroTimer.timer s = Some x ->
  exists s' es x',
    PomodoroTimer.start now s = Returns s' es /\
    PomodoroTimer.timer s' = Some x' /\
    PomodoroTimer.settings s' = PomodoroTimer.settings s /\
    PomodoroTimer.observed s' = PomodoroTimer.observed s.
Proof.
  intro Hx. destruct (PomodoroTimer.startOfCycle s) eqn:Hf.
  - rewrite (start_at_cycle_start now s x Hf Hx).
    do 3 eexists. split; [reflexivity|]. split; [reflexivity|]. split; reflexivity.
  - destruct (start_advances now s Hf) as (s1 & p & Hs1 & _ & _ & ->).
    destruct (next_effect s) as (H1 & _ & H3 & _). rewrite <- Hs1 in H1, H3.
    do 3 eexists. split; [reflexivity|]. split; [reflexivity|].
    split; [exact H1 | exact H3].
Qed.

(** Every call on a sequencer that owns a timer returns or throws, and
    leaves a sequencer of the same settings, with the same listeners, that
    owns a timer. *)
Lemma exec_total fuel o s x :
  intervalDefined (PomodoroTimer.settings s) ->
  (enoughFuel (PomodoroTimer.settings s) <= fuel)%nat ->
  PomodoroTimer.timer s = Some x ->
  exists s' es x',
    (PomodoroTimer.exec fuel o s = Returns s' es \/
     exists err, PomodoroTimer.exec fuel o s = Throws err s' es) /\
    PomodoroTimer.timer s' = Some x' /\
    PomodoroTimer.settings s' = PomodoroTimer.settings s /\
    PomodoroTimer.observed s' = PomodoroTimer.observed s.
Proof.
  intros Hd Hf Hx.
  assert (Hset : forall p,
            exists s' es x',
              (PomodoroTimer.setPhase fuel p s = Returns s' es \/
               PomodoroTimer.setPhase fuel p s = Throws InvalidConfiguration s' es) /\
              PomodoroTimer.timer s' = Some x' /\
              PomodoroTimer.settings s' = PomodoroTimer.settings s /\
              PomodoroTimer.observed s' = PomodoroTimer.observed s).
  { intro p.
    destruct (Phase_eqb p LongBreak && negb (positive (longBreak_interval (PomodoroTimer.settings s)))) eqn:G.
    - apply Bool.andb_true_iff in G. destruct G as [G1 G2].
      apply Phase_eqb_eq in G1. apply Bool.negb_true_iff in G2.
      exists s, [], x. split; [right; apply setPhase_throw; assumption|].
      split; [exact Hx|]. split; reflexivity.
    - destruct (setPhase_returns fuel p s Hd) as (s' & es & He); [| exact Hf |].
      { intros ->. simpl in G. apply Bool.negb_false_iff in G. exact G. }
      destruct (setPhase_result _ _ _ _ _ He) as (_ & _ & (_ & q & _ & K5) & K6 & K7 & _).
      exists s', es. eexists. split; [left; exact He|].
      split; [exact K5|]. split; [exact K6 | exact K7]. }
  assert (Hsp : forall p now,
            exists s' es x',
              (PomodoroTimer.startPhase fuel p now s = Returns s' es \/
               exists err, PomodoroTimer.startPhase fuel p now s = Throws err s' es) /\
              PomodoroTimer.timer s' = Some x' /\
              PomodoroTimer.settings s' = PomodoroTimer.settings s /\
              PomodoroTimer.observed s' = PomodoroTimer.observed s).
  { intros p now. unfold PomodoroTimer.startPhase.
    destruct (Hset p) as (s1 & e1 & x1 & [He | He] & K1 & K2 & K3); rewrite He.
    - destruct (start_total now s1 x1 K1) as (s2 & e2 & x2 & -> & L1 & L2 & L3).
      exists s2, (e1 ++ e2), x2. split; [left; reflexivity|].
      split; [exact L1|]. split; congruence.
    - exists s1, e1, x1. split; [right; eexists; reflexivity|].
      split; [exact K1|]. split; assumption. }
  destruct o as [now | now | | now | now | p | now | now | now | now | h now | h];
    try (match goal with
         | |- context [PomodoroTimer.exec fuel ?o s] =>
             destruct (exec_keepsPhase fuel o s x eq_refl Hx) as (x' & es & ->)
         end;
                   do 3 eexists; split; [left; reflexivity|];
                   split; [reflexivity|]; split; reflexivity).
  - simpl. destruct (start_total now s x Hx) as (s' & es & x' & -> & K).
    exists s', es, x'. split; [left; reflexivity | exact K].
  - simpl. destruct (Hset p) as (s' & es & x' & [He | He] & K);
      exists s', es, x'; (split; [| exact K]); [left | right; eexists]; exact He.
  - apply Hsp.
  - apply Hsp.
  - apply Hsp.
  - apply Hsp.
Qed.

Lemma wrapper_exec_forwards st fuel o w :
  intervalDefined st -> (enoughFuel st <= fuel)%nat ->
  Holding st w ->
  exists w' es,
    (PersistentPomodoroTimer.exec fuel o w = PersistentPomodoroTimer.Returned w' es es \/
     exists err, PersistentPomodoroTimer.exec fuel o w = PersistentPomodoroTimer.Thrown err w' es es) /\
    Holding st w'.
Proof.
  intros Hd Hf (s & x & Hw & Ho & Hs & Hx).
  assert (D : PersistentPomodoroTimer.exec fuel o w =
              PersistentPomodoroTimer.delegate (PomodoroTimer.exec fuel o) w).
  { destruct o; simpl; try reflexivity; rewrite Hw; reflexivity. }
  rewrite D. unfold PersistentPomodoroTimer.delegate. rewrite Hw.
  rewrite <- Hs in Hd, Hf.
  destruct (exec_total fuel o s x Hd Hf Hx) as (s' & es & x' & [He | [err He]] & K1 & K2 & K3);
    rewrite He, (forward_observed s es Ho);
    exists (PersistentPomodoroTimer.mk (Some s')), es;
    (split; [| exists s', x'; simpl; repeat split; congruence]).
  - left. reflexivity.
  - right. exists err. reflexivity.
Qed.

Lemma wrapper_run_forwards st fuel os :
  intervalDefined st -> (enoughFuel st <= fuel)%nat ->
  forall w, Holding st w ->
    exists w' es,
      PersistentPomodoroTimer.run fuel os w = PersistentPomodoroTimer.Returned w' es es /\
      Holding st w'.
Proof.
  intros Hd Hf. induction os as [| o os IH]; intros w Hw; simpl.
  - exists w, []. split; [reflexivity | exact Hw].
  - destruct (wrapper_exec_forwards st fuel o w Hd Hf Hw)
      as (w1 & e1 & [He | [err He]] & H1); rewrite He;
      destruct (IH w1 H1) as (w2 & e2 & -> & H2);
      exists w2, (e1 ++ e2); (split; [reflexivity | exact H2]).
Qed.

(** C3, as stated, fails: on a settings change the new sequencer emits
    cycle:reset from its constructor, and the wrapper emits nothing. *)
Lemma settings_change_drops_cycle_reset :
  exists w inner outer,
    PersistentPomodoroTimer.onSettingsChange 10 (sample (Some 4)) (built 10 (sample (Some 4)))
    = PersistentPomodoroTimer.Returned w inner outer /\
    In (CycleReset Focus) inner /\
    ~ In (CycleReset Focus) outer.
Proof.
  exists (built 10 (sample (Some 4))), [CycleReset Focus], [].
  split; [vm_compute; reflexivity|].
  split; [left; reflexivity | intros []].
Qed.

(** C3, amended: on a settings change whose long-break interval is absent or
    not negative, the wrapper disposes the sequencer it holds (its timer is
    stopped, then detached), builds a new sequencer at Focus from the new
    settings and registers its handlers on it; the cycle:reset the new
    sequencer emits from its constructor reaches no observer of the wrapper,
    and everything it emits afterwards is emitted unchanged by the wrapper. *)
Theorem settings_change_rebuilds
    (fuel : nat) (st : Settings) (w : PersistentPomodoroTimer.t)
    (old : PomodoroTimer.t) (x : Timer.t) :
  intervalDefined st ->
  (enoughFuel st <= fuel)%nat ->
  PersistentPomodoroTimer.timer w = Some old ->
  PomodoroTimer.timer old = Some x ->
  let stopped := PomodoroTimer.relay old x (snd (Timer.stop x)) in
  exists s,
    PomodoroTimer.dispose old =
      Returns (PomodoroTimer.set_timer
                 (Some (Timer.removeAllListeners (fst (Timer.stop x)))) old) stopped /\
    Timer.state (fst (Timer.stop x)) = Stopped /\
    PersistentPomodoroTimer.onSettingsChange fuel st w =
      PersistentPomodoroTimer.Returned
        (PersistentPomodoroTimer.mk (Some s))
        (stopped ++ [CycleReset Focus])
        (PersistentPomodoroTimer.forward old stopped) /\
    PomodoroTimer.settings s = st /\
    PomodoroTimer.phase s = Some Focus /\
    PomodoroTimer.startOfCycle s = true /\
    PomodoroTimer.timer s = Some (installed st Focus) /\
    PomodoroTimer.observed s = true /\
    forall fuel' os,
      (enoughFuel st <= fuel')%nat ->
      exists w' es,
        PersistentPomodoroTimer.run fuel' os (PersistentPomodoroTimer.mk (Some s))
        = PersistentPomodoroTimer.Returned w' es es.
Proof.
  intros Hd Hf Hw Hx stopped.
  assert (Hdis : PomodoroTimer.dispose old =
                 Returns (PomodoroTimer.set_timer
                            (Some (Timer.removeAllListeners (fst (Timer.stop x)))) old) stopped).
  { unfold PomodoroTimer.dispose, PomodoroTimer.onTimer, stopped. rewrite Hx.
    destruct (Timer.stop x) as [x' es]. reflexivity. }
  destruct (constructor_effect fuel st Focus Hd Hf) as [_ Hnew].
  destruct Hnew as (s0 & Hs0 & K1 & K2 & K3 & K4 & K5 & K6).
  { intros [H _]. discriminate H. }
  exists (PomodoroTimer.observe s0).
  split; [exact Hdis|]. split; [apply stop_Stopped|]. split.
  - unfold PersistentPomodoroTimer.onSettingsChange, PersistentPomodoroTimer.delegate.
    rewrite Hw, Hdis, Hs0.
    unfold PersistentPomodoroTimer.forward at 2. cbn [PomodoroTimer.observed PomodoroTimer.blank].
    rewrite app_nil_r. reflexivity.
  - split; [exact K4|]. split; [exact K1|]. split; [exact K2|]. split; [exact K3|].
    split; [reflexivity|].
    intros fuel' os Hf'.
    destruct (wrapper_run_forwards st fuel' os Hd Hf'
                (PersistentPomodoroTimer.mk (Some (PomodoroTimer.observe s0))))
      as (w' & es & Hrun & _).
    + exists (PomodoroTimer.observe s0), (installed st Focus).
      split; [reflexivity|]. split; [reflexivity|]. split; [exact K4 | exact K3].
    + exists w', es. exact Hrun.
Qed.

Lemma settings_change_rebuilds_witness :
  exists s,
    PersistentPomodoroTimer.onSettingsChange 10 (sample (Some 4)) (built 10 (sample (Some 2)))
    = PersistentPomodoroTimer.Returned
        (PersistentPomodoroTimer.mk (Some s)) [CycleReset Focus] [] /\
    PomodoroTimer.settings s = sample (Some 4) /\
    PomodoroTimer.phase s = Some Focus /\
    PomodoroTimer.observed s = true /\
    forall fuel' os,
      (10 <= fuel')%nat ->
      exists w' es,
        PersistentPomodoroTimer.run fuel' os (PersistentPomodoroTimer.mk (Some s))
        = PersistentPomodoroTimer.Returned w' es es.
Proof.
  destruct (settings_change_rebuilds 10 (sample (Some 4)) (built 10 (sample (Some 2)))
              (PomodoroTimer.observe
                 (afterSetPhase 10 Focus (PomodoroTimer.blank (sample (Some 2)))))
              (installed (sample (Some 2)) Focus))
    as (s & _ & _ & H3 & H4 & H5 & _ & _ & H8 & H9).
  - vm_compute. discriminate.
  - vm_compute. lia.
  - vm_compute. reflexivity.
  - vm_compute. reflexivity.
  - exists s. split; [exact H3|]. split; [exact H4|]. split; [exact H5|].
    split; [exact H8 | exact H9].
Defined.

End WrapperFacts.

(** * Further behaviour of [Timer] *)

Section TimerBehaviour.

Lemma pause_Running now x :
  Timer.state x = Running ->
  let r := (toNumber (Timer.remaining x) - Timer.periodLength now x)%Q in
  exists x',
    Timer.pause now x =
      (x', [mkEvent EvPause [Some (Timer.duration x - r)%Q; Some r]; mkEvent EvChange []]) /\
    Timer.state x' = Paused /\
    Timer.remaining x' = Some r /\
    Timer.periodStartTime x' = None /\
    Timer.duration x' = Timer.duration x /\
    Timer.tick x' = Timer.tick x /\
    Timer.observed x' = Timer.observed x /\
    Timer.nextHandle x' = Timer.nextHandle x /\
    Timer.jobs x' =
      clearJob (Timer.expireTimeout x) (clearJob (Timer.tickInterval x) (Timer.jobs x)).
Proof.
  intros H r. unfold Timer.pause, Timer.isRunning. rewrite H.
  eexists. split; [reflexivity|]. repeat split; reflexivity.
Qed.

Lemma resume_Paused now x :
  Timer.state x = Paused ->
  exists x',
    Timer.resume now x =
      (x', [mkEvent EvResume [Some (Timer.duration x - toNumber (Timer.remaining x))%Q;
                              Timer.remaining x];
            mkEvent EvChange []]) /\
    Timer.state x' = Running /\
    Timer.remaining x' = Timer.remaining x /\
    Timer.periodStartTime x' = Some now /\
    Timer.duration x' = Timer.duration x /\
    Timer.tick x' = Timer.tick x /\
    Timer.observed x' = Timer.observed x /\
    Timer.tickInterval x' = Some (S (Timer.nextHandle x)) /\
    Timer.expireTimeout x' = Some (Timer.nextHandle x) /\
    Timer.jobs x' =
      mkJob (S (Timer.nextHandle x)) TickCallback (Timer.tick x * 1000)
      :: mkJob (Timer.nextHandle x) ExpireCallback (toNumber (Timer.remaining x) * 1000)
      :: Timer.jobs x.
Proof.
  intro H. unfold Timer.resume, Timer.isPaused. rewrite H.
  eexists. split; [reflexivity|]. repeat split; reflexivity.
Qed.

Lemma exec_track o x :
  Timer.state (fst (Timer.exec o x)) =
  fold_left track (snd (Timer.exec o x)) (Timer.state x).
Proof.
  destruct o; simpl.
  - unfold Timer.start, Timer.isStopped. destruct (Timer.state x) eqn:E;
      first [exact E | reflexivity].
  - unfold Timer.stop, Timer.isStopped. destruct (Timer.state x) eqn:E;
      first [exact E | reflexivity].
  - unfold Timer.pause, Timer.isRunning. destruct (Timer.state x) eqn:E;
      first [exact E | reflexivity].
  - unfold Timer.resume, Timer.isPaused. destruct (Timer.state x) eqn:E;
      first [exact E | reflexivity].
  - unfold Timer.reset, Timer.stop, Timer.start, Timer.isStopped.
    destruct (Timer.state x) eqn:E; simpl; try rewrite E; reflexivity.
  - unfold Timer.fireTick, Timer.tickCallback.
    destruct (isScheduled _ _ _); reflexivity.
  - unfold Timer.fireExpire. destruct (isScheduled _ _ _); reflexivity.
Qed.

(** X1: an observer that only listens can follow the timer's state: folding
    the notifications of any history over the state the timer had gives the
    state it has (start and resume mean Running, pause means Paused, stop and
    expire mean Stopped, tick and change mean no transition). *)
Theorem notifications_track_state (os : list Timer.Op) (x : Timer.t) :
  Timer.state (fst (Timer.run os x)) =
  fold_left track (snd (Timer.run os x)) (Timer.state x).
Proof.
  revert x. induction os as [| o os IH]; intro x; simpl; [reflexivity|].
  pose proof (exec_track o x) as H.
  destruct (Timer.exec o x) as [x1 e1]. simpl in H.
  specialize (IH x1). destruct (Timer.run os x1) as [x2 e2]. simpl in *.
  rewrite fold_left_app, <- H. exact IH.
Qed.

End TimerBehaviour.

Section TimerAccounting.

Lemma exec_frame o x :
  Timer.duration (fst (Timer.exec o x)) = Timer.duration x /\
  Timer.tick (fst (Timer.exec o x)) = Timer.tick x /\
  Timer.observed (fst (Timer.exec o x)) = Timer.observed x.
Proof.
  assert (Hstop : forall y,
            Timer.duration (fst (Timer.stop y)) = Timer.duration y /\
            Timer.tick (fst (Timer.stop y)) = Timer.tick y /\
            Timer.observed (fst (Timer.stop y)) = Timer.observed y).
  { intro y. unfold Timer.stop. destruct (Timer.isStopped y); simpl; auto. }
  assert (Hstart : forall now y,
            Timer.duration (fst (Timer.start now y)) = Timer.duration y /\
            Timer.tick (fst (Timer.start now y)) = Timer.tick y /\
            Timer.observed (fst (Timer.start now y)) = Timer.observed y).
  { intros now y. unfold Timer.start. destruct (Timer.isStopped y); simpl; auto. }
  destruct o; simpl.
  - apply Hstart.
  - apply Hstop.
  - unfold Timer.pause. destruct (Timer.isRunning x); simpl; auto.
  - unfold Timer.resume. destruct (Timer.isPaused x); simpl; auto.
  - unfold Timer.reset. destruct (Hstop x) as (A1 & A2 & A3).
    destruct (Timer.stop x) as [x1 e1]. simpl in *.
    destruct (Hstart now x1) as (B1 & B2 & B3).
    destruct (Timer.start now x1) as [x2 e2]. simpl in *.
    repeat split; congruence.
  - unfold Timer.fireTick. destruct (isScheduled _ _ _); simpl; auto.
  - unfold Timer.fireExpire. destruct (isScheduled _ _ _); simpl; auto.
Qed.

Lemma run_frame (os : list Timer.Op) (x : Timer.t) :
  Timer.duration (fst (Timer.run os x)) = Timer.duration x /\
  Timer.tick (fst (Timer.run os x)) = Timer.tick x /\
  Timer.observed (fst (Timer.run os x)) = Timer.observed x.
Proof.
  revert x. induction os as [| o os IH]; intro x; simpl; [auto|].
  destruct (exec_frame o x) as (A1 & A2 & A3).
  destruct (Timer.exec o x) as [x1 e1]. simpl in *.
  destruct (IH x1) as (B1 & B2 & B3).
  destruct (Timer.run os x1) as [x2 e2]. simpl in *.
  repeat split; congruence.
Qed.

(** X2: the duration and the tick period given to the constructor, and the
    listeners registered on the timer, are the same after any history of
    method calls and callback firings. *)
Theorem creation_parameters_fixed (os : list Timer.Op) (x : Timer.t) :
  Timer.duration (fst (Timer.run os x)) = Timer.duration x /\
  Timer.tick (fst (Timer.run os x)) = Timer.tick x /\
  Timer.observed (fst (Timer.run os x)) = Timer.observed x.
Proof. apply run_frame. Qed.



(** X4: time is counted only while the timer runs.  From a stopped timer,
    start at [t0], pause at [t1], resume at [t2] and pause at [t3] leave the
    timer Paused with remaining = duration - (t1 - t0)/1000 - (t3 - t2)/1000;
    the interval between the pause and the resume is not counted, and the
    expiry registered by the resume is due after what remained at the first
    pause. *)
Theorem pause_resume_accounting (x : Timer.t) (t0 t1 t2 t3 : Z) :
  Timer.state x = Stopped ->
  let d := Timer.duration x in
  let r1 := (d - inject_Z (t1 - t0) / 1000)%Q in
  let x3 := fst (Timer.run [Timer.Start t0; Timer.Pause t1; Timer.Resume t2] x) in
  let x4 := fst (Timer.run [Timer.Start t0; Timer.Pause t1; Timer.Resume t2; Timer.Pause t3] x) in
  Timer.state x3 = Running /\
  Timer.remaining x3 = Some r1 /\
  (exists h, Timer.expireTimeout x3 = Some h /\
             In (mkJob h ExpireCallback (r1 * 1000)) (Timer.jobs x3)) /\
  Timer.state x4 = Paused /\
  Timer.remaining x4 = Some (r1 - inject_Z (t3 - t2) / 1000)%Q.
Proof.
  intros H d r1 x3 x4.
  destruct (start_Stopped t0 x H) as (y1 & E1 & S1 & R1 & P1 & D1 & _).
  destruct (pause_Running t1 y1 S1) as (y2 & E2 & S2 & R2 & P2 & D2 & _).
  destruct (resume_Paused t2 y2 S2)
    as (y3 & E3 & S3 & R3 & P3 & D3 & _ & _ & _ & X3 & J3).
  destruct (pause_Running t3 y3 S3) as (y4 & E4 & S4 & R4 & _).
  assert (K3 : x3 = y3).
  { unfold x3. simpl. rewrite E1, E2, E3. reflexivity. }
  assert (K4 : x4 = y4).
  { unfold x4. simpl. rewrite E1, E2, E3, E4. reflexivity. }
  assert (Q2 : Timer.remaining y2 = Some r1).
  { rewrite R2. unfold Timer.periodLength. rewrite R1, P1. reflexivity. }
  rewrite K3, K4.
  split; [exact S3|]. split; [congruence|]. split.
  - exists (Timer.nextHandle y2). split; [exact X3|].
    rewrite J3, Q2. right. left. reflexivity.
  - split; [exact S4|].
    rewrite R4. unfold Timer.periodLength. rewrite R3, Q2, P3. reflexivity.
Qed.

Lemma pause_resume_accounting_witness :
  let x3 := fst (Timer.run [Timer.Start 0; Timer.Pause 90000; Timer.Resume 200000]
                   (Timer.new 1500 60)) in
  let x4 := fst (Timer.run [Timer.Start 0; Timer.Pause 90000; Timer.Resume 200000;
                            Timer.Pause 260000] (Timer.new 1500 60)) in
  Timer.state x3 = Running /\
  Timer.remaining x3 = Some (1500 - inject_Z (90000 - 0) / 1000)%Q /\
  (exists h, Timer.expireTimeout x3 = Some h /\
             In (mkJob h ExpireCallback ((1500 - inject_Z (90000 - 0) / 1000) * 1000))
                (Timer.jobs x3)) /\
  Timer.state x4 = Paused /\
  Timer.remaining x4 =
    Some (1500 - inject_Z (90000 - 0) / 1000 - inject_Z (260000 - 200000) / 1000)%Q.
Proof.
  apply (pause_resume_accounting (Timer.new 1500 60) 0 90000 200000 260000).
  reflexivity.
Defined.

End TimerAccounting.

Section TimerCallbacks.

Lemma reachable_invariants d tk os :
  StateInvariant (fst (Timer.run os (Timer.new d tk))) /\
  JobsInvariant (fst (Timer.run os (Timer.new d tk))).
Proof. apply run_invariants; [apply new_StateInvariant | apply new_JobsInvariant]. Qed.

Lemma scheduled_expire_Running h x :
  JobsInvariant x ->
  isScheduled h ExpireCallback (Timer.jobs x) = true ->
  Timer.state x = Running.
Proof.
  intros HJ S. unfold JobsInvariant in HJ.
  destruct (Timer.state x); try (rewrite HJ in S; discriminate S). reflexivity.
Qed.

(** X5: the callbacks a timer has registered with the host are exactly one
    tick callback and one expiry callback, under the handles the timer
    keeps, while it is Running, and none at all while it is Stopped or
    Paused: no history of calls and firings leaves an orphaned callback. *)
Theorem callbacks_only_while_running (d tk : Q) (os : list Timer.Op) :
  JobsInvariant (fst (Timer.run os (Timer.new d tk))).
Proof. apply reachable_invariants. Qed.

(** X6: the expiry callback, when it fires, stops the timer, clears
    [remaining] and [periodStartTime], emits expire(duration, 0) then change,
    and leaves no callback registered: it cannot fire a second time and no
    tick follows it. *)
Theorem expiry_fires_once (d tk : Q) (os : list Timer.Op) (h : Handle) :
  let x := fst (Timer.run os (Timer.new d tk)) in
  isScheduled h ExpireCallback (Timer.jobs x) = true ->
  exists x',
    Timer.fireExpire h x =
      (x', [mkEvent EvExpire [Some d; Some 0%Q]; mkEvent EvChange []]) /\
    Timer.state x' = Stopped /\
    Timer.remaining x' = None /\
    Timer.periodStartTime x' = None /\
    Timer.jobs x' = [] /\
    Timer.fireExpire h x' = (x', []) /\
    forall h' now, Timer.fireTick h' now x' = (x', []).
Proof.
  intros x S.
  destruct (reachable_invariants d tk os) as [_ HJ]. fold x in HJ.
  pose proof (exec_JobsInvariant (Timer.FireExpire h) x HJ) as HJ'.
  destruct (run_frame os (Timer.new d tk)) as (Hd & _).
  fold x in Hd. simpl in Hd.
  simpl in HJ'. unfold Timer.fireExpire in *. rewrite S in *.
  set (x' := fst (Timer.expireCallback
                    (Timer.set_jobs (clearJob (Some h) (Timer.jobs x)) x))) in *.
  assert (Hs : Timer.state x' = Stopped) by reflexivity.
  assert (Hj : Timer.jobs x' = []).
  { unfold JobsInvariant in HJ'. rewrite Hs in HJ'. exact HJ'. }
  exists x'. split.
  - unfold x', Timer.expireCallback. cbn [fst]. rewrite <- Hd. reflexivity.
  - split; [exact Hs|]. split; [reflexivity|]. split; [reflexivity|].
    split; [exact Hj|]. split.
    + rewrite Hj. reflexivity.
    + intros h' now. unfold Timer.fireTick. rewrite Hj. reflexivity.
Qed.

Lemma expiry_fires_once_witness :
  let x := fst (Timer.run [Timer.Start 0] (Timer.new 1500 60)) in
  exists x',
    Timer.fireExpire 0 x =
      (x', [mkEvent EvExpire [Some 1500%Q; Some 0%Q]; mkEvent EvChange []]) /\
    Timer.state x' = Stopped /\
    Timer.remaining x' = None /\
    Timer.periodStartTime x' = None /\
    Timer.jobs x' = [] /\
    Timer.fireExpire 0 x' = (x', []) /\
    forall h' now, Timer.fireTick h' now x' = (x', []).
Proof.
  apply (expiry_fires_once 1500 60 [Timer.Start 0] 0%nat).
  reflexivity.
Defined.

(** X7: [reset()] in any state restarts the whole duration: the timer is
    Running with remaining = duration and periodStartTime = now, the only
    callbacks registered are a fresh tick callback of the tick period and a
    fresh expiry callback of the full duration, and what is emitted is stop,
    change (unless the timer was Stopped) followed by start(0, duration),
    change. *)
Theorem reset_restarts_full_duration (d tk : Q) (os : list Timer.Op) (now : Z) :
  let x := fst (Timer.run os (Timer.new d tk)) in
  exists x' ht he,
    Timer.reset now x =
      (x', stopEvents (Timer.state x) ++
           [mkEvent EvStart [Some 0%Q; Some d]; mkEvent EvChange []]) /\
    Timer.state x' = Running /\
    Timer.remaining x' = Some d /\
    Timer.periodStartTime x' = Some now /\
    Timer.tickInterval x' = Some ht /\
    Timer.expireTimeout x' = Some he /\
    Timer.jobs x' = [mkJob ht TickCallback (tk * 1000); mkJob he ExpireCallback (d * 1000)].
Proof.
  intro x.
  destruct (reachable_invariants d tk os) as [_ HJ]. fold x in HJ.
  destruct (run_frame os (Timer.new d tk)) as (Hd & Ht & _).
  fold x in Hd, Ht. simpl in Hd, Ht.
  pose proof (stop_JobsInvariant x HJ) as HJ1.
  pose proof (stop_Stopped x) as HS1.
  destruct (exec_frame Timer.Stop x) as (D1 & T1 & _). simpl in D1, T1.
  assert (E1 : snd (Timer.stop x) = stopEvents (Timer.state x)).
  { unfold Timer.stop, Timer.isStopped. destruct (Timer.state x); reflexivity. }
  unfold Timer.reset. destruct (Timer.stop x) as [x1 e1]. simpl in *. subst e1.
  unfold JobsInvariant in HJ1. rewrite HS1 in HJ1.
  destruct (start_Stopped now x1 HS1)
    as (x2 & -> & S2 & R2 & P2 & _ & _ & _ & TI & EX & J2).
  exists x2, (S (Timer.nextHandle x1)), (Timer.nextHandle x1).
  rewrite D1, Hd in *. rewrite T1, Ht, HJ1 in J2.
  split; [reflexivity|]. split; [exact S2|]. split; [exact R2|]. split; [exact P2|].
  split; [exact TI|]. split; [exact EX | exact J2].
Qed.

(** X8: from a stopped timer, [start()] followed at once by [stop()] leaves
    the timer Stopped with [remaining], [periodStartTime] and both handles
    null and no callback registered, having emitted start(0, duration),
    change, stop, change. *)
Theorem start_then_stop (d tk : Q) (os : list Timer.Op) (now : Z) :
  let x := fst (Timer.run os (Timer.new d tk)) in
  Timer.state x = Stopped ->
  exists x',
    Timer.run [Timer.Start now; Timer.Stop] x =
      (x', [mkEvent EvStart [Some 0%Q; Some d]; mkEvent EvChange [];
            mkEvent EvStop []; mkEvent EvChange []]) /\
    Timer.state x' = Stopped /\
    Timer.remaining x' = None /\
    Timer.periodStartTime x' = None /\
    Timer.tickInterval x' = None /\
    Timer.expireTimeout x' = None /\
    Timer.jobs x' = [].
Proof.
  intros x Hs.
  destruct (reachable_invariants d tk os) as [_ HJ]. fold x in HJ.
  destruct (run_frame os (Timer.new d tk)) as (Hd & _).
  fold x in Hd. simpl in Hd.
  pose proof (start_JobsInvariant now x HJ) as HJ1.
  destruct (start_Stopped now x Hs) as (x1 & E1 & S1 & _).
  rewrite E1 in HJ1. simpl in HJ1.
  pose proof (stop_JobsInvariant x1 HJ1) as HJ2.
  destruct (stop_not_Stopped x1) as (x2 & E2 & S2 & R2 & P2 & T2 & X2 & _);
    [congruence|].
  rewrite E2 in HJ2. simpl in HJ2. unfold JobsInvariant in HJ2. rewrite S2 in HJ2.
  exists x2. simpl. rewrite E1, E2, Hd. simpl.
  split; [reflexivity|]. split; [exact S2|]. split; [exact R2|]. split; [exact P2|].
  split; [exact T2|]. split; [exact X2 | exact HJ2].
Qed.

Lemma start_then_stop_witness :
  exists x',
    Timer.run [Timer.Start 5; Timer.Stop] (fst (Timer.run [] (Timer.new 1500 60))) =
      (x', [mkEvent EvStart [Some 0%Q; Some 1500%Q]; mkEvent EvChange [];
            mkEvent EvStop []; mkEvent EvChange []]) /\
    Timer.state x' = Stopped /\
    Timer.remaining x' = None /\
    Timer.periodStartTime x' = None /\
    Timer.tickInterval x' = None /\
    Timer.expireTimeout x' = None /\
    Timer.jobs x' = [].
Proof.
  apply (start_then_stop 1500 60 [] 5).
  reflexivity.
Defined.

End TimerCallbacks.

(** * Further behaviour of the generator *)

Section GeneratorBehaviour.

Lemma enter_inside z i :
  0 <= i < z -> enter (Some z) i = PomodoroTimer.AfterFocus i.
Proof.
  intro H. unfold enter, PomodoroTimer.forTest.
  replace (i <? z) with true by (symmetry; apply Z.ltb_lt; lia).
  rewrite Bool.orb_true_r. reflexivity.
Qed.

Lemma focus_control z j :
  Z.of_nat j < z ->
  Nat.iter (2 * j + 1) (advance (Some z)) PomodoroTimer.Entry =
  PomodoroTimer.AfterFocus (Z.of_nat j).
Proof.
  intro Hj. destruct j as [| j].
  - simpl. apply enter_inside. lia.
  - replace (2 * S j + 1)%nat with (S (2 * j + 2)) by lia.
    change (Nat.iter (S ?n) ?f ?x) with (f (Nat.iter n f x)).
    rewrite loop_control by lia. simpl.
    unfold PomodoroTimer.forStep, truthy.
    replace (z =? 0) with false by (symmetry; apply Z.eqb_neq; lia).
    simpl negb. cbv iota.
    rewrite enter_inside by lia. f_equal. lia.
Qed.

Lemma control_period z n :
  0 < z ->
  Nat.iter (S n + (2 * Z.to_nat z + 1)) (advance (Some z)) PomodoroTimer.Entry =
  Nat.iter (S n) (advance (Some z)) PomodoroTimer.Entry.
Proof.
  intro Hz. rewrite iter_plus, reach_LongBreak by exact Hz.
  rewrite !iter_shift. reflexivity.
Qed.

Lemma first_block z r :
  0 < z -> (r < 2 * Z.to_nat z + 1)%nat ->
  written (Some z) (Nat.iter (S r) (advance (Some z)) PomodoroTimer.Entry) = blockOf z r.
Proof.
  intros Hz Hr. unfold blockOf.
  destruct (Nat.eqb_spec r (2 * Z.to_nat z)) as [-> | Hne].
  - replace (S (2 * Z.to_nat z)) with (2 * Z.to_nat z + 1)%nat by lia.
    rewrite reach_LongBreak by exact Hz. reflexivity.
  - destruct (Nat.even r) eqn:Ev.
    + apply Nat.even_spec in Ev. destruct Ev as [j ->].
      replace (S (2 * j)) with (2 * j + 1)%nat by lia.
      rewrite focus_control by lia. reflexivity.
    + assert (Od : Nat.odd r = true) by (rewrite <- Nat.negb_even, Ev; reflexivity).
      apply Nat.odd_spec in Od. destruct Od as [j ->].
      replace (S (2 * j + 1)) with (2 * j + 2)%nat by lia.
      rewrite loop_control by lia. cbn [written].
      replace (z =? 0) with false by (symmetry; apply Z.eqb_neq; lia).
      cbn [negb andb].
      destruct (Nat.eqb_spec (2 * j + 1) (2 * Z.to_nat z - 1)) as [E | E].
      * replace (Z.of_nat j =? z - 1) with true by (symmetry; apply Z.eqb_eq; lia).
        reflexivity.
      * replace (Z.of_nat j =? z - 1) with false by (symmetry; apply Z.eqb_neq; lia).
        reflexivity.
Qed.

(** X9: for every positive [interval] the generated (phase, nextPhase) pairs
    repeat, for ever, a block of [2 * interval + 1] pairs: [interval] times
    (Focus, ShortBreak) then (ShortBreak, Focus), except that the last
    ShortBreak announces LongBreak, and then (LongBreak, Focus). *)
Theorem positive_interval_sequence (st : Settings) (z : Z) (n : nat) :
  longBreak_interval st = Some z -> 0 < z ->
  PomodoroTimer.generated st n = blockOf z (n mod (2 * Z.to_nat z + 1)).
Proof.
  intros Hi Hz. set (P := (2 * Z.to_nat z + 1)%nat).
  assert (G : forall q r, (r < P)%nat ->
                PomodoroTimer.generated st (r + P * q) = blockOf z r).
  { induction q as [| q IH]; intros r Hr.
    - rewrite Nat.mul_0_r, Nat.add_0_r, generated_control, Hi.
      apply first_block; assumption.
    - replace (r + P * S q)%nat with ((r + P * q) + P)%nat by lia.
      rewrite generated_control, Hi.
      change (S (r + P * q + P)) with (S (r + P * q) + P)%nat.
      unfold P at 2. rewrite control_period by exact Hz.
      rewrite <- (IH r Hr), generated_control, Hi. reflexivity. }
  rewrite (Nat.div_mod_eq n P) at 1. rewrite Nat.add_comm.
  apply G. apply Nat.mod_upper_bound. unfold P. lia.
Qed.

Lemma positive_interval_sequence_witness :
  PomodoroTimer.generated (sample (Some 4)) 17 = blockOf 4 (17 mod (2 * Z.to_nat 4 + 1)).
Proof.
  apply (positive_interval_sequence (sample (Some 4)) 4 17).
  - reflexivity.
  - lia.
Defined.

Lemma control_WithinLoop iv n :
  WithinLoop iv (Nat.iter n (advance iv) PomodoroTimer.Entry).
Proof.
  assert (E : forall i, (match iv with Some z => z = 0 \/ 0 <= i | None => True end) ->
                        WithinLoop iv (enter iv i)).
  { intros i Hi. unfold enter, PomodoroTimer.forTest, truthy.
    destruct iv as [z|]; simpl; [| exact I].
    destruct (z =? 0) eqn:Z0; simpl.
    - left. apply Z.eqb_eq. exact Z0.
    - destruct (i <? z) eqn:L; simpl; [| exact I].
      apply Z.ltb_lt in L. apply Z.eqb_neq in Z0. destruct Hi as [Hi | Hi]; [lia|].
      right. lia. }
  induction n as [| n IH]; [exact I|].
  change (Nat.iter (S n) ?f ?x) with (f (Nat.iter n f x)).
  destruct (Nat.iter n (advance iv) PomodoroTimer.Entry) as [| i | i |]; simpl.
  - apply E. destruct iv; [right; lia | exact I].
  - exact IH.
  - apply E. simpl in IH. unfold PomodoroTimer.forStep, truthy.
    destruct iv as [z|]; [| exact I].
    destruct IH as [-> | IH]; [left; reflexivity|].
    destruct (z =? 0); simpl; right; lia.
  - apply E. destruct iv; [right; lia | exact I].
Qed.

Lemma announced_is_next iv c :
  match iv with Some z => 0 <= z | None => True end ->
  WithinLoop iv c -> c <> PomodoroTimer.Entry ->
  snd (written iv c) = fst (written iv (advance iv c)).
Proof.
  intros Hd Hw Hc.
  assert (E0 : enter iv 0 = PomodoroTimer.AfterFocus 0).
  { unfold enter, PomodoroTimer.forTest, truthy. destruct iv as [z|]; [| reflexivity].
    destruct (z =? 0) eqn:Z0; [reflexivity|]. apply Z.eqb_neq in Z0.
    replace (0 <? z) with true by (symmetry; apply Z.ltb_lt; lia). reflexivity. }
  destruct c as [| i | i |]; simpl.
  - contradiction Hc; reflexivity.
  - reflexivity.
  - unfold enter, PomodoroTimer.forTest, PomodoroTimer.forStep, truthy.
    destruct iv as [z|]; [| reflexivity].
    simpl in Hw. destruct (z =? 0) eqn:Z0; [reflexivity|].
    apply Z.eqb_neq in Z0. destruct Hw as [Hw | Hw]; [contradiction|]. simpl.
    destruct (Z.eqb_spec i (z - 1)) as [-> | Hne].
    + replace (z - 1 + 1 <? z) with false by (symmetry; apply Z.ltb_ge; lia).
      reflexivity.
    + replace (i + 1 <? z) with true by (symmetry; apply Z.ltb_lt; lia).
      reflexivity.
  - rewrite E0. reflexivity.
Qed.

(** X10: whenever the interval is absent or not negative, the nextPhase the
    generator writes with a phase is the phase it generates next. *)
Theorem announced_phase_is_next (st : Settings) (n : nat) :
  intervalDefined st ->
  snd (PomodoroTimer.generated st n) = fst (PomodoroTimer.generated st (S n)).
Proof.
  intro Hd. rewrite !generated_control.
  change (Nat.iter (S (S n)) ?f ?x) with (f (Nat.iter (S n) f x)).
  apply announced_is_next.
  - exact Hd.
  - apply control_WithinLoop.
  - change (Nat.iter (S n) ?f ?x) with (f (Nat.iter n f x)).
    unfold advance, enter.
    destruct (Nat.iter n _ _); try destruct (PomodoroTimer.forTest _ _); discriminate.
Qed.

Lemma announced_phase_is_next_witness :
  snd (PomodoroTimer.generated (sample (Some 3)) 5) =
  fst (PomodoroTimer.generated (sample (Some 3)) 6).
Proof.
  apply (announced_phase_is_next (sample (Some 3)) 5).
  vm_compute. discriminate.
Defined.

(** X11: whenever the interval is absent or not negative, [hasLongBreak] is
    true exactly when the generator yields LongBreak at some point. *)
Theorem hasLongBreak_iff_generated (s : PomodoroTimer.t) :
  intervalDefined (PomodoroTimer.settings s) ->
  (PomodoroTimer.hasLongBreak s = true <->
   exists n, fst (PomodoroTimer.generated (PomodoroTimer.settings s) n) = Some LongBreak).
Proof.
  unfold intervalDefined, PomodoroTimer.hasLongBreak, positive.
  intro Hd. split.
  - intro H. destruct (longBreak_interval (PomodoroTimer.settings s)) as [z|] eqn:Hi;
      [| discriminate H].
    apply Z.ltb_lt in H. exists (2 * Z.to_nat z)%nat.
    rewrite generated_control, Hi.
    replace (S (2 * Z.to_nat z)) with (2 * Z.to_nat z + 1)%nat by lia.
    rewrite reach_LongBreak by exact H. reflexivity.
  - intros [n Hn].
    destruct (longBreak_interval (PomodoroTimer.settings s)) as [z|] eqn:Hi.
    + destruct (Z.ltb_spec 0 z) as [L | L]; [reflexivity|].
      assert (z = 0) as -> by lia.
      rewrite falsy_generated in Hn by (rewrite Hi; reflexivity).
      unfold alternation in Hn. destruct (Nat.even n); discriminate Hn.
    + rewrite falsy_generated in Hn by (rewrite Hi; reflexivity).
      unfold alternation in Hn. destruct (Nat.even n); discriminate Hn.
Qed.

Lemma hasLongBreak_iff_generated_witness :
  PomodoroTimer.hasLongBreak (PomodoroTimer.blank (sample (Some 4))) = true <->
  exists n, fst (PomodoroTimer.generated (sample (Some 4)) n) = Some LongBreak.
Proof.
  apply (hasLongBreak_iff_generated (PomodoroTimer.blank (sample (Some 4)))).
  vm_compute. discriminate.
Defined.

End GeneratorBehaviour.

(** * Further behaviour of [PomodoroTimer] *)

Section SequencerBehaviour.

Lemma stop_events x : snd (Timer.stop x) = stopEvents (Timer.state x).
Proof. unfold Timer.stop, Timer.isStopped. destruct (Timer.state x); reflexivity. Qed.

Lemma setTimer_events x' s :
  snd (PomodoroTimer.setTimer x' s) =
  match PomodoroTimer.timer s with
  | Some x =>
      if Timer.observed x
      then map (PomodoroTimer.handler s) (stopEvents (Timer.state x))
      else []
  | None => []
  end.
Proof.
  unfold PomodoroTimer.setTimer. simpl. destruct (PomodoroTimer.timer s) as [x|];
    [| reflexivity].
  pose proof (stop_events x) as H. destruct (Timer.stop x) as [x1 e1]. simpl in H.
  subst e1. reflexivity.
Qed.

(** X12: when [next()] replaces a timer that is Running or Paused, the
    sequencer emits timer:stop and timer:change for it, and both carry the
    phase and nextPhase of the timer that replaces it, not those the
    replaced timer ran under; a Stopped timer is replaced silently. *)
Theorem replaced_timer_stop_carries_new_phase (s : PomodoroTimer.t) (x : Timer.t) :
  PomodoroTimer.timer s = Some x ->
  Timer.observed x = true ->
  let s' := fst (PomodoroTimer.next s) in
  snd (PomodoroTimer.next s) =
    match Timer.state x with
    | Stopped => []
    | _ => [TimerEvent EvStop (PomodoroTimer.phase s') (PomodoroTimer.nextPhase s') [];
            TimerEvent EvChange (PomodoroTimer.phase s') (PomodoroTimer.nextPhase s') []]
    end.
Proof.
  intros Hx Ho.
  unfold PomodoroTimer.next, PomodoroTimer.forLoop, PomodoroTimer.focusStage,
    PomodoroTimer.shortBreakStage, PomodoroTimer.longBreakStage.
  destruct (PomodoroTimer.timerGenerator s); try destruct (PomodoroTimer.forTest _ _);
    rewrite (surjective_pairing (PomodoroTimer.setTimer _ _)); cbn [fst snd];
    rewrite setTimer_events; cbn [PomodoroTimer.timer PomodoroTimer.set_nextPhase
                                    PomodoroTimer.set__phase];
    rewrite Hx, Ho; destruct (Timer.state x); reflexivity.
Qed.

Lemma replaced_timer_stop_carries_new_phase_witness :
  let s := afterStart 0 (afterSetPhase 2 Focus (PomodoroTimer.blank (sample (Some 4)))) in
  snd (PomodoroTimer.next s) =
    [TimerEvent EvStop (Some ShortBreak) (Some Focus) [];
     TimerEvent EvChange (Some ShortBreak) (Some Focus) []].
Proof.
  intro s.
  apply (replaced_timer_stop_carries_new_phase s
           (fst (Timer.start 0 (installed (sample (Some 4)) Focus)))).
  - vm_compute. reflexivity.
  - reflexivity.
Defined.

(** The first [next()] of a restarted generator. *)
Lemma first_next s :
  intervalDefined (PomodoroTimer.settings s) ->
  PomodoroTimer.timerGenerator s = PomodoroTimer.Entry ->
  PomodoroTimer.next s =
    (PomodoroTimer.mk (PomodoroTimer.settings s) (Some Focus) (Some ShortBreak)
       (Some (installed (PomodoroTimer.settings s) Focus)) (PomodoroTimer.AfterFocus 0)
       (PomodoroTimer.startOfCycle s) (PomodoroTimer.observed s),
     replaced s).
Proof.
  intros Hd Hc. unfold PomodoroTimer.next, PomodoroTimer.forLoop. rewrite Hc.
  assert (T : PomodoroTimer.forTest (longBreak_interval (PomodoroTimer.settings s)) 0 = true).
  { unfold intervalDefined in Hd. unfold PomodoroTimer.forTest, truthy.
    destruct (longBreak_interval (PomodoroTimer.settings s)) as [z|]; [| reflexivity].
    destruct (z =? 0) eqn:Z0; [reflexivity|]. apply Z.eqb_neq in Z0.
    replace (0 <? z) with true by (symmetry; apply Z.ltb_lt; lia). reflexivity. }
  rewrite T. unfold PomodoroTimer.focusStage.
  rewrite (surjective_pairing (PomodoroTimer.setTimer _ _)).
  rewrite setTimer_events. unfold replaced.
  cbn [PomodoroTimer.timer PomodoroTimer.set_nextPhase PomodoroTimer.set__phase].
  reflexivity.
Qed.

Lemma written_LongBreak iv c :
  fst (written iv c) = Some LongBreak -> c = PomodoroTimer.AfterLongBreak.
Proof. destruct c; simpl; intro H; try discriminate H; reflexivity. Qed.

(** The setter, whenever it accepts the phase and the interval is absent
    or not negative. *)
Lemma setPhase_selected fuel p s :
  intervalDefined (PomodoroTimer.settings s) ->
  (p = LongBreak -> positive (longBreak_interval (PomodoroTimer.settings s)) = true) ->
  (enoughFuel (PomodoroTimer.settings s) <= fuel)%nat ->
  PomodoroTimer.setPhase fuel p s =
    Returns (selected (PomodoroTimer.settings s) p (PomodoroTimer.observed s))
            (replaced s ++ [CycleReset p]).
Proof.
  intros Hd Hl Hf. unfold PomodoroTimer.setPhase.
  destruct (negb (PomodoroTimer.hasLongBreak s) && Phase_eqb p LongBreak) eqn:G.
  { apply setPhase_guard in G. destruct G as [G1 G2]. rewrite (Hl G1) in G2. discriminate G2. }
  set (st := PomodoroTimer.settings s) in *.
  set (s0 := PomodoroTimer.set__phase None
               (PomodoroTimer.set_timerGenerator PomodoroTimer.Entry s)).
  assert (F2 : (2 <= fuel)%nat).
  { unfold enoughFuel in Hf. destruct (longBreak_interval st); lia. }
  destruct fuel as [| fuel]; [lia|].
  cbn [PomodoroTimer.fastForward]. change (PomodoroTimer.phase s0) with (@None Phase).
  cbn [phase_neq]. rewrite (first_next s0 Hd eq_refl).
  change (replaced s0) with (replaced s).
  change (PomodoroTimer.settings s0) with st.
  change (PomodoroTimer.startOfCycle s0) with (PomodoroTimer.startOfCycle s).
  change (PomodoroTimer.observed s0) with (PomodoroTimer.observed s).
  set (s1 := PomodoroTimer.mk st (Some Focus) (Some ShortBreak)
               (Some (installed st Focus)) (PomodoroTimer.AfterFocus 0)
               (PomodoroTimer.startOfCycle s) (PomodoroTimer.observed s)).
  destruct p.
  - (* Focus: the first yield *)
    destruct fuel; cbn [PomodoroTimer.fastForward];
      change (PomodoroTimer.phase s1) with (Some Focus);
      cbn [phase_neq Phase_eqb negb]; rewrite app_nil_r; reflexivity.
  - (* ShortBreak: the second yield *)
    destruct fuel as [| fuel]; [lia|].
    cbn [PomodoroTimer.fastForward]. change (PomodoroTimer.phase s1) with (Some Focus).
    cbn [phase_neq Phase_eqb negb].
    assert (N : PomodoroTimer.next s1 =
                (PomodoroTimer.mk st (Some ShortBreak)
                   (snd (written (longBreak_interval st) (PomodoroTimer.AfterShortBreak 0)))
                   (Some (installed st ShortBreak)) (PomodoroTimer.AfterShortBreak 0)
                   (PomodoroTimer.startOfCycle s) (PomodoroTimer.observed s), [])).
    { reflexivity. }
    rewrite N.
    destruct fuel; cbn [PomodoroTimer.fastForward PomodoroTimer.phase PomodoroTimer._phase];
      cbn [phase_neq Phase_eqb negb]; rewrite !app_nil_r; reflexivity.
  - (* LongBreak: by the loop *)
    specialize (Hl eq_refl).
    destruct (longBreak_interval st) as [z|] eqn:Hi; [| discriminate Hl].
    simpl in Hl. apply Z.ltb_lt in Hl.
    assert (Q1 : Quiet s1) by reflexivity.
    assert (F1 : Fresh s1).
    { split.
      - split; [reflexivity|]. exists Focus. eexists. split; reflexivity.
      - exists Focus. split; reflexivity. }
    destruct (fastForward_reaches LongBreak (2 * Z.to_nat z) fuel s1)
      as (s' & e & He).
    + unfold enoughFuel in Hf. rewrite Hi in Hf. lia.
    + change (PomodoroTimer.settings s1) with st. rewrite Hi.
      change (PomodoroTimer.timerGenerator s1) with (PomodoroTimer.AfterFocus 0).
      rewrite <- (reach_Focus (Some z)) by lia.
      rewrite <- iter_plus.
      rewrite reach_LongBreak by exact Hl. reflexivity.
    + intro K. lia.
    + rewrite He.
      rewrite (fastForward_quiet _ _ _ _ _ Q1 He).
      destruct (fastForward_returns _ _ _ _ _ (or_intror F1) He)
        as (K1 & ((K2 & _) & q & K3 & K4) & K5 & K6 & K7).
      assert (q = LongBreak) as -> by congruence.
      change (PomodoroTimer.settings s1) with st in *.
      rewrite K5 in K2, K4. rewrite Hi in K2.
      assert (C : PomodoroTimer.timerGenerator s' = PomodoroTimer.AfterLongBreak).
      { apply (written_LongBreak (Some z)). rewrite <- K2. exact K1. }
      rewrite C in K2. simpl in K2.
      destruct s' as [st' ph np tm cur fl ob]. simpl in *.
      injection K2 as _ K2. subst.
      unfold selected. rewrite Hi. rewrite app_nil_r. reflexivity.
Qed.

(** X13: the setter leaves a sequencer that depends on the settings and the
    selected phase only (and keeps the listeners registered on the
    sequencer): the phase, the nextPhase of its first occurrence in the
    cycle, an untouched timer of the phase's duration, the generator
    suspended at that occurrence and the start-of-cycle flag set.  It emits
    the stop of the timer it replaces, if that one was not Stopped, and then
    cycle:reset with the phase, last. *)
Theorem setPhase_selects (fuel : nat) (p : Phase) (s : PomodoroTimer.t) :
  intervalDefined (PomodoroTimer.settings s) ->
  (p = LongBreak -> positive (longBreak_interval (PomodoroTimer.settings s)) = true) ->
  (enoughFuel (PomodoroTimer.settings s) <= fuel)%nat ->
  PomodoroTimer.setPhase fuel p s =
    Returns (selected (PomodoroTimer.settings s) p (PomodoroTimer.observed s))
            (replaced s ++ [CycleReset p]).
Proof. apply setPhase_selected. Qed.

Lemma setPhase_selects_witness :
  let s := afterStart 0 (afterSetPhase 2 Focus (PomodoroTimer.blank (sample (Some 4)))) in
  PomodoroTimer.setPhase 10 LongBreak s =
    Returns (selected (sample (Some 4)) LongBreak false)
            ([TimerEvent EvStop (Some Focus) (Some ShortBreak) [];
              TimerEvent EvChange (Some Focus) (Some ShortBreak) []]
             ++ [CycleReset LongBreak]).
Proof.
  intro s.
  apply (setPhase_selects 10 LongBreak s).
  - vm_compute. discriminate.
  - intros _. reflexivity.
  - vm_compute. lia.
Defined.

End SequencerBehaviour.

Section SequencerMethods.

Lemma relay_set_timer s x0 x es :
  PomodoroTimer.relay (PomodoroTimer.set_timer x0 s) x es = PomodoroTimer.relay s x es.
Proof. reflexivity. Qed.

Lemma relay_app s x es1 es2 :
  PomodoroTimer.relay s x (es1 ++ es2) =
  PomodoroTimer.relay s x es1 ++ PomodoroTimer.relay s x es2.
Proof.
  unfold PomodoroTimer.relay. destruct (Timer.observed x); [apply map_app | reflexivity].
Qed.

Lemma relay_observed s x x' es :
  Timer.observed x' = Timer.observed x ->
  PomodoroTimer.relay s x' es = PomodoroTimer.relay s x es.
Proof. intro H. unfold PomodoroTimer.relay. rewrite H. reflexivity. Qed.

Lemma exec_timer_op fuel o s x :
  PomodoroTimer.keepsPhase o = true ->
  PomodoroTimer.timer s = Some x ->
  PomodoroTimer.exec fuel o s =
    Returns (PomodoroTimer.set_timer (Some (fst (Timer.exec (timerOp o) x))) s)
            (PomodoroTimer.relay s x (snd (Timer.exec (timerOp o) x))).
Proof.
  intros Hk Hx.
  destruct o; try discriminate Hk; simpl;
    unfold PomodoroTimer.pause, PomodoroTimer.stop, PomodoroTimer.resume,
      PomodoroTimer.reset, PomodoroTimer.fire, PomodoroTimer.onTimer;
    rewrite Hx;
    match goal with |- context [let (_, _) := ?t in _] => destruct t as [x' es] end;
    reflexivity.
Qed.

Lemma run_timer_ops fuel os :
  forall s x,
    forallb PomodoroTimer.keepsPhase os = true ->
    PomodoroTimer.timer s = Some x ->
    PomodoroTimer.run fuel os s =
      Returns (PomodoroTimer.set_timer (Some (fst (Timer.run (map timerOp os) x))) s)
              (PomodoroTimer.relay s x (snd (Timer.run (map timerOp os) x))).
Proof.
  induction os as [| o os IH]; intros s x Hk Hx.
  - simpl. rewrite <- Hx. destruct s; unfold PomodoroTimer.relay;
      destruct (Timer.observed x); reflexivity.
  - simpl in Hk. apply Bool.andb_true_iff in Hk. destruct Hk as [Ho Hos].
    cbn [PomodoroTimer.run map Timer.run].
    rewrite (exec_timer_op fuel o s x Ho Hx).
    destruct (exec_frame (timerOp o) x) as (_ & _ & Hob).
    destruct (Timer.exec (timerOp o) x) as [x1 e1]. cbn [fst snd] in *.
    rewrite (IH (PomodoroTimer.set_timer (Some x1) s) x1 Hos eq_refl).
    destruct (Timer.run (map timerOp os) x1) as [x2 e2]. cbn [fst snd].
    rewrite relay_app, relay_set_timer, (relay_observed s x x1 e2 Hob). reflexivity.
Qed.

(** X14: [pause], [stop], [resume], [reset] and the timer's callbacks reach
    the owned timer and nothing else: any history of them leaves the phase,
    nextPhase, generator, start-of-cycle flag, settings and listeners of the
    sequencer as they were, acts on the owned timer as the same history of
    the timer's own methods, and emits that history's notifications, each
    under the 'timer:' name with the sequencer's phase and nextPhase in
    front. *)
Theorem timer_methods_delegate
    (fuel : nat) (os : list PomodoroTimer.Op) (s : PomodoroTimer.t) (x : Timer.t) :
  forallb PomodoroTimer.keepsPhase os = true ->
  PomodoroTimer.timer s = Some x ->
  Timer.observed x = true ->
  PomodoroTimer.run fuel os s =
    Returns
      (PomodoroTimer.mk (PomodoroTimer.settings s) (PomodoroTimer.phase s)
         (PomodoroTimer.nextPhase s) (Some (fst (Timer.run (map timerOp os) x)))
         (PomodoroTimer.timerGenerator s) (PomodoroTimer.startOfCycle s)
         (PomodoroTimer.observed s))
      (map (fun e => TimerEvent (name e) (PomodoroTimer.phase s)
                       (PomodoroTimer.nextPhase s) (args e))
           (snd (Timer.run (map timerOp os) x))).
Proof.
  intros Hk Hx Ho. rewrite (run_timer_ops fuel os s x Hk Hx).
  unfold PomodoroTimer.relay. rewrite Ho. reflexivity.
Qed.

Lemma timer_methods_delegate_witness :
  let s := afterStart 0 (afterSetPhase 2 Focus (PomodoroTimer.blank (sample (Some 4)))) in
  let x := fst (Timer.start 0 (installed (sample (Some 4)) Focus)) in
  let os := [PomodoroTimer.Pause 90000; PomodoroTimer.Resume 100000] in
  PomodoroTimer.run 0 os s =
    Returns
      (PomodoroTimer.mk (PomodoroTimer.settings s) (PomodoroTimer.phase s)
         (PomodoroTimer.nextPhase s) (Some (fst (Timer.run (map timerOp os) x)))
         (PomodoroTimer.timerGenerator s) (PomodoroTimer.startOfCycle s)
         (PomodoroTimer.observed s))
      (map (fun e => TimerEvent (name e) (PomodoroTimer.phase s)
                       (PomodoroTimer.nextPhase s) (args e))
           (snd (Timer.run (map timerOp os) x))).
Proof.
  intros s x os.
  apply (timer_methods_delegate 0 os s x).
  - reflexivity.
  - vm_compute. reflexivity.
  - reflexivity.
Defined.

(** X15: [dispose()] stops the owned timer and detaches it: the timer is
    Stopped, nothing of it stays registered with the host, and from then on
    no call of pause, stop, resume or reset and no callback makes the
    sequencer emit anything. *)
Theorem dispose_silences (s : PomodoroTimer.t) (x : Timer.t) :
  PomodoroTimer.timer s = Some x ->
  JobsInvariant x ->
  exists x',
    PomodoroTimer.dispose s =
      Returns (PomodoroTimer.set_timer (Some x') s)
              (PomodoroTimer.relay s x (stopEvents (Timer.state x))) /\
    Timer.state x' = Stopped /\
    Timer.jobs x' = [] /\
    Timer.observed x' = false /\
    forall fuel os,
      forallb PomodoroTimer.keepsPhase os = true ->
      exists s', PomodoroTimer.run fuel os (PomodoroTimer.set_timer (Some x') s)
                 = Returns s' [].
Proof.
  intros Hx HJ.
  exists (Timer.removeAllListeners (fst (Timer.stop x))).
  pose proof (stop_JobsInvariant x HJ) as HJ1.
  pose proof (stop_Stopped x) as HS1.
  unfold JobsInvariant in HJ1. rewrite HS1 in HJ1.
  split.
  - unfold PomodoroTimer.dispose, PomodoroTimer.onTimer. rewrite Hx.
    rewrite <- stop_events. destruct (Timer.stop x) as [x1 e1]. reflexivity.
  - split; [exact HS1|]. split; [exact HJ1|]. split; [reflexivity|].
    intros fuel os Hk. eexists.
    rewrite (run_timer_ops fuel os
               (PomodoroTimer.set_timer
                  (Some (Timer.removeAllListeners (fst (Timer.stop x)))) s)
               (Timer.removeAllListeners (fst (Timer.stop x))) Hk eq_refl).
    unfold PomodoroTimer.relay. cbn [Timer.observed Timer.removeAllListeners Timer.set_observed].
    reflexivity.
Qed.

Lemma dispose_silences_witness :
  let s := afterStart 0 (afterSetPhase 2 Focus (PomodoroTimer.blank (sample (Some 4)))) in
  let x := fst (Timer.start 0 (installed (sample (Some 4)) Focus)) in
  exists x',
    PomodoroTimer.dispose s =
      Returns (PomodoroTimer.set_timer (Some x') s)
              (PomodoroTimer.relay s x (stopEvents (Timer.state x))) /\
    Timer.state x' = Stopped /\
    Timer.jobs x' = [] /\
    Timer.observed x' = false /\
    forall fuel os,
      forallb PomodoroTimer.keepsPhase os = true ->
      exists s', PomodoroTimer.run fuel os (PomodoroTimer.set_timer (Some x') s)
                 = Returns s' [].
Proof.
  intros s x.
  apply (dispose_silences s x).
  - vm_compute. reflexivity.
  - vm_compute. exists 1%nat, 0%nat. do 2 eexists.
    split; [reflexivity|]. split; [reflexivity|]. split; [discriminate | reflexivity].
Defined.

(** The four start methods, whenever the setter accepts the phase. *)
Lemma startPhase_started fuel p now s :
  intervalDefined (PomodoroTimer.settings s) ->
  (p = LongBreak -> positive (longBreak_interval (PomodoroTimer.settings s)) = true) ->
  (enoughFuel (PomodoroTimer.settings s) <= fuel)%nat ->
  let st := PomodoroTimer.settings s in
  let d := PomodoroTimer.seconds (minutes st p) in
  let np := snd (written (longBreak_interval st) (firstYield p)) in
  exists x',
    PomodoroTimer.startPhase fuel p now s =
      Returns (PomodoroTimer.mk st (Some p) np (Some x') (firstYield p) false
                 (PomodoroTimer.observed s))
              (replaced s ++
               [CycleReset p;
                TimerEvent EvStart (Some p) np [Some 0%Q; Some d];
                TimerEvent EvChange (Some p) np []]) /\
    Timer.state x' = Running /\
    Timer.duration x' = d /\
    Timer.tick x' = 60%Q /\
    Timer.remaining x' = Some d /\
    Timer.periodStartTime x' = Some now.
Proof.
  intros Hd Hl Hf st d np. unfold PomodoroTimer.startPhase.
  rewrite (setPhase_selected fuel p s Hd Hl Hf). fold st.
  set (s1 := selected st p (PomodoroTimer.observed s)).
  rewrite (start_at_cycle_start now s1 (installed st p) eq_refl eq_refl).
  destruct (start_Stopped now (installed st p) eq_refl)
    as (x1 & Hst & H1 & H2 & H3 & H4 & H5 & _).
  rewrite Hst. cbn [fst snd].
  exists x1. split.
  - unfold PomodoroTimer.relay.
    change (Timer.observed (installed st p)) with true. cbv iota.
    rewrite <- app_assoc. reflexivity.
  - split; [exact H1|]. split; [exact H4|]. split; [exact H5|].
    split; [exact H2 | exact H3].
Qed.

(** X16: [startCycle], [startFocus], [startShortBreak] and, with a long
    break configured, [startLongBreak] select the phase and start it: the
    sequencer shows the phase with the start-of-cycle flag cleared and owns
    a Running timer, tick 60, whose duration is Math.floor of the
    double-precision product minutes * 60, which is floor(minutes * 60) for
    whole minutes; it emits the stop of the timer it replaced (if that one
    was not Stopped), cycle:reset and then
    timer:start(phase, nextPhase, 0, duration) and timer:change. *)
Theorem start_methods_select_and_start
    (fuel : nat) (now : Z) (s : PomodoroTimer.t) (p : Phase) :
  intervalDefined (PomodoroTimer.settings s) ->
  (p = LongBreak -> positive (longBreak_interval (PomodoroTimer.settings s)) = true) ->
  (enoughFuel (PomodoroTimer.settings s) <= fuel)%nat ->
  let st := PomodoroTimer.settings s in
  let m := minutes st p in
  let d := inject_Z (Qfloor (round64 (round64 m * 60))) in
  let np := snd (written (longBreak_interval st) (firstYield p)) in
  let run :=
    match p with
    | Focus => PomodoroTimer.startCycle fuel now s
    | ShortBreak => PomodoroTimer.startShortBreak fuel now s
    | LongBreak => PomodoroTimer.startLongBreak fuel now s
    end in
  PomodoroTimer.startFocus fuel now s = PomodoroTimer.startCycle fuel now s /\
  (WholeMinutes m -> d = inject_Z (Qfloor (m * 60))) /\
  exists x',
    run =
      Returns (PomodoroTimer.mk st (Some p) np (Some x') (firstYield p) false
                 (PomodoroTimer.observed s))
              (replaced s ++
               [CycleReset p;
                TimerEvent EvStart (Some p) np [Some 0%Q; Some d];
                TimerEvent EvChange (Some p) np []]) /\
    Timer.state x' = Running /\
    Timer.duration x' = d /\
    Timer.tick x' = 60%Q /\
    Timer.remaining x' = Some d /\
    Timer.periodStartTime x' = Some now.
Proof.
  intros Hd Hl Hf st m d np run. split; [reflexivity|].
  split; [apply seconds_whole|].
  destruct (startPhase_started fuel p now s Hd Hl Hf) as (x' & H).
  exists x'. destruct p; exact H.
Qed.

Lemma start_methods_select_and_start_witness :
  let s := PomodoroTimer.blank (sample (Some 4)) in
  PomodoroTimer.startFocus 10 7 s = PomodoroTimer.startCycle 10 7 s /\
  (WholeMinutes 5 -> 300%Q = inject_Z (Qfloor (5 * 60))) /\
  exists x',
    PomodoroTimer.startShortBreak 10 7 s =
      Returns (PomodoroTimer.mk (sample (Some 4)) (Some ShortBreak) (Some Focus) (Some x')
                 (PomodoroTimer.AfterShortBreak 0) false false)
              (replaced s ++
               [CycleReset ShortBreak;
                TimerEvent EvStart (Some ShortBreak) (Some Focus)
                  [Some 0%Q; Some 300%Q];
                TimerEvent EvChange (Some ShortBreak) (Some Focus) []]) /\
    Timer.state x' = Running /\
    Timer.duration x' = 300%Q /\
    Timer.tick x' = 60%Q /\
    Timer.remaining x' = Some 300%Q /\
    Timer.periodStartTime x' = Some 7.
Proof.
  intro s.
  apply (start_methods_select_and_start 10 7 s ShortBreak).
  - vm_compute. discriminate.
  - discriminate.
  - vm_compute. lia.
Defined.

(** X17: without a long break configured (interval absent or not greater
    than 0), [startLongBreak()] throws InvalidConfiguration before anything
    is changed: the sequencer and the timer it owns, running or not, are as
    they were, and nothing is emitted. *)
Theorem startLongBreak_rejected (fuel : nat) (now : Z) (s : PomodoroTimer.t) :
  PomodoroTimer.hasLongBreak s = false ->
  PomodoroTimer.startLongBreak fuel now s = Throws InvalidConfiguration s [].
Proof.
  intro H. unfold PomodoroTimer.startLongBreak, PomodoroTimer.startPhase.
  rewrite (setPhase_throw fuel LongBreak s eq_refl H). reflexivity.
Qed.

Lemma startLongBreak_rejected_witness :
  let s := afterStart 0 (afterSetPhase 2 Focus (PomodoroTimer.blank (sample None))) in
  PomodoroTimer.startLongBreak 2 5 s = Throws InvalidConfiguration s [].
Proof.
  intro s. apply (startLongBreak_rejected 2 5 s). reflexivity.
Defined.

End SequencerMethods.

Section SequencerHistories.

Lemma installed_sound st p :
  StateInvariant (installed st p) /\ JobsInvariant (installed st p).
Proof. split; [split; simpl; split; congruence | reflexivity]. Qed.

Lemma start_Sound now s :
  Sound s ->
  exists s' es, PomodoroTimer.start now s = Returns s' es /\ Sound s'.
Proof.
  intros (x & Hx & H1 & H2). destruct (PomodoroTimer.startOfCycle s) eqn:Hf.
  - rewrite (start_at_cycle_start now s x Hf Hx). do 2 eexists. split; [reflexivity|].
    exists (fst (Timer.start now x)). split; [reflexivity|]. split.
    + apply (exec_StateInvariant (Timer.Start now) x H1).
    + apply (start_JobsInvariant now x H2).
  - destruct (start_advances now s Hf) as (s1 & p & _ & _ & _ & ->).
    do 2 eexists. split; [reflexivity|].
    destruct (installed_sound (PomodoroTimer.settings s) p) as [I1 I2].
    eexists. split; [reflexivity|]. split.
    + apply (exec_StateInvariant (Timer.Start now) _ I1).
    + apply (start_JobsInvariant now _ I2).
Qed.

Lemma setPhase_Sound fuel p s s' es :
  Sound s ->
  PomodoroTimer.setPhase fuel p s = Returns s' es \/
  (exists err, PomodoroTimer.setPhase fuel p s = Throws err s' es) ->
  Sound s'.
Proof.
  intros Hs [H | [err H]].
  - destruct (setPhase_result _ _ _ _ _ H) as (_ & _ & (_ & q & _ & K) & _).
    eexists. split; [exact K|]. apply installed_sound.
  - unfold PomodoroTimer.setPhase in H.
    destruct (negb (PomodoroTimer.hasLongBreak s) && Phase_eqb p LongBreak).
    + injection H as _ <- _. exact Hs.
    + exfalso.
      pose proof (fastForward_no_throw fuel p
                    (PomodoroTimer.set__phase None
                       (PomodoroTimer.set_timerGenerator PomodoroTimer.Entry s))) as K.
      destruct (PomodoroTimer.fastForward _ _ _) as [s2 e2 | err2 s2 e2 |];
        try discriminate H.
      eapply K. reflexivity.
Qed.

Lemma startPhase_Sound fuel p now s s' es :
  Sound s ->
  PomodoroTimer.startPhase fuel p now s = Returns s' es \/
  (exists err, PomodoroTimer.startPhase fuel p now s = Throws err s' es) ->
  Sound s'.
Proof.
  intros Hs H. unfold PomodoroTimer.startPhase in H.
  destruct (PomodoroTimer.setPhase fuel p s) as [s1 e1 | err1 s1 e1 |] eqn:E.
  - assert (S1 : Sound s1) by (apply (setPhase_Sound fuel p s s1 e1 Hs); left; exact E).
    destruct (start_Sound now s1 S1) as (s2 & e2 & E2 & S2). rewrite E2 in H.
    destruct H as [H | [err H]]; [| discriminate H].
    injection H as <- _. exact S2.
  - destruct H as [H | [err H]]; [discriminate H|].
    injection H as _ <- _.
    apply (setPhase_Sound fuel p s s1 e1 Hs). right. exists err1. exact E.
  - destruct H as [H | [err H]]; discriminate H.
Qed.

Lemma exec_Sound fuel o s s' es :
  Sound s ->
  PomodoroTimer.exec fuel o s = Returns s' es \/
  (exists err, PomodoroTimer.exec fuel o s = Throws err s' es) ->
  Sound s'.
Proof.
  intros Hs H.
  destruct o as [now | now | | now | now | p | now | now | now | now | h now | h];
    try (destruct Hs as (x & Hx & H1 & H2);
         match type of H with
         | context [PomodoroTimer.exec fuel ?o s] =>
             pose proof (exec_StateInvariant (timerOp o) x H1) as I1;
             pose proof (exec_JobsInvariant (timerOp o) x H2) as I2;
             rewrite (exec_timer_op fuel o s x eq_refl Hx) in H
         end;
         destruct H as [H | [err H]]; [| discriminate H];
         injection H as <- _;
         eexists; split; [reflexivity|]; split; [exact I1 | exact I2]).
  - simpl in H. destruct (start_Sound now s Hs) as (s2 & e2 & E2 & S2).
    rewrite E2 in H. destruct H as [H | [err H]]; [| discriminate H].
    injection H as <- _. exact S2.
  - apply (setPhase_Sound fuel p s s' es Hs H).
  - apply (startPhase_Sound fuel Focus now s s' es Hs H).
  - apply (startPhase_Sound fuel Focus now s s' es Hs H).
  - apply (startPhase_Sound fuel ShortBreak now s s' es Hs H).
  - apply (startPhase_Sound fuel LongBreak now s s' es Hs H).
Qed.

Lemma run_Sound st fuel os :
  intervalDefined st -> (enoughFuel st <= fuel)%nat ->
  forall s, Sound s -> PomodoroTimer.settings s = st ->
    exists s' es,
      PomodoroTimer.run fuel os s = Returns s' es /\
      Sound s' /\ PomodoroTimer.settings s' = st.
Proof.
  intros Hd Hf. induction os as [| o os IH]; intros s Hs Hst; simpl.
  - exists s, []. split; [reflexivity|]. split; assumption.
  - destruct Hs as (x & Hx & H1 & H2).
    assert (Hs : Sound s) by (exists x; split; [exact Hx|]; split; assumption).
    rewrite <- Hst in Hd, Hf.
    destruct (exec_total fuel o s x Hd Hf Hx) as (s1 & e1 & x1 & Hout & _ & K2 & _).
    pose proof (exec_Sound fuel o s s1 e1 Hs Hout) as S1.
    rewrite Hst in K2.
    destruct (IH s1 S1 K2) as (s2 & e2 & E2 & S2 & K3).
    destruct Hout as [E | [err E]]; rewrite E, E2;
      do 2 eexists; (split; [reflexivity|]); split; assumption.
Qed.

(** X18: over any history of calls and callback firings on a sequencer
    whose interval is absent or not negative, the sequencer owns a timer
    whose fields keep the timer's state invariant and whose registered
    callbacks are the tick and the expiry of a Running timer or none;
    [stop()] on that timer leaves it no callback registered. *)
Theorem owned_timer_stays_consistent
    (fuel : nat) (st : Settings) (p : Phase) (listeners : bool)
    (os : list PomodoroTimer.Op) :
  intervalDefined st ->
  (enoughFuel st <= fuel)%nat ->
  exists s' es x,
    PomodoroTimer.run fuel os (selected st p listeners) = Returns s' es /\
    PomodoroTimer.timer s' = Some x /\
    StateInvariant x /\
    JobsInvariant x /\
    Timer.jobs (fst (Timer.stop x)) = [].
Proof.
  intros Hd Hf.
  destruct (run_Sound st fuel os Hd Hf (selected st p listeners))
    as (s' & es & E & (x & Hx & H1 & H2) & _).
  - exists (installed st p). split; [reflexivity|]. apply installed_sound.
  - reflexivity.
  - exists s', es, x. split; [exact E|]. split; [exact Hx|].
    split; [exact H1|]. split; [exact H2|].
    pose proof (stop_JobsInvariant x H2) as K. unfold JobsInvariant in K.
    rewrite stop_Stopped in K. exact K.
Qed.

Lemma owned_timer_stays_consistent_witness :
  exists s' es x,
    PomodoroTimer.run 10
      [PomodoroTimer.Start 0; PomodoroTimer.Pause 5; PomodoroTimer.Start 9]
      (selected (sample (Some 4)) Focus false) = Returns s' es /\
    PomodoroTimer.timer s' = Some x /\
    StateInvariant x /\
    JobsInvariant x /\
    Timer.jobs (fst (Timer.stop x)) = [].
Proof.
  apply (owned_timer_stays_consistent 10 (sample (Some 4)) Focus false).
  - vm_compute. discriminate.
  - vm_compute. lia.
Defined.

Lemma start_Started st now k s :
  Started st k s ->
  exists s' es, PomodoroTimer.start now s = Returns s' es /\ Started st (S k) s'.
Proof.
  intros (Hst & Hf & Hc & _ & _).
  destruct (start_advances now s Hf) as (s1 & p & Hs1 & Hp & Ht & ->).
  destruct (next_effect s) as (H1 & H2 & _ & H4 & H5 & _). rewrite <- Hs1 in *.
  rewrite Hst in *.
  destruct (onTimer_start_installed now s1 st p Ht) as (_ & K1 & K2 & _ & K4 & _).
  do 2 eexists. split; [reflexivity|].
  split; [exact H1|]. split; [rewrite <- Hf; exact H2|]. split.
  - cbn [PomodoroTimer.timerGenerator PomodoroTimer.set_timer]. rewrite H4, Hc. reflexivity.
  - split.
    + change (PomodoroTimer.phase (PomodoroTimer.set_timer ?a s1)) with (PomodoroTimer.phase s1).
      change (PomodoroTimer.nextPhase (PomodoroTimer.set_timer ?a s1))
        with (PomodoroTimer.nextPhase s1).
      rewrite H5, H4, Hc, generated_control. reflexivity.
    + exists p. eexists. split; [exact Hp|]. split; [reflexivity|].
      split; [exact K1|]. split; [exact K2 | exact K4].
Qed.

Lemma first_start_Started st now listeners :
  intervalDefined st ->
  exists s' es,
    PomodoroTimer.start now (selected st Focus listeners) = Returns s' es /\
    Started st 0 s'.
Proof.
  intro Hd.
  rewrite (start_at_cycle_start now (selected st Focus listeners)
             (installed st Focus) eq_refl eq_refl).
  destruct (onTimer_start_installed now (selected st Focus listeners) st Focus eq_refl)
    as (_ & K1 & K2 & _ & K4 & _).
  do 2 eexists. split; [reflexivity|].
  split; [reflexivity|]. split; [reflexivity|]. split.
  - cbn. rewrite <- (reach_Focus (longBreak_interval st) Hd). reflexivity.
  - split.
    + rewrite generated_control, (reach_Focus (longBreak_interval st) Hd). reflexivity.
    + exists Focus. eexists. split; [reflexivity|]. split; [reflexivity|].
      split; [exact K1|]. split; [exact K2 | exact K4].
Qed.

Lemma starts_Started st fuel nows :
  forall k s, Started st k s ->
    exists s' es,
      PomodoroTimer.run fuel (map PomodoroTimer.Start nows) s = Returns s' es /\
      Started st (k + length nows) s'.
Proof.
  induction nows as [| now nows IH]; intros k s Hs; simpl.
  - exists s, []. split; [reflexivity|]. rewrite Nat.add_0_r. exact Hs.
  - destruct (start_Started st now k s Hs) as (s1 & e1 & -> & S1).
    destruct (IH (S k) s1 S1) as (s2 & e2 & -> & S2).
    do 2 eexists. split; [reflexivity|].
    replace (k + S (length nows))%nat with (S k + length nows)%nat by lia. exact S2.
Qed.

(** X19: repeated [start()] walks the generated sequence.  On a sequencer
    at which Focus has just been selected, with the interval absent or not
    negative, the first [start()] starts Focus and each further one moves to
    the next generated phase: after [n + 1] calls the sequencer shows the
    [n]-th generated (phase, nextPhase) pair and owns a Running timer with
    the whole duration of that phase remaining. *)
Theorem starts_walk_the_sequence
    (fuel : nat) (st : Settings) (listeners : bool) (now : Z) (nows : list Z) :
  intervalDefined st ->
  exists s' es p x,
    PomodoroTimer.run fuel (map PomodoroTimer.Start (now :: nows))
      (selected st Focus listeners) = Returns s' es /\
    (PomodoroTimer.phase s', PomodoroTimer.nextPhase s') =
      PomodoroTimer.generated st (length nows) /\
    PomodoroTimer.phase s' = Some p /\
    PomodoroTimer.timer s' = Some x /\
    Timer.state x = Running /\
    Timer.duration x = PomodoroTimer.seconds (minutes st p) /\
    Timer.remaining x = Some (PomodoroTimer.seconds (minutes st p)).
Proof.
  intro Hd.
  destruct (first_start_Started st now listeners Hd) as (s1 & e1 & E1 & S1).
  destruct (starts_Started st fuel nows 0 s1 S1) as (s2 & e2 & E2 & S2).
  destruct S2 as (_ & _ & _ & G & p & x & Hp & Hx & K1 & K2 & K3).
  exists s2, (e1 ++ e2), p, x.
  split.
  - cbn [map PomodoroTimer.run PomodoroTimer.exec]. rewrite E1, E2. reflexivity.
  - split; [exact G|]. split; [exact Hp|]. split; [exact Hx|].
    split; [exact K1|]. split; [exact K2 | exact K3].
Qed.

Lemma starts_walk_the_sequence_witness :
  exists s' es p x,
    PomodoroTimer.run 0 (map PomodoroTimer.Start [0; 10; 20; 30; 40])
      (selected (sample (Some 2)) Focus false) = Returns s' es /\
    (PomodoroTimer.phase s', PomodoroTimer.nextPhase s') =
      PomodoroTimer.generated (sample (Some 2)) 4 /\
    PomodoroTimer.phase s' = Some p /\
    PomodoroTimer.timer s' = Some x /\
    Timer.state x = Running /\
    Timer.duration x = PomodoroTimer.seconds (minutes (sample (Some 2)) p) /\
    Timer.remaining x = Some (PomodoroTimer.seconds (minutes (sample (Some 2)) p)).
Proof.
  apply (starts_walk_the_sequence 0 (sample (Some 2)) false 0 [10; 20; 30; 40]).
  vm_compute. discriminate.
Defined.

End SequencerHistories.

(** * Further behaviour of [PersistentPomodoroTimer], and summaries *)

Section WrapperBehaviour.

Lemma constructor_selected fuel st :
  intervalDefined st -> (enoughFuel st <= fuel)%nat ->
  PomodoroTimer.new fuel st Focus = Returns (selected st Focus false) [CycleReset Focus].
Proof.
  intros Hd Hf. unfold PomodoroTimer.new.
  rewrite (setPhase_selected fuel Focus (PomodoroTimer.blank st)); try assumption.
  - reflexivity.
  - discriminate.
Qed.

(** X20: the wrapper's constructor and every later settings change leave
    the wrapper holding the same sequencer, which depends on the new
    settings alone: Focus selected, its untouched timer installed, the
    start-of-cycle flag set and the wrapper's handlers registered.  Whatever
    phase, progress or timer the previous sequencer had is discarded. *)
Theorem settings_change_is_fresh_construction
    (fuel : nat) (st : Settings) (w : PersistentPomodoroTimer.t)
    (old : PomodoroTimer.t) (x : Timer.t) :
  intervalDefined st ->
  (enoughFuel st <= fuel)%nat ->
  PersistentPomodoroTimer.timer w = Some old ->
  PomodoroTimer.timer old = Some x ->
  PersistentPomodoroTimer.new fuel st =
    PersistentPomodoroTimer.Returned
      (PersistentPomodoroTimer.mk (Some (selected st Focus true))) [CycleReset Focus] [] /\
  exists inner outer,
    PersistentPomodoroTimer.onSettingsChange fuel st w =
      PersistentPomodoroTimer.Returned
        (PersistentPomodoroTimer.mk (Some (selected st Focus true))) inner outer.
Proof.
  intros Hd Hf Hw Hx. split.
  - unfold PersistentPomodoroTimer.new, PersistentPomodoroTimer.onSettingsChange.
    cbn [PersistentPomodoroTimer.timer].
    rewrite (constructor_selected fuel st Hd Hf). reflexivity.
  - unfold PersistentPomodoroTimer.onSettingsChange, PersistentPomodoroTimer.delegate.
    rewrite Hw. unfold PomodoroTimer.dispose, PomodoroTimer.onTimer. rewrite Hx.
    destruct (Timer.stop x) as [x1 e1]. cbn [PomodoroTimer.timer PomodoroTimer.set_timer].
    rewrite (constructor_selected fuel st Hd Hf).
    do 2 eexists. reflexivity.
Qed.

Lemma settings_change_is_fresh_construction_witness :
  PersistentPomodoroTimer.new 10 (sample (Some 4)) =
    PersistentPomodoroTimer.Returned
      (PersistentPomodoroTimer.mk (Some (selected (sample (Some 4)) Focus true)))
      [CycleReset Focus] [] /\
  exists inner outer,
    PersistentPomodoroTimer.onSettingsChange 10 (sample (Some 4)) (built 10 (sample None)) =
      PersistentPomodoroTimer.Returned
        (PersistentPomodoroTimer.mk (Some (selected (sample (Some 4)) Focus true)))
        inner outer.
Proof.
  apply (settings_change_is_fresh_construction 10 (sample (Some 4)) (built 10 (sample None))
           (selected (sample None) Focus true) (installed (sample None) Focus)).
  - vm_compute. discriminate.
  - vm_compute. lia.
  - vm_compute. reflexivity.
  - reflexivity.
Defined.

(** X21: every method of the wrapper, and every callback of the timer
    underneath, does on the wrapper exactly what it does on the sequencer
    the wrapper holds: the same return or throw, the resulting sequencer
    held in place of the old one, and the sequencer's events emitted by the
    wrapper one for one, same names and same arguments. *)
Theorem wrapper_is_transparent
    (fuel : nat) (o : PomodoroTimer.Op) (w : PersistentPomodoroTimer.t)
    (s : PomodoroTimer.t) :
  PersistentPomodoroTimer.timer w = Some s ->
  PomodoroTimer.observed s = true ->
  PersistentPomodoroTimer.exec fuel o w =
    match PomodoroTimer.exec fuel o s with
    | Returns s' es =>
        PersistentPomodoroTimer.Returned (PersistentPomodoroTimer.mk (Some s')) es es
    | Throws err s' es =>
        PersistentPomodoroTimer.Thrown err (PersistentPomodoroTimer.mk (Some s')) es es
    | OutOfFuel => PersistentPomodoroTimer.NoFuel
    end.
Proof.
  intros Hw Ho.
  assert (D : PersistentPomodoroTimer.exec fuel o w =
              PersistentPomodoroTimer.delegate (PomodoroTimer.exec fuel o) w).
  { destruct o; simpl; try reflexivity; rewrite Hw; reflexivity. }
  rewrite D. unfold PersistentPomodoroTimer.delegate. rewrite Hw.
  destruct (PomodoroTimer.exec fuel o s) as [s' es | err s' es |];
    try rewrite (forward_observed s es Ho); reflexivity.
Qed.

Lemma wrapper_is_transparent_witness :
  let s := selected (sample (Some 4)) Focus true in
  let w := PersistentPomodoroTimer.mk (Some s) in
  PersistentPomodoroTimer.exec 10 (PomodoroTimer.StartLongBreak 3) w =
    match PomodoroTimer.exec 10 (PomodoroTimer.StartLongBreak 3) s with
    | Returns s' es =>
        PersistentPomodoroTimer.Returned (PersistentPomodoroTimer.mk (Some s')) es es
    | Throws err s' es =>
        PersistentPomodoroTimer.Thrown err (PersistentPomodoroTimer.mk (Some s')) es es
    | OutOfFuel => PersistentPomodoroTimer.NoFuel
    end.
Proof.
  intros s w.
  apply (wrapper_is_transparent 10 (PomodoroTimer.StartLongBreak 3) w s).
  - reflexivity.
  - reflexivity.
Defined.

(** X22: with the interval zero or absent the generated pairs alternate
    (Focus, ShortBreak), (ShortBreak, Focus) for ever, and LongBreak is never
    generated. *)
Theorem no_long_break_alternation (st : Settings) (n : nat) :
  truthy (longBreak_interval st) = false ->
  PomodoroTimer.generated st n = alternation n /\
  fst (PomodoroTimer.generated st n) <> Some LongBreak.
Proof.
  intro H. rewrite (falsy_generated st n H). split; [reflexivity|].
  unfold alternation. destruct (Nat.even n); discriminate.
Qed.

Lemma no_long_break_alternation_witness :
  PomodoroTimer.generated (sample None) 7 = alternation 7 /\
  fst (PomodoroTimer.generated (sample None) 7) <> Some LongBreak.
Proof.
  apply (no_long_break_alternation (sample None) 7).
  reflexivity.
Defined.

(** X23: the constructor of the sequencer, for an interval that is absent
    or not negative.  For initial phase LongBreak without a long break
    configured it throws InvalidConfiguration; otherwise it returns the
    sequencer at the initial phase with the start-of-cycle flag set and the
    phase's untouched timer installed, having emitted exactly one
    cycle:reset while no observer is registered. *)
Theorem constructor_builds (fuel : nat) (st : Settings) (p : Phase) :
  intervalDefined st ->
  (enoughFuel st <= fuel)%nat ->
  (p = LongBreak /\ positive (longBreak_interval st) = false ->
   PomodoroTimer.new fuel st p = Throws InvalidConfiguration (PomodoroTimer.blank st) []) /\
  (~ (p = LongBreak /\ positive (longBreak_interval st) = false) ->
   PomodoroTimer.new fuel st p = Returns (selected st p false) [CycleReset p] /\
   PomodoroTimer.observed (selected st p false) = false).
Proof.
  intros Hd Hf. split.
  - intros [H1 H2]. apply setPhase_throw; assumption.
  - intro Hn. split; [| reflexivity].
    unfold PomodoroTimer.new.
    rewrite (setPhase_selected fuel p (PomodoroTimer.blank st)); try assumption.
    + reflexivity.
    + intro Hl. simpl. destruct (positive (longBreak_interval st)) eqn:E; [reflexivity|].
      contradiction Hn. split; [exact Hl | reflexivity].
Qed.

Lemma constructor_builds_witness :
  PomodoroTimer.new 2 (sample (Some 0)) LongBreak =
    Throws InvalidConfiguration (PomodoroTimer.blank (sample (Some 0))) [] /\
  PomodoroTimer.new 10 (sample (Some 4)) LongBreak =
    Returns (selected (sample (Some 4)) LongBreak false) [CycleReset LongBreak] /\
  PomodoroTimer.observed (selected (sample (Some 4)) LongBreak false) = false.
Proof.
  split.
  - apply (proj1 (constructor_builds 2 (sample (Some 0)) LongBreak
                    ltac:(vm_compute; discriminate) ltac:(vm_compute; lia))).
    split; reflexivity.
  - apply (proj2 (constructor_builds 10 (sample (Some 4)) LongBreak
                    ltac:(vm_compute; discriminate) ltac:(vm_compute; lia))).
    intros [_ H]. vm_compute in H. discriminate H.
Defined.

(** X24: with any negative interval the generator yields (LongBreak, Focus)
    at every step, and the setter, asked for Focus or ShortBreak, throws
    nothing and never returns, whatever the number of steps it is given. *)
Theorem negative_interval_behaviour
    (s : PomodoroTimer.t) (z : Z) (n fuel : nat) (p : Phase) :
  longBreak_interval (PomodoroTimer.settings s) = Some z ->
  z < 0 ->
  p <> LongBreak ->
  PomodoroTimer.generated (PomodoroTimer.settings s) n = (Some LongBreak, Some Focus) /\
  PomodoroTimer.setPhase fuel p s = OutOfFuel.
Proof.
  intros Hi Hz Hp. split.
  - apply (negative_generated _ z); assumption.
  - apply (setPhase_negative z); assumption.
Qed.

Lemma negative_interval_behaviour_witness :
  PomodoroTimer.generated (sample (Some (-3))) 6 = (Some LongBreak, Some Focus) /\
  PomodoroTimer.setPhase 50 ShortBreak (PomodoroTimer.blank (sample (Some (-3)))) = OutOfFuel.
Proof.
  apply (negative_interval_behaviour (PomodoroTimer.blank (sample (Some (-3)))) (-3) 6 50 ShortBreak).
  - reflexivity.
  - lia.
  - discriminate.
Defined.

End WrapperBehaviour.
